(** * ola-rdm: the RDM transaction driver of [examples/ola-rdm.cpp]

    A shallow embedding of [RDMController] (the response handler, the
    queued-message fetch, the request set-up) together with a small model of
    the reactor it runs on, and the properties of the transaction state
    machine proved over it.

    Conventions.
    - Machine integers ([uint8_t], [uint16_t], [unsigned int], enum values)
      are [Z]; the driver only compares them and passes them on, so no
      wrap-around arithmetic is involved.
    - [std::string] is [string]; a [(const uint8_t*, length)] buffer is a
      [list byte].
    - Everything the driver does to the outside world (stream output, log
      lines, requests, timers, [Terminate]) is appended, in program order, to
      the [trace] of the [world] the code runs in. *)

From Stdlib Require Import ZArith List String Bool Lia.
From Stdlib.Strings Require Import Byte.
Import ListNotations.

Local Open Scope Z_scope.

(** ** Data *)

(** [ola::rdm::UID]: manufacturer id and device id. *)
Record UID := { ManufacturerId : Z; DeviceId : Z }.

(** [ola::rdm::ResponseStatus], with the fields and accessors that
    [HandleResponse] reads. *)
Module ResponseStatus.
Record t := {
  error : string;          (* non-empty if the RPC itself failed *)
  response_code : Z;       (* rdm_response_code *)
  response_type : Z;       (* uint8_t, rdm_response_type *)
  message_count : Z;       (* uint8_t *)
  pid_value : Z;           (* uint16_t *)
  set_command : bool;
  AckTimer : Z;            (* AckTimer() *)
  NackReason : Z           (* NackReason() *)
}.
End ResponseStatus.
Import ResponseStatus(error, response_code, response_type, message_count,
                      set_command, AckTimer, NackReason).

(** [RDMController::pending_request_t].  [uid] is a pointer to a [const UID]
    that outlives the transaction; it is modelled by the value it points to. *)
Module pending_request_t.
Record t := {
  universe : Z;            (* unsigned int *)
  uid : UID;               (* const UID* *)
  sub_device : Z;          (* uint16_t *)
  pid_value : Z            (* uint16_t *)
}.
End pending_request_t.
Import pending_request_t(universe, uid, sub_device, pid_value).

(** ** Stream output

    The operands of [<<] are [token]s; what reaches the stream are [glyph]s.
    [std::hex] is sticky: once inserted, every later integer written to the
    same stream is in base 16. *)
Inductive token :=
| str (s : string)
| num (n : Z)
| hex
| endl.

Inductive glyph :=
| text (s : string)
| number (base16 : bool) (n : Z)
| newline.

Fixpoint insert (base16 : bool) (l : list token) : list glyph * bool :=
  match l with
  | [] => ([], base16)
  | str s :: l' => let (g, b) := insert base16 l' in (text s :: g, b)
  | num n :: l' => let (g, b) := insert base16 l' in (number base16 n :: g, b)
  | hex :: l' => insert true l'
  | endl :: l' => let (g, b) := insert base16 l' in (newline :: g, b)
  end.

(** ** Events and the world *)

Inductive event :=
| ev_cout (g : list glyph)
| ev_cerr (g : list glyph)
| ev_warn (g : list glyph)                       (* OLA_WARN *)
| ev_RDMGet (universe : Z) (uid : UID) (sub_device pid : Z)
            (data : list byte)
| ev_RDMSet (universe : Z) (uid : UID) (sub_device pid : Z)
            (data : list byte)
| ev_RegisterSingleTimeout (delay : Z)
| ev_Run
| ev_Terminate
| ev_timeout (delay : Z)          (* the reactor fires a timer *)
| ev_response (r : ResponseStatus.t) (rdm_data : string).
                                  (* the reactor delivers a reply *)

(** What is registered with the reactor.  Every completion callback the
    driver hands out is [HandleResponse]; every timer callback is
    [FetchQueuedMessage]. *)
Inductive registration :=
| OnResponse
| OnTimeout (delay : Z).

Record world := {
  m_pending_request : pending_request_t.t;
  cout_hex : bool;                   (* the basefield of std::cout *)
  m_terminate : bool;                (* the select server's stop flag *)
  registered : list registration;    (* oldest first *)
  trace : list event                 (* oldest first *)
}.

Definition action := world -> world.

Definition seq (a b : action) : action := fun w => b (a w).
Notation "a ;; b" := (seq a b) (at level 61, right associativity).

Definition skip : action := fun w => w.

Definition emit (e : event) : action := fun w =>
  {| m_pending_request := m_pending_request w;
     cout_hex := cout_hex w;
     m_terminate := m_terminate w;
     registered := registered w;
     trace := trace w ++ [e] |}.

Definition emit_all (l : list event) : action := fun w =>
  {| m_pending_request := m_pending_request w;
     cout_hex := cout_hex w;
     m_terminate := m_terminate w;
     registered := registered w;
     trace := trace w ++ l |}.

Definition register (r : registration) : action := fun w =>
  {| m_pending_request := m_pending_request w;
     cout_hex := cout_hex w;
     m_terminate := m_terminate w;
     registered := registered w ++ [r];
     trace := trace w |}.

Definition set_registered (l : list registration) : action := fun w =>
  {| m_pending_request := m_pending_request w;
     cout_hex := cout_hex w;
     m_terminate := m_terminate w;
     registered := l;
     trace := trace w |}.

Definition set_cout_hex (b : bool) : action := fun w =>
  {| m_pending_request := m_pending_request w;
     cout_hex := b;
     m_terminate := m_terminate w;
     registered := registered w;
     trace := trace w |}.

Definition set_m_terminate (b : bool) : action := fun w =>
  {| m_pending_request := m_pending_request w;
     cout_hex := cout_hex w;
     m_terminate := b;
     registered := registered w;
     trace := trace w |}.

Definition set_m_pending_request (p : pending_request_t.t) : action := fun w =>
  {| m_pending_request := p;
     cout_hex := cout_hex w;
     m_terminate := m_terminate w;
     registered := registered w;
     trace := trace w |}.

(** [cout << ...;] *)
Definition cout (l : list token) : action := fun w =>
  let (g, b) := insert (cout_hex w) l in
  (emit (ev_cout g) ;; set_cout_hex b) w.

(** [cerr << ...;]  The driver never inserts [std::hex] into [cerr]. *)
Definition cerr (l : list token) : action :=
  emit (ev_cerr (fst (insert false l))).

(** [OLA_WARN << ...;]  Each log line is formatted in a stream of its own. *)
Definition OLA_WARN (l : list token) : action :=
  emit (ev_warn (fst (insert false l))).

(** [m_ola_client.GetSelectServer()->Terminate()] *)
Definition Terminate : action :=
  emit ev_Terminate ;; set_m_terminate true.

(** [m_ola_client.GetSelectServer()->RegisterSingleTimeout(delay,
    NewSingleCallback(this, &RDMController::FetchQueuedMessage))] *)
Definition RegisterSingleTimeout (delay : Z) : action :=
  emit (ev_RegisterSingleTimeout delay) ;; register (OnTimeout delay).

(** [m_ola_client.GetClient()->RDMGet(NewSingleCallback(this,
    &RDMController::HandleResponse), ...)] and its [RDMSet] twin. *)
Definition RDMGet (universe : Z) (uid : UID) (sub_device pid : Z)
    (data : list byte) : action :=
  emit (ev_RDMGet universe uid sub_device pid data) ;; register OnResponse.

Definition RDMSet (universe : Z) (uid : UID) (sub_device pid : Z)
    (data : list byte) : action :=
  emit (ev_RDMSet universe uid sub_device pid data) ;; register OnResponse.

(** ** External collaborators

    The headers below are not part of the sources at hand; what the driver
    uses of each is taken as a parameter. *)

(** [ola/rdm/RDMResponseCodes.h] and [ola/rdm/RDMEnums.h]: the enum values
    the driver compares against. *)
Class RDMEnums := {
  RDM_COMPLETED_OK : Z;      (* rdm_response_code *)
  RDM_WAS_BROADCAST : Z;
  RDM_ACK : Z;               (* rdm_response_type *)
  RDM_ACK_TIMER : Z;
  RDM_NACK_REASON : Z;
  PID_QUEUED_MESSAGE : Z;    (* rdm_pid *)
  PID_STATUS_MESSAGES : Z
}.

(** [ola/base/SysExits.h] *)
Class SysExits := {
  EXIT_OK : Z;
  EXIT_USAGE : Z
}.

(** [ola/StringUtils.h]: the [uint16_t] overloads; [None] is a [false]
    return, which leaves the output argument alone. *)
Class StringUtils := {
  PrefixedHexStringToInt : string -> option Z;
  StringToInt : string -> option Z
}.

(** [ola/rdm/RDMHelper.h] *)
Class RDMHelper := {
  ResponseCodeToString : Z -> string;
  NackReasonToString : Z -> string
}.

(** [ola/rdm/PidStoreHelper.h], with [ola::rdm::PidDescriptor] and the
    [ola::messaging] types it hands out.  A null pointer is [None]. *)
Class PidStoreHelper := {
  Descriptor : Type;
  Message : Type;
  PidDescriptor : Type;
  Name : PidDescriptor -> string;
  Value : PidDescriptor -> Z;
  GetRequest : PidDescriptor -> option Descriptor;
  GetResponse : PidDescriptor -> option Descriptor;
  SetRequest : PidDescriptor -> option Descriptor;
  SetResponse : PidDescriptor -> option Descriptor;
  GetDescriptor_name : string -> Z -> option PidDescriptor;
  GetDescriptor_value : Z -> Z -> option PidDescriptor;
  BuildMessage : Descriptor -> list string -> option Message;
  SchemaAsString : Descriptor -> string;
  SerializeMessage : Message -> list byte;
  DeserializeMessage : Descriptor -> string -> option Message;
  PrettyPrintMessage : Z -> bool -> Z -> Message -> string
}.

(** How a [PerformRequestAndWait] call ends. *)
Inductive completion :=
| returns (status : Z)       (* [return status;] *)
| exits (status : Z)         (* [exit(status);] *)
| hangs                      (* [Run()] has nothing left that could wake it *)
| out_of_fuel.

Inductive loop_result := stopped | stuck | unfinished.

(** One reply of the daemon: the status and the parameter data. *)
Definition reply : Type := ResponseStatus.t * string.

Section RDMController.

Context {enums : RDMEnums} {sysexits : SysExits} {strutil : StringUtils}
        {rdmhelper : RDMHelper} {m_pid_helper : PidStoreHelper}.

(** [RDMController::FetchQueuedMessage] *)
Definition FetchQueuedMessage : action := fun w =>
  let status_type := x04 in
  RDMGet (universe (m_pending_request w))
         (uid (m_pending_request w))
         (sub_device (m_pending_request w))
         PID_QUEUED_MESSAGE
         [status_type] w.

(** [RDMController::PrintRemainingMessages] *)
Definition PrintRemainingMessages (message_count : Z) : action :=
  if message_count =? 0 then skip
  else
    cout [str "-----------------------------------------------------"; endl] ;;
    cout [str "Messages remaining: "; num message_count; endl].

(** [RDMController::HandleAckResponse] *)
Definition HandleAckResponse (manufacturer_id : Z) (is_set : bool) (pid : Z)
    (rdm_data : string) : action := fun w =>
  match GetDescriptor_value pid
          (ManufacturerId (uid (m_pending_request w))) with
  | None => OLA_WARN [str "Unknown PID: "; num pid; str "."] w
  | Some pid_descriptor =>
    match (if is_set then SetResponse pid_descriptor
           else GetResponse pid_descriptor) with
    | None =>
      OLA_WARN [str "Unknown response message: ";
                str (if is_set then "SET" else "GET");
                str " "; str (Name pid_descriptor)] w
    | Some descriptor =>
      match DeserializeMessage descriptor rdm_data with
      | None => OLA_WARN [str "Unable to inflate RDM response"] w
      | Some message =>
        cout [str (PrettyPrintMessage manufacturer_id is_set pid message)] w
      end
    end
  end.

(** [RDMController::HandleResponse].  The two statements that close the
    function, [PrintRemainingMessages] and [Terminate], are reached by every
    branch of the response-type test except the one that returns after
    [FetchQueuedMessage]. *)
Definition HandleResponse (response_status : ResponseStatus.t)
    (rdm_data : string) : action := fun w =>
  let finish :=
    PrintRemainingMessages (message_count response_status) ;; Terminate in
  if negb (String.eqb (error response_status) EmptyString) then
    (cerr [str "Error: "; str (error response_status); endl] ;; Terminate) w
  else if response_code response_status =? RDM_WAS_BROADCAST then
    Terminate w
  else if negb (response_code response_status =? RDM_COMPLETED_OK) then
    (cerr [str "Error: ";
           str (ResponseCodeToString (response_code response_status)); endl] ;;
     Terminate) w
  else if response_type response_status =? RDM_ACK_TIMER then
    RegisterSingleTimeout (AckTimer response_status) w
  else if response_type response_status =? RDM_ACK then
    if (ResponseStatus.pid_value response_status
          =? pid_value (m_pending_request w))
       || (pid_value (m_pending_request w) =? PID_QUEUED_MESSAGE) then
      (HandleAckResponse (ManufacturerId (uid (m_pending_request w)))
                         (set_command response_status)
                         (ResponseStatus.pid_value response_status)
                         rdm_data ;;
       finish) w
    else if negb (ResponseStatus.pid_value response_status
                    =? PID_STATUS_MESSAGES)
            || negb (Nat.eqb (String.length rdm_data) 0) then
      FetchQueuedMessage w
    else
      (cout [str "Empty STATUS_MESSAGES returned."; endl] ;; finish) w
  else if response_type response_status =? RDM_NACK_REASON then
    (cout [str "Request NACKed: ";
           str (NackReasonToString (NackReason response_status)); endl] ;;
     finish) w
  else
    (cout [str "Unknown RDM response type "; hex;
           num (response_type response_status); endl] ;;
     finish) w.

(** Modelled from the spec: the reactor ([ola::io::SelectServer] and the
    client's completion callbacks), which is not among the sources.  [run()]
    blocks until [terminate()] has been called from inside a callback; a
    one-shot timer fires once, after its delay, and calls the callback it was
    registered with; the completion callback of a submitted request is called
    once, with the next reply of the daemon.  Registrations are served oldest
    first.  [fuel] bounds the number of callbacks served. *)
Fixpoint Run (fuel : nat) (replies : list reply) (w : world)
    : loop_result * world :=
  if m_terminate w then (stopped, w)
  else
    match fuel with
    | O => (unfinished, w)
    | S fuel' =>
      match registered w with
      | [] => (stuck, w)
      | OnTimeout delay :: rest =>
        Run fuel' replies
            ((set_registered rest ;; emit (ev_timeout delay) ;;
              FetchQueuedMessage) w)
      | OnResponse :: rest =>
        match replies with
        | [] => (stuck, w)
        | (response_status, rdm_data) :: replies' =>
          Run fuel' replies'
              ((set_registered rest ;;
                emit (ev_response response_status rdm_data) ;;
                HandleResponse response_status rdm_data) w)
        end
      end
    end.

(** Lines 329-340 of [PerformRequestAndWait]: the descriptor is looked up by
    name and, when that gives nothing and the name parses as a number, by
    value. *)
Definition lookup_descriptor (uid : UID) (pid_name : string)
    : option PidDescriptor :=
  let pid_descriptor := GetDescriptor_name pid_name (ManufacturerId uid) in
  match pid_descriptor with
  | Some _ => pid_descriptor
  | None =>
    match PrefixedHexStringToInt pid_name with
    | Some pid_value => GetDescriptor_value pid_value (ManufacturerId uid)
    | None =>
      match StringToInt pid_name with
      | Some pid_value => GetDescriptor_value pid_value (ManufacturerId uid)
      | None => None
      end
    end
  end.

(** Lines 370-398 of [PerformRequestAndWait]: the pending request is
    recorded, the message serialised and handed to the client. *)
Definition submit (universe : Z) (uid : UID) (sub_device : Z)
    (pid_descriptor : PidDescriptor) (is_set : bool) (message : Message)
    : action := fun w =>
  let w1 :=
    set_m_pending_request
      {| pending_request_t.universe := universe;
         pending_request_t.uid := uid;
         pending_request_t.sub_device := sub_device;
         pending_request_t.pid_value := Value pid_descriptor |} w in
  let param_data := SerializeMessage message in
  if is_set then
    RDMSet (pending_request_t.universe (m_pending_request w1))
           (pending_request_t.uid (m_pending_request w1))
           (pending_request_t.sub_device (m_pending_request w1))
           (Value pid_descriptor) param_data w1
  else
    RDMGet (pending_request_t.universe (m_pending_request w1))
           (pending_request_t.uid (m_pending_request w1))
           (pending_request_t.sub_device (m_pending_request w1))
           (Value pid_descriptor) param_data w1.

(** Lines 400-401: [Run()], then [return ola::EXIT_OK]. *)
Definition run_and_return (fuel : nat) (replies : list reply) (w : world)
    : completion * world :=
  match Run fuel replies (emit ev_Run w) with
  | (stopped, w') => (returns EXIT_OK, w')
  | (stuck, w') => (hangs, w')
  | (unfinished, w') => (out_of_fuel, w')
  end.

(** [RDMController::PerformRequestAndWait], run against the replies the
    daemon is going to give. *)
Definition PerformRequestAndWait (universe : Z) (uid : UID) (sub_device : Z)
    (pid_name : string) (is_set : bool) (inputs : list string)
    (fuel : nat) (replies : list reply) (w : world) : completion * world :=
  match lookup_descriptor uid pid_name with
  | None =>
    (returns EXIT_USAGE,
     (cout [str "Unknown PID: "; str pid_name; endl] ;;
      cout [str "Use --list-pids to list the available PIDs."; endl]) w)
  | Some pid_descriptor =>
    match (if is_set then SetRequest pid_descriptor
           else GetRequest pid_descriptor) with
    | None =>
      (exits EXIT_USAGE,
       cout [str (if is_set then "SET" else "GET");
             str " command not supported for "; str pid_name; endl] w)
    | Some descriptor =>
      match BuildMessage descriptor inputs with
      | None =>
        (returns EXIT_USAGE, cout [str (SchemaAsString descriptor)] w)
      | Some message =>
        run_and_return fuel replies
          (submit universe uid sub_device pid_descriptor is_set message w)
      end
    end
  end.

End RDMController.

(** ** Vocabulary of the specification *)

(** The response outcomes of the specification's data model. *)
Module ResponseOutcome.
Inductive t :=
| TransportError (message : string)
| Broadcast
| ProtocolError (code : Z)
| AckTimer (delay : Z)
| Ack (parameterValue : Z) (payload : string)
| NackReason (code : Z)
| UnknownType (tag : Z).
End ResponseOutcome.

(** The branches of the response handler that the specification tells
    apart. *)
Inductive branch :=
| transport_error
| broadcast
| protocol_error
| ack_timer
| authoritative_ack
| queue_signal_ack
| empty_status_messages_ack
| nack
| unknown_type.

Definition terminal (b : branch) : bool :=
  match b with
  | ack_timer | queue_signal_ack => false
  | _ => true
  end.

Section Classification.

Context {enums : RDMEnums}.

(** The specification's response classifier: the outcome that the chain of
    tests at the head of [HandleResponse] singles out, in the order the
    handler makes them. *)
Definition ResponseClassifier (response_status : ResponseStatus.t)
    (rdm_data : string) : ResponseOutcome.t :=
  if negb (String.eqb (error response_status) EmptyString) then
    ResponseOutcome.TransportError (error response_status)
  else if response_code response_status =? RDM_WAS_BROADCAST then
    ResponseOutcome.Broadcast
  else if negb (response_code response_status =? RDM_COMPLETED_OK) then
    ResponseOutcome.ProtocolError (response_code response_status)
  else if response_type response_status =? RDM_ACK_TIMER then
    ResponseOutcome.AckTimer (AckTimer response_status)
  else if response_type response_status =? RDM_ACK then
    ResponseOutcome.Ack (ResponseStatus.pid_value response_status) rdm_data
  else if response_type response_status =? RDM_NACK_REASON then
    ResponseOutcome.NackReason (NackReason response_status)
  else
    ResponseOutcome.UnknownType (response_type response_status).

(** The branch an outcome takes when [requested] is the parameter of the
    pending request: an ack is authoritative when it carries the requested
    parameter or the request was for the queued-message parameter; otherwise
    it is the empty status-messages ack when it carries the status-messages
    parameter and no payload, and a queue signal in every other case. *)
Definition branch_of (requested : Z) (o : ResponseOutcome.t) : branch :=
  match o with
  | ResponseOutcome.TransportError _ => transport_error
  | ResponseOutcome.Broadcast => broadcast
  | ResponseOutcome.ProtocolError _ => protocol_error
  | ResponseOutcome.AckTimer _ => ack_timer
  | ResponseOutcome.Ack parameterValue payload =>
    if (parameterValue =? requested) || (requested =? PID_QUEUED_MESSAGE)
    then authoritative_ack
    else if (parameterValue =? PID_STATUS_MESSAGES)
            && Nat.eqb (String.length payload) 0
    then empty_status_messages_ack
    else queue_signal_ack
  | ResponseOutcome.NackReason _ => nack
  | ResponseOutcome.UnknownType _ => unknown_type
  end.

(** A queued-message fetch for the pending request [p], as it shows in the
    trace. *)
Definition fetch_of (p : pending_request_t.t) : event :=
  ev_RDMGet (universe p) (uid p) (sub_device p) PID_QUEUED_MESSAGE [x04].

(** The branch that reply [r] takes while [p] is the pending request. *)
Definition branch_for (p : pending_request_t.t) (r : reply) : branch :=
  branch_of (pid_value p) (ResponseClassifier (fst r) (snd r)).

(** What a reply that does not end the transaction adds to the trace: its
    delivery, then either the timer set-up, the timer firing and the fetch,
    or the fetch alone. *)
Definition progress (p : pending_request_t.t) (r : reply) : list event :=
  match ResponseClassifier (fst r) (snd r) with
  | ResponseOutcome.AckTimer delay =>
    [ev_response (fst r) (snd r); ev_RegisterSingleTimeout delay;
     ev_timeout delay; fetch_of p]
  | _ => [ev_response (fst r) (snd r); fetch_of p]
  end.

(** The callbacks the reactor serves for such a reply. *)
Definition cost (r : reply) : nat :=
  match ResponseClassifier (fst r) (snd r) with
  | ResponseOutcome.AckTimer _ => 2
  | _ => 1
  end.

Definition steps (l : list reply) : nat :=
  List.fold_right (fun r n => (cost r + n)%nat) 0%nat l.

End Classification.

(** ** Reading traces *)

Definition is_Terminate (e : event) : bool :=
  match e with ev_Terminate => true | _ => false end.

(** A request put on the connection. *)
Definition is_request (e : event) : bool :=
  match e with
  | ev_RDMGet _ _ _ _ _ | ev_RDMSet _ _ _ _ _ => true
  | _ => false
  end.

(** Stream and log output: no request, no timer, no [Terminate]. *)
Definition is_output (e : event) : bool :=
  match e with ev_cout _ | ev_cerr _ | ev_warn _ => true | _ => false end.

Definition count (f : event -> bool) (t : list event) : nat :=
  List.length (List.filter f t).

(** The two lines that report a non-zero count of remaining messages, with
    the count in base 16 iff [base16]. *)
Definition remaining_lines (base16 : bool) (message_count : Z) : list event :=
  if message_count =? 0 then []
  else [ev_cout [text "-----------------------------------------------------";
                 newline];
        ev_cout [text "Messages remaining: "; number base16 message_count;
                 newline]].

(** What [w'] has recorded on top of [w]. *)
Definition since (w w' : world) : list event :=
  skipn (List.length (trace w)) (trace w').

(** The request that opens a transaction for [p], as it shows in the trace. *)
Definition request_of (is_set : bool) (p : pending_request_t.t)
    (data : list byte) : event :=
  if is_set
  then ev_RDMSet (universe p) (uid p) (sub_device p) (pid_value p) data
  else ev_RDMGet (universe p) (uid p) (sub_device p) (pid_value p) data.

(** The trace of a transaction up to the moment the loop starts: the request
    for [p] with parameter data [data], then [Run()]. *)
Definition opening (is_set : bool) (p : pending_request_t.t)
    (data : list byte) : list event :=
  [request_of is_set p data; ev_Run].

(** The world a reply is handled in when nothing has set [std::hex] yet:
    [p] is pending, [t] has happened, and the callback that is running is no
    longer registered. *)
Definition delivered (p : pending_request_t.t) (t : list event) : world :=
  {| m_pending_request := p;
     cout_hex := false;
     m_terminate := false;
     registered := [];
     trace := t |}.

(** The loop is running and the completion callback of one request, and
    nothing else, is registered. *)
Definition waiting (w : world) : Prop :=
  m_terminate w = false /\ registered w = [OnResponse].

(** The process as [main] leaves it when it calls [PerformRequestAndWait]:
    nothing written, nothing registered, and a pending-request record that
    has not been initialised ([garbage]). *)
Definition boot (garbage : pending_request_t.t) : world :=
  {| m_pending_request := garbage;
     cout_hex := false;
     m_terminate := false;
     registered := [];
     trace := [] |}.

(** ** A concrete setting

    The enum values of ANSI E1.20 and of [sysexits.h], and a small PID store,
    to run the model on. *)
Module Rig.

Definition enums : RDMEnums :=
  {| RDM_COMPLETED_OK := 0;
     RDM_WAS_BROADCAST := 1;
     RDM_ACK := 0;
     RDM_ACK_TIMER := 1;
     RDM_NACK_REASON := 2;
     PID_QUEUED_MESSAGE := 32;       (* 0x0020 *)
     PID_STATUS_MESSAGES := 48 |}.   (* 0x0030 *)

Definition sysexits : SysExits :=
  {| EXIT_OK := 0; EXIT_USAGE := 64 |}.

Definition strutil : StringUtils :=
  {| PrefixedHexStringToInt := fun s =>
       if String.eqb s "0x0060" then Some 96 else None;
     StringToInt := fun s =>
       if String.eqb s "96" then Some 96 else None |}.

Definition rdmhelper : RDMHelper :=
  {| ResponseCodeToString := fun _ => "RDM response code"%string;
     NackReasonToString := fun _ => "NACK reason"%string |}.

(** A parameter of the store: its name, its value, and the number of
    arguments its GET request takes (SET is not supported). *)
Record pid := { pid_name : string; pid_id : Z; get_arity : nat }.

Definition DEVICE_INFO : pid :=
  {| pid_name := "DEVICE_INFO"; pid_id := 96; get_arity := 0 |}.
Definition QUEUED_MESSAGE : pid :=
  {| pid_name := "QUEUED_MESSAGE"; pid_id := 32; get_arity := 1 |}.
Definition STATUS_MESSAGES : pid :=
  {| pid_name := "STATUS_MESSAGES"; pid_id := 48; get_arity := 1 |}.

Definition store : list pid := [DEVICE_INFO; QUEUED_MESSAGE; STATUS_MESSAGES].

Definition m_pid_helper : PidStoreHelper :=
  {| Descriptor := nat;
     Message := list string;
     PidDescriptor := pid;
     Name := pid_name;
     Value := pid_id;
     GetRequest := fun p => Some (get_arity p);
     GetResponse := fun _ => Some 1%nat;
     SetRequest := fun _ => None;
     SetResponse := fun _ => None;
     GetDescriptor_name := fun name _ =>
       List.find (fun p => String.eqb (pid_name p) name) store;
     GetDescriptor_value := fun value _ =>
       List.find (fun p => pid_id p =? value) store;
     BuildMessage := fun arity inputs =>
       if Nat.eqb (List.length inputs) arity then Some inputs else None;
     SchemaAsString := fun _ => "<schema>"%string;
     SerializeMessage := fun _ => [];
     DeserializeMessage := fun _ data => Some [data];
     PrettyPrintMessage := fun _ _ _ m => String.concat " " m |}.

Definition device : UID := {| ManufacturerId := 31344; DeviceId := 1 |}.

Definition garbage : pending_request_t.t :=
  {| pending_request_t.universe := 0;
     pending_request_t.uid := {| ManufacturerId := 0; DeviceId := 0 |};
     pending_request_t.sub_device := 0;
     pending_request_t.pid_value := 0 |}.

(** The pending request of [ola_rdm_get] for parameter [q]. *)
Definition pending (q : pid) : pending_request_t.t :=
  {| pending_request_t.universe := 1;
     pending_request_t.uid := device;
     pending_request_t.sub_device := 0;
     pending_request_t.pid_value := pid_id q |}.

(** Replies of the daemon. *)
Definition reply_of (type pid param count : Z) (data : string) : reply :=
  ({| ResponseStatus.error := EmptyString;
      ResponseStatus.response_code := 0;
      ResponseStatus.response_type := type;
      ResponseStatus.message_count := count;
      ResponseStatus.pid_value := pid;
      ResponseStatus.set_command := false;
      ResponseStatus.AckTimer := param;
      ResponseStatus.NackReason := param |}, data).

Definition ack (pid : Z) (data : string) : reply := reply_of 0 pid 0 0 data.
Definition ack_timer (delay : Z) : reply :=
  reply_of 1 0 delay 0 EmptyString.
Definition nack (reason count : Z) : reply :=
  reply_of 2 0 reason count EmptyString.


Definition broadcast : reply :=
  ({| ResponseStatus.error := EmptyString;
      ResponseStatus.response_code := 1;
      ResponseStatus.response_type := 0;
      ResponseStatus.message_count := 3;
      ResponseStatus.pid_value := 0;
      ResponseStatus.set_command := false;
      ResponseStatus.AckTimer := 0;
      ResponseStatus.NackReason := 0 |}, EmptyString).

(** [ola_rdm_get --universe 1 --uid 7a70:00000001 <pid> <args>] *)
Definition get (pid_name : string) (inputs : list string) (fuel : nat)
    (replies : list reply) : completion * world :=
  @PerformRequestAndWait enums sysexits strutil rdmhelper m_pid_helper
    1 device 0 pid_name false inputs fuel replies (boot garbage).

End Rig.

(** ** More ways to read a trace *)

(** A reply handed to the handler. *)
Definition is_response (e : event) : bool :=
  match e with ev_response _ _ => true | _ => false end.

(** A line of the log. *)
Definition is_warn (e : event) : bool :=
  match e with ev_warn _ => true | _ => false end.

(** The line that reports the remaining messages. *)
Definition is_count_line (e : event) : bool :=
  match e with
  | ev_cout [text t; number _ _; newline] =>
    String.eqb t "Messages remaining: "
  | _ => false
  end.

(** The timers among the registrations. *)
Definition timers (l : list registration) : nat :=
  List.length
    (List.filter (fun r => match r with OnTimeout _ => true | _ => false end)
                 l).

Section Decoding.

Context {m_pid_helper : PidStoreHelper}.

(** Whether [HandleAckResponse] finds all it needs to print an ack: the
    descriptor of the parameter, its response schema, and a payload that
    inflates. *)
Definition decodable (manufacturer_id : Z) (is_set : bool) (pid : Z)
    (rdm_data : string) : bool :=
  match GetDescriptor_value pid manufacturer_id with
  | None => false
  | Some pid_descriptor =>
    match (if is_set then SetResponse pid_descriptor
           else GetResponse pid_descriptor) with
    | None => false
    | Some descriptor =>
      match DeserializeMessage descriptor rdm_data with
      | None => false
      | Some _ => true
      end
    end
  end.

End Decoding.

(** Requests go to [universe], [uid] and [sub_device]; other events are of
    no concern. *)
Definition addressed_to (universe : Z) (uid : UID) (sub_device : Z)
    (e : event) : Prop :=
  match e with
  | ev_RDMGet u i s _ _ | ev_RDMSet u i s _ _ =>
    u = universe /\ i = uid /\ s = sub_device
  | _ => True
  end.

(** The branches of the handler that run into [PrintRemainingMessages]. *)
Definition reports_remaining (b : branch) : bool :=
  match b with
  | authoritative_ack | empty_status_messages_ack | nack | unknown_type => true
  | _ => false
  end.

(** * The rest of ola-rdm.cpp: the command line and [main] *)

From Stdlib Require Import Ascii Permutation Sorted.

(** A character constant, as the [int] that [getopt_long] returns. *)
Definition char (a : ascii) : Z := Z.of_N (N_of_ascii a).

(** What the [getopt_long] loop of [ParseOptions] sees: for every call the
    value returned and [optarg], and whether the call stored through the
    flag pointer of the option it matched (the one option that has a flag
    pointer is --uid: flag [uid_set], value 1); and [optind] once the loop
    is over. *)
Module getopt_long.
Record ret := {
  c : Z;
  optarg : string;
  flag_set : bool
}.
Record run := {
  rets : list ret;
  optind : nat
}.
End getopt_long.
Import getopt_long(c, optarg, flag_set, rets, optind).

(** The returns the loop acts on: those before the first -1. *)
Fixpoint served (l : list getopt_long.ret) : list getopt_long.ret :=
  match l with
  | [] => []
  | r :: l' => if c r =? -1 then [] else r :: served l'
  end.

(** The [optarg] of the last return whose value is [ch], if any. *)
Fixpoint last_optarg (ch : Z) (l : list getopt_long.ret) : option string :=
  match l with
  | [] => None
  | r :: l' =>
    match last_optarg ch l' with
    | Some s => Some s
    | None => if c r =? ch then Some (optarg r) else None
    end
  end.

(** Whether some return has the value [ch]. *)
Definition given (ch : Z) (l : list getopt_long.ret) : bool :=
  existsb (fun r => c r =? ch) l.

(** The [options] struct of ola-rdm.cpp. *)
Module options.
Record t := {
  set_mode : bool;
  help : bool;
  pid_location : string;
  list_pids : bool;
  universe : Z;            (* int *)
  uid : option UID;        (* UID*, NULL is None *)
  sub_device : Z;          (* uint16_t *)
  pid : string;
  args : list string;
  cmd : string
}.

Definition with_set_mode (b : bool) (o : t) : t :=
  {| set_mode := b; help := help o; pid_location := pid_location o;
     list_pids := list_pids o; universe := universe o; uid := uid o;
     sub_device := sub_device o; pid := pid o; args := args o;
     cmd := cmd o |}.

Definition with_help (b : bool) (o : t) : t :=
  {| set_mode := set_mode o; help := b; pid_location := pid_location o;
     list_pids := list_pids o; universe := universe o; uid := uid o;
     sub_device := sub_device o; pid := pid o; args := args o;
     cmd := cmd o |}.

Definition with_pid_location (s : string) (o : t) : t :=
  {| set_mode := set_mode o; help := help o; pid_location := s;
     list_pids := list_pids o; universe := universe o; uid := uid o;
     sub_device := sub_device o; pid := pid o; args := args o;
     cmd := cmd o |}.

Definition with_list_pids (b : bool) (o : t) : t :=
  {| set_mode := set_mode o; help := help o; pid_location := pid_location o;
     list_pids := b; universe := universe o; uid := uid o;
     sub_device := sub_device o; pid := pid o; args := args o;
     cmd := cmd o |}.

Definition with_universe (n : Z) (o : t) : t :=
  {| set_mode := set_mode o; help := help o; pid_location := pid_location o;
     list_pids := list_pids o; universe := n; uid := uid o;
     sub_device := sub_device o; pid := pid o; args := args o;
     cmd := cmd o |}.

Definition with_uid (u : option UID) (o : t) : t :=
  {| set_mode := set_mode o; help := help o; pid_location := pid_location o;
     list_pids := list_pids o; universe := universe o; uid := u;
     sub_device := sub_device o; pid := pid o; args := args o;
     cmd := cmd o |}.

Definition with_sub_device (n : Z) (o : t) : t :=
  {| set_mode := set_mode o; help := help o; pid_location := pid_location o;
     list_pids := list_pids o; universe := universe o; uid := uid o;
     sub_device := n; pid := pid o; args := args o;
     cmd := cmd o |}.

Definition with_args (l : list string) (o : t) : t :=
  {| set_mode := set_mode o; help := help o; pid_location := pid_location o;
     list_pids := list_pids o; universe := universe o; uid := uid o;
     sub_device := sub_device o; pid := pid o; args := l;
     cmd := cmd o |}.

Definition with_pid (s : string) (o : t) : t :=
  {| set_mode := set_mode o; help := help o; pid_location := pid_location o;
     list_pids := list_pids o; universe := universe o; uid := uid o;
     sub_device := sub_device o; pid := s; args := args o;
     cmd := cmd o |}.

Definition with_cmd (s : string) (o : t) : t :=
  {| set_mode := set_mode o; help := help o; pid_location := pid_location o;
     list_pids := list_pids o; universe := universe o; uid := uid o;
     sub_device := sub_device o; pid := pid o; args := args o;
     cmd := s |}.
End options.

(** [atoi] of <stdlib.h>: an [int]. *)
Class Libc := {
  atoi : string -> Z
}.

(** What the command line code of ola-rdm takes from the OLA library. *)
Class CommandLine := {
  UID_FromString : string -> option UID;       (* UID::FromString *)
  FilenameFromPathOrPath : string -> string;   (* ola/file/Util.h *)
  SupportedPids : Z -> list string             (* PidStoreHelper *)
}.

(** The exit codes of [ola/base/SysExits.h] that only [main] uses. *)
Class MoreSysExits := {
  EXIT_OSFILE : Z;
  EXIT_UNAVAILABLE : Z
}.

Section CommandLineOfRdm.

Context {enums : RDMEnums} {sysexits : SysExits} {strutil : StringUtils}
        {rdmhelper : RDMHelper} {m_pid_helper : PidStoreHelper}
        {libc : Libc} {cmdline : CommandLine} {moreexits : MoreSysExits}.

(** The body of the [switch] in [ParseOptions], after [getopt_long] has
    returned [r]; [uid_set] is the local the --uid option points its flag
    at. *)
Definition ParseOptions_switch (state : options.t * bool)
    (r : getopt_long.ret) : options.t * bool :=
  let (opts, uid_set) := state in
  let uid_set := uid_set || flag_set r in
  (if c r =? 0 then
     if uid_set then options.with_uid (UID_FromString (optarg r)) opts
     else opts
   else if c r =? char "d" then
     options.with_sub_device (atoi (optarg r) mod 65536) opts
   else if c r =? char "h" then options.with_help true opts
   else if c r =? char "l" then options.with_list_pids true opts
   else if c r =? char "p" then options.with_pid_location (optarg r) opts
   else if c r =? char "u" then options.with_universe (atoi (optarg r)) opts
   else opts,
   uid_set).

(** The [while (1)] loop of [ParseOptions]: it leaves at the first -1. *)
Fixpoint ParseOptions_loop (l : list getopt_long.ret)
    (state : options.t * bool) : options.t * bool :=
  match l with
  | [] => state
  | r :: l' =>
    if c r =? -1 then state
    else ParseOptions_loop l' (ParseOptions_switch state r)
  end.

(** [ParseOptions] of ola-rdm.cpp.  [argv] is the argument vector as
    [getopt_long] leaves it, [g] what the calls to [getopt_long] give. *)
Definition ParseOptions (argv : list string) (g : getopt_long.run)
    (opts : options.t) : options.t :=
  let opts := options.with_cmd (nth 0 argv EmptyString) opts in
  let opts := options.with_set_mode false opts in
  let opts := options.with_pid_location EmptyString opts in
  let opts := options.with_list_pids false opts in
  let opts := options.with_help false opts in
  let opts := options.with_universe 1 opts in
  let opts := options.with_uid None opts in
  let opts := options.with_sub_device 0 opts in
  let opts :=
    if String.eqb (FilenameFromPathOrPath (nth 0 argv EmptyString))
                  "ola_rdm_set"
    then options.with_set_mode true opts else opts in
  let uid_set := false in
  let (opts, _) := ParseOptions_loop (rets g) (opts, uid_set) in
  options.with_args (options.args opts ++ skipn (optind g) argv) opts.

(** The line feed, and a line of a string literal that ends in one. *)
Definition nl : string := String "010"%char EmptyString.
Definition line (s : string) : string := String.append s nl.

(** The two string literals of the help text that follow the command name:
    the rest of the usage line down to the opening quote, and the rest of
    the text.  [verb] is [Get] or [Set]. *)
Definition usage_tail (verb : string) : string :=
  String.concat EmptyString
    [line " --universe <universe> --uid <uid> <pid> <value>";
     line EmptyString;
     line (String.append verb " the value of a pid for a device.");
     "Use '"%string].

Definition switches : string :=
  String.concat EmptyString
    [line " --list-pids' to get a list of pids.";
     line EmptyString;
     line "  -d, --sub-device <device> target a particular sub device (default is 0)";
     line "  -h, --help                display this help message and exit.";
     line "  -l, --list-pids           display a list of pids";
     line "  -p, --pid-location        the directory to read PID definitions from";
     line "  -u, --universe <universe> universe number.";
     line "  --uid <uid>               the UID of the device to control."].

(** [DisplayGetPidHelp] *)
Definition DisplayGetPidHelp (opts : options.t) : action :=
  cout [str "Usage: "; str (options.cmd opts); str (usage_tail "Get");
        str (options.cmd opts); str switches; endl].

(** [DisplaySetPidHelp] *)
Definition DisplaySetPidHelp (opts : options.t) : action :=
  cout [str "Usage: "; str (options.cmd opts); str (usage_tail "Set");
        str (options.cmd opts); str switches; endl].

(** [DisplayHelpAndExit] of ola-rdm.cpp *)
Definition DisplayHelpAndExit (opts : options.t) (w : world)
    : completion * world :=
  (exits EXIT_USAGE,
   if options.set_mode opts then DisplaySetPidHelp opts w
   else DisplayGetPidHelp opts w).

(** [std::sort] on a [vector<string>].  The algorithm is not specified;
    the result is: the ascending arrangement of the elements under [<] on
    strings, which compares bytes as unsigned.  It is computed here by
    insertion. *)
Fixpoint insert_name (s : string) (l : list string) : list string :=
  match l with
  | [] => [s]
  | x :: l' => if String.leb s x then s :: l else x :: insert_name s l'
  end.

Definition std_sort (l : list string) : list string :=
  List.fold_right insert_name [] l.

(** In ascending order, each element at most every later one. *)
Definition ascending : list string -> Prop :=
  StronglySorted (fun a b => String.leb a b = true).

(** [DisplayPIDsAndExit] *)
Definition DisplayPIDsAndExit (manufacturer_id : Z) (w : world)
    : completion * world :=
  let pid_names := std_sort (SupportedPids manufacturer_id) in
  (exits EXIT_OK,
   List.fold_left (fun w name => cout [str name; endl] w) pid_names w).

(** What a run of [main] meets: whether the network initialises, the
    command line and what [getopt_long] makes of it, whether the PID store
    loads, whether the client connects, the replies of the daemon, and
    what the uninitialised parts of [opts] and of the controller hold. *)
Record environment := {
  NetworkInit : bool;
  argv : list string;
  getopt : getopt_long.run;
  InitPidHelper : bool;
  Setup : bool;
  replies : list reply;
  junk : options.t;
  garbage : pending_request_t.t
}.

(** [options opts;]: the strings and the vector are constructed empty, the
    other members hold whatever was there. *)
Definition declared (junk : options.t) : options.t :=
  options.with_args []
    (options.with_pid EmptyString
       (options.with_cmd EmptyString
          (options.with_pid_location EmptyString junk))).

(** How [main] ends: the way it leaves, the world it leaves, and the lines
    logged with [OLA_FATAL]. *)
Record outcome := {
  status : completion;
  final : world;
  fatal : list (list glyph)
}.

(** [main] of ola-rdm.cpp *)
Definition main (env : environment) (fuel : nat) : outcome :=
  let w := boot (garbage env) in
  if negb (NetworkInit env) then
    {| status := exits EXIT_UNAVAILABLE;
       final := OLA_WARN [str "Network initialization failed."; endl] w;
       fatal := [] |}
  else
    let opts := ParseOptions (argv env) (getopt env) (declared (junk env)) in
    let leave (r : completion * world) (log : list (list glyph)) :=
      {| status := fst r; final := snd r; fatal := log |} in
    if options.help opts then leave (DisplayHelpAndExit opts w) []
    else if negb (InitPidHelper env) then
      {| status := exits EXIT_OSFILE; final := w; fatal := [] |}
    else
      match options.uid opts with
      | None =>
        if options.list_pids opts then leave (DisplayPIDsAndExit 0 w) []
        else
          leave (DisplayHelpAndExit opts w)
                [[text "Invalid or missing UID, try xxxx:yyyyyyyy"]]
      | Some dest_uid =>
        if options.list_pids opts then
          leave (DisplayPIDsAndExit (ManufacturerId dest_uid) w) []
        else
          match options.args opts with
          | [] => leave (DisplayHelpAndExit opts w) []
          | pid_name :: inputs =>
            if negb (Setup env) then
              {| status := exits EXIT_UNAVAILABLE; final := w;
                 fatal := [[text "Setup failed"]] |}
            else
              leave
                (PerformRequestAndWait
                   (options.universe opts mod 4294967296)
                   dest_uid
                   (options.sub_device opts)
                   pid_name
                   (options.set_mode opts)
                   inputs
                   fuel (replies env) w)
                []
          end
      end.

End CommandLineOfRdm.

(** * dmx-trigger.cpp *)

Module dmx_trigger.

(** [ola::log_level], the levels the program names. *)
Inductive ola_log_level :=
| OLA_LOG_NONE
| OLA_LOG_FATAL
| OLA_LOG_WARN
| OLA_LOG_INFO
| OLA_LOG_DEBUG.

(** The [options] struct of dmx-trigger.cpp. *)
Record options := {
  help : bool;
  log_level : ola_log_level;
  universe : Z;            (* unsigned int *)
  args : list string
}.

(** The signals and the handlers of the program. *)
Inductive signal := SIGCHLD | SIGINT | SIGTERM.
Inductive handler := CatchSIGCHLD | CatchSIGINT.

(** What the program does to the outside world. *)
Inductive event :=
| ev_cout (g : list glyph)
| ev_log (level : ola_log_level) (g : list glyph)
| ev_InitLogging (level : ola_log_level)
| ev_freopen (path : string)                  (* a call, opened or not *)
| ev_yyparse
| ev_Setup
| ev_sigaction (s : signal) (h : handler)     (* a call that succeeded *)
| ev_SetDmxCallback (our_universe : Z)        (* NewDmx, bound to it *)
| ev_RegisterUniverse (universe : Z)
| ev_Run.

(** [<sysexits.h>] *)
Class sysexits_h := {
  EX_DATAERR : Z;
  EX_UNAVAILABLE : Z;
  EX_OSERR : Z
}.

(** What a run of [main] meets: the command line and what [getopt_long]
    makes of it, whether the configuration file opens, whether the client
    connects, which calls of [sigaction] fail, and whether an interrupt
    ends the loop. *)
Record environment := {
  argv : list string;
  getopt : getopt_long.run;
  freopen_ok : bool;
  Setup : bool;
  sigaction_fails : signal -> bool;
  interrupted : bool
}.

Section Program.

Context {libc : Libc} {exits_h : sysexits_h}.

(** The body of the [switch] in [ParseOptions], after [getopt_long] has
    returned [r]. *)
Definition ParseOptions_switch (opts : options) (r : getopt_long.ret)
    : options :=
  if c r =? char "h" then
    {| help := true; log_level := log_level opts;
       universe := universe opts; args := args opts |}
  else if c r =? char "l" then
    let n := atoi (optarg r) in
    let set level :=
      {| help := help opts; log_level := level;
         universe := universe opts; args := args opts |} in
    if n =? 0 then set OLA_LOG_NONE
    else if n =? 1 then set OLA_LOG_FATAL
    else if n =? 2 then set OLA_LOG_WARN
    else if n =? 3 then set OLA_LOG_INFO
    else if n =? 4 then set OLA_LOG_DEBUG
    else opts
  else if c r =? char "u" then
    {| help := help opts; log_level := log_level opts;
       universe := atoi (optarg r) mod 4294967296; args := args opts |}
  else opts.

(** The [while (1)] loop of [ParseOptions]: it leaves at the first -1. *)
Fixpoint ParseOptions_loop (l : list getopt_long.ret) (opts : options)
    : options :=
  match l with
  | [] => opts
  | r :: l' =>
    if c r =? -1 then opts
    else ParseOptions_loop l' (ParseOptions_switch opts r)
  end.

(** The level a number of the command line stands for. *)
Definition level_of (n : Z) : option ola_log_level :=
  if n =? 0 then Some OLA_LOG_NONE
  else if n =? 1 then Some OLA_LOG_FATAL
  else if n =? 2 then Some OLA_LOG_WARN
  else if n =? 3 then Some OLA_LOG_INFO
  else if n =? 4 then Some OLA_LOG_DEBUG
  else None.

(** The level of the last -l whose argument stands for one, if any. *)
Fixpoint last_level (l : list getopt_long.ret) : option ola_log_level :=
  match l with
  | [] => None
  | r :: l' =>
    match last_level l' with
    | Some v => Some v
    | None =>
      if c r =? char "l" then level_of (atoi (optarg r)) else None
    end
  end.

(** The three calls of [sigaction] that [InstallSignals] is after. *)
Definition intended : list event :=
  [ev_sigaction SIGCHLD CatchSIGCHLD;
   ev_sigaction SIGINT CatchSIGINT;
   ev_sigaction SIGTERM CatchSIGINT].

Definition is_sigaction (e : event) : bool :=
  match e with ev_sigaction _ _ => true | _ => false end.

Definition is_warning (e : event) : bool :=
  match e with ev_log OLA_LOG_WARN _ => true | _ => false end.

(** [ParseOptions] of dmx-trigger.cpp.  [argv] is the argument vector as
    [getopt_long] leaves it. *)
Definition ParseOptions (argv : list string) (g : getopt_long.run)
    (opts : options) : options :=
  let opts := ParseOptions_loop (rets g) opts in
  {| help := help opts; log_level := log_level opts;
     universe := universe opts;
     args := args opts ++ skipn (optind g) argv |}.

(** The string literal of the help text. *)
Definition help_text : string :=
  String.concat EmptyString
    [line " [options] <config_file>";
     line EmptyString;
     line "Run programs based on the values in a DMX stream.";
     line EmptyString;
     line "  -h, --help                Display this help message and exit.";
     line "  -l, --log-level <level>   Set the loggging level 0 .. 4.";
     line "  -u, --universe <universe> The universe to use."].

(** [DisplayHelpAndExit] of dmx-trigger.cpp *)
Definition DisplayHelpAndExit (argv : list string)
    : completion * list event :=
  (exits 0,
   [ev_cout [text "Usage: "; text (nth 0 argv EmptyString); text help_text;
             newline]]).

(** [InstallSignals]: the result, and the events up to it.  The handler of
    [act] is set once for SIGCHLD and once more before SIGINT; it is not
    set again before SIGTERM. *)
Definition InstallSignals (fails : signal -> bool) : bool * list event :=
  let sa_handler := CatchSIGCHLD in
  if fails SIGCHLD then
    (false, [ev_log OLA_LOG_WARN [text "Failed to install signal SIGCHLD"]])
  else
    let t := [ev_sigaction SIGCHLD sa_handler] in
    let sa_handler := CatchSIGINT in
    if fails SIGINT then
      (false,
       t ++ [ev_log OLA_LOG_WARN [text "Failed to install signal SIGINT"]])
    else
      let t := t ++ [ev_sigaction SIGINT sa_handler] in
      if fails SIGTERM then
        (false,
         t ++ [ev_log OLA_LOG_WARN [text "Failed to install signal SIGTERM"]])
      else
        (true, t ++ [ev_sigaction SIGTERM sa_handler]).


(** [main] of dmx-trigger.cpp.  The context, the vector of slot actions
    and the trigger are objects of classes that are declared elsewhere;
    building them leaves no event.  What [yyparse] returns is not looked
    at. *)
Definition main (env : environment) : completion * list event :=
  let opts :=
    {| help := false; log_level := OLA_LOG_INFO; universe := 1;
       args := [] |} in
  let opts := ParseOptions (argv env) (getopt env) opts in
  if help opts then DisplayHelpAndExit (argv env)
  else if negb (Nat.eqb (List.length (args opts)) 1) then
    DisplayHelpAndExit (argv env)
  else
    let t :=
      [ev_InitLogging (log_level opts);
       ev_log OLA_LOG_INFO
              [text "Loading config from "; text (nth 0 (args opts) EmptyString)]]
    in
    let argv0 := nth 0 (argv env) EmptyString in
    let argv1 := nth 1 (argv env) EmptyString in
    let opens := Nat.ltb 1 (List.length (argv env)) in
    let t := if opens then t ++ [ev_freopen argv1] else t in
    if opens && negb (freopen_ok env) then
      (exits EX_DATAERR,
       t ++ [ev_log OLA_LOG_FATAL
                    [text argv0; text ": File "; text argv1;
                     text (line " cannot be opened.")]])
    else
      let t := t ++ [ev_yyparse; ev_Setup] in
      if negb (Setup env) then (exits EX_UNAVAILABLE, t)
      else
        let (installed, signals) := InstallSignals (sigaction_fails env) in
        let t := t ++ signals in
        if negb installed then (exits EX_OSERR, t)
        else
          let t :=
            t ++ [ev_SetDmxCallback (universe opts);
                  ev_RegisterUniverse (universe opts);
                  ev_Run] in
          (if interrupted env then returns 0 else hangs, t).

End Program.

End dmx_trigger.

(** ** A concrete command line

    [atoi] on digit strings, the exit codes of [sysexits.h], a UID parser
    that knows one UID, and command lines to run the two programs on. *)
Module Bench.

Fixpoint digits (s : string) (acc : Z) : Z :=
  match s with
  | EmptyString => acc
  | String a s' =>
    let d := Z.of_N (N_of_ascii a) - 48 in
    if (0 <=? d) && (d <=? 9) then digits s' (10 * acc + d) else acc
  end.

Definition libc : Libc := {| atoi := fun s => digits s 0 |}.

Definition cmdline : CommandLine :=
  {| UID_FromString := fun s =>
       if String.eqb s "7a70:00000001" then Some Rig.device else None;
     FilenameFromPathOrPath := fun s => s;
     SupportedPids := fun _ =>
       ["QUEUED_MESSAGE"; "DEVICE_INFO"; "STATUS_MESSAGES"; "DEVICE_INFO"]
       %string |}.

Definition moreexits : MoreSysExits :=
  {| EXIT_OSFILE := 72; EXIT_UNAVAILABLE := 69 |}.

Definition exits_h : dmx_trigger.sysexits_h :=
  {| dmx_trigger.EX_DATAERR := 65;
     dmx_trigger.EX_UNAVAILABLE := 69;
     dmx_trigger.EX_OSERR := 71 |}.

(** A return of [getopt_long] for a short option, and for --uid. *)
Definition short (a : ascii) (arg : string) : getopt_long.ret :=
  {| getopt_long.c := char a; getopt_long.optarg := arg;
     getopt_long.flag_set := false |}.

Definition long_uid (arg : string) : getopt_long.ret :=
  {| getopt_long.c := 0; getopt_long.optarg := arg;
     getopt_long.flag_set := true |}.

Definition leftover : options.t :=
  {| options.set_mode := true; options.help := true;
     options.pid_location := "?"; options.list_pids := true;
     options.universe := 77; options.uid := Some Rig.device;
     options.sub_device := 9; options.pid := "?"; options.args := ["?"];
     options.cmd := "?" |}%string.

(** [ola_rdm_get -u 3 -d 65537 --uid 7a70:00000001 DEVICE_INFO], with any
    other options [more] that [getopt_long] returns after those. *)
Definition rdm_get (more : list getopt_long.ret) (answers : list reply)
    : environment :=
  {| NetworkInit := true;
     argv := ["ola_rdm_get"; "-u"; "3"; "-d"; "65537"; "--uid";
              "7a70:00000001"; "DEVICE_INFO"]%string;
     getopt :=
       {| getopt_long.rets :=
            [short "u" "3"; short "d" "65537"; long_uid "7a70:00000001"]
            ++ more;
          getopt_long.optind := 7 |};
     InitPidHelper := true;
     Setup := true;
     replies := answers;
     junk := leftover;
     garbage := Rig.garbage |}.

Definition rdm_main (env : environment) (fuel : nat) : outcome :=
  @main Rig.enums Rig.sysexits Rig.strutil Rig.rdmhelper Rig.m_pid_helper
        libc cmdline moreexits env fuel.

(** [dmx-trigger -l 9 -u 5 -l 2 -u 4294967298 conf] with the words of the
    command line in [argv], [optind] as given. *)
Definition trigger (words : list string) (index : nat)
    : dmx_trigger.environment :=
  {| dmx_trigger.argv := words;
     dmx_trigger.getopt :=
       {| getopt_long.rets :=
            [short "l" "9"; short "u" "5"; short "l" "2";
             short "u" "4294967298"];
          getopt_long.optind := index |};
     dmx_trigger.freopen_ok := true;
     dmx_trigger.Setup := true;
     dmx_trigger.sigaction_fails := fun _ => false;
     dmx_trigger.interrupted := true |}.

End Bench.

(** * Properties *)

(** ** Traces *)

Lemma count_app (f : event -> bool) (a b : list event) :
  count f (a ++ b) = (count f a + count f b)%nat.
Proof.
  unfold count. rewrite List.filter_app. apply List.length_app.
Qed.

Lemma count_one (f : event -> bool) (e : event) :
  count f [e] = if f e then 1%nat else 0%nat.
Proof. unfold count. simpl. destruct (f e); reflexivity. Qed.

Lemma count_forallb (f g : event -> bool) (l : list event) :
  (forall e, g e = true -> f e = false) ->
  forallb g l = true -> count f l = 0%nat.
Proof.
  intros Hfg. induction l as [|e l IH]; simpl; intros H; [reflexivity|].
  apply andb_true_iff in H as [He Hl].
  unfold count in *. simpl. rewrite (Hfg e He). auto.
Qed.

Lemma skipn_prefix (a b : list event) : skipn (List.length a) (a ++ b) = b.
Proof. induction a; simpl; auto. Qed.

Lemma since_app (w w' : world) (l : list event) :
  trace w' = trace w ++ l -> since w w' = l.
Proof. unfold since. intros ->. apply skipn_prefix. Qed.

(** Unfolds the primitive actions. *)
Ltac primitives :=
  unfold Terminate, RegisterSingleTimeout, RDMGet, RDMSet, cerr, OLA_WARN,
    cout, seq, emit, emit_all, register, set_cout_hex, set_m_terminate,
    set_registered, set_m_pending_request, skip in *.

(** Equality of two worlds written with the primitive actions. *)
Ltac same_world w :=
  destruct w; primitives; simpl;
  rewrite <- ?List.app_assoc; simpl; try reflexivity.

(** Splits on the first test or match the goal branches on. *)
Ltac branch_on :=
  match goal with
  | |- context [if ?b then _ else _] => destruct b eqn:?
  | |- context [match ?x with Some _ => _ | None => _ end] => destruct x eqn:?
  end.

Section Properties.

Context {enums : RDMEnums} {sysexits : SysExits} {strutil : StringUtils}
        {rdmhelper : RDMHelper} {m_pid_helper : PidStoreHelper}.

(** ** The helpers of the handler *)

Lemma PrintRemainingMessages_spec (message_count : Z) (w : world) :
  PrintRemainingMessages message_count w =
  emit_all (remaining_lines (cout_hex w) message_count) w.
Proof.
  unfold PrintRemainingMessages, remaining_lines.
  destruct (message_count =? 0); destruct w; unfold emit_all, skip; simpl.
  - now rewrite List.app_nil_r.
  - primitives. simpl. now rewrite <- List.app_assoc.
Qed.

(** [HandleAckResponse] writes exactly one line, to [cout] or to the log, and
    touches nothing else.  When the descriptor and the response schema are
    found and the payload inflates, the line is the pretty-printed message. *)
Lemma HandleAckResponse_spec manufacturer_id (is_set : bool) pid rdm_data
    (w : world) :
  exists e, is_output e = true /\
    HandleAckResponse manufacturer_id is_set pid rdm_data w = emit e w /\
    forall (pid_descriptor : PidDescriptor) (descriptor : Descriptor)
           (message : Message),
      GetDescriptor_value pid (ManufacturerId (uid (m_pending_request w)))
        = Some pid_descriptor ->
      (if is_set then SetResponse pid_descriptor
       else GetResponse pid_descriptor) = Some descriptor ->
      DeserializeMessage descriptor rdm_data = Some message ->
      e = ev_cout [text (PrettyPrintMessage manufacturer_id is_set pid message)].
Proof.
  unfold HandleAckResponse.
  destruct (GetDescriptor_value pid _) as [pd|] eqn:H1.
  - destruct (if is_set then SetResponse pd else GetResponse pd)
      as [d|] eqn:H2.
    + destruct (DeserializeMessage d rdm_data) as [m|] eqn:H3.
      * eexists; split; [|split; [same_world w|]]; [reflexivity|].
        intros pd' d' m' E1 E2 E3.
        injection E1 as <-. rewrite H2 in E2. injection E2 as <-.
        rewrite H3 in E3. now injection E3 as <-.
      * eexists; split; [|split; [same_world w|]]; [reflexivity|].
        intros pd' d' m' E1 E2 E3.
        injection E1 as <-. rewrite H2 in E2. injection E2 as <-.
        rewrite H3 in E3. discriminate.
    + eexists; split; [|split; [same_world w|]]; [reflexivity|].
      intros pd' d' m' E1 E2 E3.
      injection E1 as <-. rewrite H2 in E2. discriminate.
  - eexists; split; [|split; [same_world w|]]; [reflexivity|].
    intros pd' d' m' E1. discriminate.
Qed.

(** The one line of [HandleAckResponse], case by case: the pretty-printed
    message on [cout] when the descriptor and the response schema are found
    and the payload inflates; a line of the log that names what failed
    otherwise. *)
Lemma HandleAckResponse_report manufacturer_id (is_set : bool) pid rdm_data
    (w : world) :
  let store_id := ManufacturerId (uid (m_pending_request w)) in
  exists e,
    HandleAckResponse manufacturer_id is_set pid rdm_data w = emit e w /\
    is_output e = true /\
    (forall (pid_descriptor : PidDescriptor) (descriptor : Descriptor)
            (message : Message),
       GetDescriptor_value pid store_id = Some pid_descriptor ->
       (if is_set then SetResponse pid_descriptor
        else GetResponse pid_descriptor) = Some descriptor ->
       DeserializeMessage descriptor rdm_data = Some message ->
       e = ev_cout [text (PrettyPrintMessage manufacturer_id is_set pid
                                             message)]) /\
    (decodable store_id is_set pid rdm_data = false -> is_warn e = true) /\
    (GetDescriptor_value pid store_id = None ->
     e = ev_warn [text "Unknown PID: "; number false pid; text "."]) /\
    (forall pid_descriptor : PidDescriptor,
       GetDescriptor_value pid store_id = Some pid_descriptor ->
       (if is_set then SetResponse pid_descriptor
        else GetResponse pid_descriptor) = None ->
       e = ev_warn [text "Unknown response message: ";
                    text (if is_set then "SET" else "GET");
                    text " "; text (Name pid_descriptor)]) /\
    (forall (pid_descriptor : PidDescriptor) (descriptor : Descriptor),
       GetDescriptor_value pid store_id = Some pid_descriptor ->
       (if is_set then SetResponse pid_descriptor
        else GetResponse pid_descriptor) = Some descriptor ->
       DeserializeMessage descriptor rdm_data = None ->
       e = ev_warn [text "Unable to inflate RDM response"]).
Proof.
  intros store_id. subst store_id. unfold decodable, HandleAckResponse.
  destruct (GetDescriptor_value pid _) as [pd|] eqn:H1.
  - destruct (if is_set then SetResponse pd else GetResponse pd)
      as [d|] eqn:H2.
    + destruct (DeserializeMessage d rdm_data) as [m|] eqn:H3.
      * eexists; split; [same_world w|].
        repeat split; try discriminate.
        -- intros pd' d' m' E1 E2 E3.
           injection E1 as <-. rewrite H2 in E2. injection E2 as <-.
           rewrite H3 in E3. now injection E3 as <-.
        -- intros pd' E1 E2. injection E1 as <-. congruence.
        -- intros pd' d' E1 E2 E3.
           injection E1 as <-. rewrite H2 in E2. injection E2 as <-.
           congruence.
      * eexists; split; [same_world w|].
        repeat split; try discriminate.
        -- intros pd' d' m' E1 E2 E3.
           injection E1 as <-. rewrite H2 in E2. injection E2 as <-.
           congruence.
        -- intros pd' E1 E2. injection E1 as <-. congruence.
    + eexists; split; [same_world w|].
      repeat split; try discriminate.
      * intros pd' d' m' E1 E2 E3. injection E1 as <-. congruence.
      * intros pd' E1 E2. injection E1 as <-.
        destruct is_set; reflexivity.
      * intros pd' d' E1 E2 E3. injection E1 as <-. congruence.
  - eexists; split; [same_world w|].
    repeat split; try discriminate.
Qed.

(** ** The handler, branch by branch *)

(** [HandleResponse] is the specification's state machine over the
    classified outcome. *)
Lemma HandleResponse_by_branch (response_status : ResponseStatus.t)
    (rdm_data : string) (w : world) :
  let finish :=
    PrintRemainingMessages (message_count response_status) ;; Terminate in
  HandleResponse response_status rdm_data w =
  match ResponseClassifier response_status rdm_data with
  | ResponseOutcome.TransportError message =>
    (cerr [str "Error: "; str message; endl] ;; Terminate) w
  | ResponseOutcome.Broadcast => Terminate w
  | ResponseOutcome.ProtocolError code =>
    (cerr [str "Error: "; str (ResponseCodeToString code); endl] ;;
     Terminate) w
  | ResponseOutcome.AckTimer delay => RegisterSingleTimeout delay w
  | ResponseOutcome.Ack parameterValue payload =>
    match branch_of (pid_value (m_pending_request w))
                    (ResponseOutcome.Ack parameterValue payload) with
    | authoritative_ack =>
      (HandleAckResponse (ManufacturerId (uid (m_pending_request w)))
                         (set_command response_status) parameterValue payload ;;
       finish) w
    | empty_status_messages_ack =>
      (cout [str "Empty STATUS_MESSAGES returned."; endl] ;; finish) w
    | _ => FetchQueuedMessage w
    end
  | ResponseOutcome.NackReason code =>
    (cout [str "Request NACKed: "; str (NackReasonToString code); endl] ;;
     finish) w
  | ResponseOutcome.UnknownType tag =>
    (cout [str "Unknown RDM response type "; hex; num tag; endl] ;; finish) w
  end.
Proof.
  unfold HandleResponse, ResponseClassifier, branch_of.
  repeat (branch_on; simpl in *; try discriminate; try reflexivity);
    exfalso;
    repeat match goal with
    | H : context [?a =? ?b] |- _ => destruct (a =? b)
    | H : context [Nat.eqb ?a ?b] |- _ => destruct (Nat.eqb a b)
    end; simpl in *; discriminate.
Qed.

Lemma finish_spec (message_count : Z) (w : world) :
  (PrintRemainingMessages message_count ;; Terminate) w =
  set_m_terminate true
    (emit_all (remaining_lines (cout_hex w) message_count ++ [ev_Terminate]) w).
Proof.
  unfold seq at 1. rewrite PrintRemainingMessages_spec.
  destruct w. primitives. simpl. now rewrite <- List.app_assoc.
Qed.

Lemma remaining_lines_output (base16 : bool) (message_count : Z) :
  forallb is_output (remaining_lines base16 message_count) = true.
Proof. unfold remaining_lines. destruct (message_count =? 0); reflexivity. Qed.

Lemma remaining_lines_count (f : event -> bool) (base16 : bool)
    (message_count : Z) :
  (forall g, f (ev_cout g) = false) ->
  count f (remaining_lines base16 message_count) = 0%nat.
Proof.
  intros Hf. unfold remaining_lines, count.
  destruct (message_count =? 0); simpl; now rewrite ?Hf.
Qed.

(** A terminal branch writes some lines, calls [Terminate] once, as its
    last act, and registers nothing. *)
Lemma HandleResponse_terminal (response_status : ResponseStatus.t)
    (rdm_data : string) (w : world) :
  terminal (branch_for (m_pending_request w) (response_status, rdm_data))
    = true ->
  exists out b, forallb is_output out = true /\
    HandleResponse response_status rdm_data w =
    set_cout_hex b (set_m_terminate true (emit_all (out ++ [ev_Terminate]) w)).
Proof.
  unfold branch_for. simpl fst; simpl snd.
  rewrite HandleResponse_by_branch.
  destruct (ResponseClassifier response_status rdm_data) eqn:Hc;
    cbv zeta; intros Ht.
  - exists [ev_cerr [text "Error: "; text message; newline]], (cout_hex w).
    split; [reflexivity|]. same_world w.
  - exists [], (cout_hex w). split; [reflexivity|]. same_world w.
  - exists [ev_cerr [text "Error: "; text (ResponseCodeToString code); newline]],
      (cout_hex w).
    split; [reflexivity|]. same_world w.
  - discriminate.
  - unfold branch_of in *.
    destruct (_ || _); [|destruct (_ && _); [|discriminate]].
    + unfold seq at 1.
      destruct (HandleAckResponse_spec
                  (ManufacturerId (uid (m_pending_request w)))
                  (set_command response_status) parameterValue payload w)
        as (e & He & -> & _).
      rewrite finish_spec.
      exists (e :: remaining_lines (cout_hex w) (message_count response_status)),
        (cout_hex w).
      split.
      * simpl. rewrite He. apply remaining_lines_output.
      * same_world w.
    + unfold seq at 1. rewrite finish_spec.
      exists (ev_cout [text "Empty STATUS_MESSAGES returned."; newline]
              :: remaining_lines (cout_hex w) (message_count response_status)),
        (cout_hex w).
      split; [apply remaining_lines_output|].
      same_world w.
  - unfold seq at 1. rewrite finish_spec.
    exists (ev_cout [text "Request NACKed: "; text (NackReasonToString code);
                     newline]
            :: remaining_lines (cout_hex w) (message_count response_status)),
      (cout_hex w).
    split; [apply remaining_lines_output|].
    same_world w.
  - unfold seq at 1. rewrite finish_spec.
    exists (ev_cout [text "Unknown RDM response type "; number true tag; newline]
            :: remaining_lines true (message_count response_status)),
      true.
    split; [apply remaining_lines_output|].
    same_world w.
Qed.

(** A branch that is not terminal either sets the timer up or fetches the
    next queued message. *)
Lemma HandleResponse_nonterminal (response_status : ResponseStatus.t)
    (rdm_data : string) (w : world) :
  terminal (branch_for (m_pending_request w) (response_status, rdm_data))
    = false ->
  HandleResponse response_status rdm_data w =
  match ResponseClassifier response_status rdm_data with
  | ResponseOutcome.AckTimer delay => RegisterSingleTimeout delay w
  | _ => FetchQueuedMessage w
  end.
Proof.
  unfold branch_for. simpl fst; simpl snd.
  rewrite HandleResponse_by_branch.
  destruct (ResponseClassifier response_status rdm_data) eqn:Hc;
    cbv zeta; try discriminate; try reflexivity.
  unfold branch_of.
  destruct (_ || _); [discriminate|].
  destruct (_ && _); [discriminate|reflexivity].
Qed.

(** ** The loop *)

Lemma Run_stopped (fuel : nat) (replies : list reply) (w : world) :
  m_terminate w = true -> Run fuel replies w = (stopped, w).
Proof. intros H. destruct fuel; simpl; now rewrite H. Qed.

Lemma Run_response (fuel : nat) response_status rdm_data
    (replies : list reply) (rest : list registration) (w : world) :
  m_terminate w = false ->
  registered w = OnResponse :: rest ->
  Run (S fuel) ((response_status, rdm_data) :: replies) w =
  Run fuel replies
      (HandleResponse response_status rdm_data
         (emit (ev_response response_status rdm_data) (set_registered rest w))).
Proof. intros Ht Hr. simpl. now rewrite Ht, Hr. Qed.

Lemma Run_timeout (fuel : nat) (delay : Z) (replies : list reply)
    (rest : list registration) (w : world) :
  m_terminate w = false ->
  registered w = OnTimeout delay :: rest ->
  Run (S fuel) replies w =
  Run fuel replies
      (FetchQueuedMessage (emit (ev_timeout delay) (set_registered rest w))).
Proof. intros Ht Hr. simpl. now rewrite Ht, Hr. Qed.

Lemma emit_all_emit_all (a b : list event) (w : world) :
  emit_all b (emit_all a w) = emit_all (a ++ b) w.
Proof. same_world w. Qed.

Lemma waiting_emit_all (l : list event) (w : world) :
  waiting w -> waiting (emit_all l w).
Proof. intros H. exact H. Qed.

(** While it waits, the loop turns a reply of a branch that is not terminal
    into the events of [progress], and waits again. *)
Lemma Run_step_nonterminal (fuel : nat) (r : reply) (replies : list reply)
    (w : world) :
  waiting w ->
  terminal (branch_for (m_pending_request w) r) = false ->
  Run (cost r + fuel) (r :: replies) w =
  Run fuel replies (emit_all (progress (m_pending_request w) r) w).
Proof.
  intros [Ht Hr] Hn. destruct r as [response_status rdm_data].
  unfold cost, progress. simpl fst; simpl snd.
  pose proof (HandleResponse_nonterminal response_status rdm_data
                (emit (ev_response response_status rdm_data)
                      (set_registered [] w)) Hn) as Hh.
  destruct (ResponseClassifier response_status rdm_data) eqn:Hc;
    simpl Nat.add;
    rewrite (Run_response _ _ _ _ [] w Ht Hr), Hh;
    try (f_equal; unfold FetchQueuedMessage, fetch_of; same_world w;
         simpl in Hr; now subst).
  rewrite (Run_timeout _ delay _ []); [|exact Ht|reflexivity].
  f_equal. unfold FetchQueuedMessage, fetch_of. same_world w.
  simpl in Hr, Ht; now subst.
Qed.

Lemma Run_progress (prefix : list reply) :
  forall (fuel : nat) (replies : list reply) (w : world),
  waiting w ->
  Forall (fun r => terminal (branch_for (m_pending_request w) r) = false)
         prefix ->
  Run (steps prefix + fuel) (prefix ++ replies) w =
  Run fuel replies
      (emit_all (flat_map (progress (m_pending_request w)) prefix) w).
Proof.
  induction prefix as [|r prefix IH]; intros fuel replies w Hw Hall.
  - simpl. f_equal. destruct w. unfold emit_all. simpl.
    now rewrite List.app_nil_r.
  - inversion Hall as [|? ? Hr Hrest]; subst.
    simpl steps. simpl app. rewrite <- Nat.add_assoc.
    rewrite Run_step_nonterminal by assumption.
    rewrite IH by (try apply waiting_emit_all; assumption).
    simpl. now rewrite emit_all_emit_all.
Qed.

(** While it waits, the loop hands a reply of a terminal branch to the
    handler and stops. *)
Lemma Run_step_terminal (fuel : nat) response_status rdm_data
    (replies : list reply) (w : world) :
  waiting w ->
  terminal (branch_for (m_pending_request w) (response_status, rdm_data))
    = true ->
  Run (S fuel) ((response_status, rdm_data) :: replies) w =
  (stopped,
   HandleResponse response_status rdm_data
     (emit (ev_response response_status rdm_data) (set_registered [] w))).
Proof.
  intros [Ht Hr] Hterm.
  rewrite (Run_response _ _ _ _ [] w Ht Hr).
  apply Run_stopped.
  destruct (HandleResponse_terminal response_status rdm_data
              (emit (ev_response response_status rdm_data)
                    (set_registered [] w)) Hterm) as (out & b & _ & ->).
  reflexivity.
Qed.

(** ** The pending request is never written by the handler or the loop *)

Lemma FetchQueuedMessage_pending (w : world) :
  m_pending_request (FetchQueuedMessage w) = m_pending_request w.
Proof. reflexivity. Qed.

Lemma HandleResponse_pending response_status rdm_data (w : world) :
  m_pending_request (HandleResponse response_status rdm_data w)
  = m_pending_request w.
Proof.
  destruct (terminal (branch_for (m_pending_request w)
                                 (response_status, rdm_data))) eqn:Hb.
  - destruct (HandleResponse_terminal _ _ _ Hb) as (out & b & _ & ->).
    reflexivity.
  - rewrite (HandleResponse_nonterminal _ _ _ Hb).
    destruct (ResponseClassifier response_status rdm_data); reflexivity.
Qed.

Lemma Run_pending (fuel : nat) :
  forall (replies : list reply) (w : world),
  m_pending_request (snd (Run fuel replies w)) = m_pending_request w.
Proof.
  induction fuel as [|fuel IH]; intros replies w; simpl.
  - destruct (m_terminate w); reflexivity.
  - destruct (m_terminate w); [reflexivity|].
    destruct (registered w) as [|[|delay] rest]; [reflexivity| |].
    + destruct replies as [|[response_status rdm_data] replies];
        [reflexivity|].
      rewrite IH. unfold seq. now rewrite HandleResponse_pending.
    + now rewrite IH.
Qed.

(** ** [Terminate] is called once, and last *)

Lemma Run_Terminate (fuel : nat) :
  forall (replies : list reply) (w : world),
  m_terminate w = false ->
  count is_Terminate (trace w) = 0%nat ->
  match Run fuel replies w with
  | (stopped, w') =>
    count is_Terminate (trace w') = 1%nat /\
    List.last (trace w') ev_Run = ev_Terminate
  | (_, w') => count is_Terminate (trace w') = 0%nat
  end.
Proof.
  induction fuel as [|fuel IH]; intros replies w Ht Hc; simpl; rewrite Ht.
  - exact Hc.
  - destruct (registered w) as [|[|delay] rest]; [exact Hc| |].
    + destruct replies as [|[response_status rdm_data] replies]; [exact Hc|].
      set (w0 := (set_registered rest ;;
                  emit (ev_response response_status rdm_data)) w).
      change (match Run fuel replies
                      (HandleResponse response_status rdm_data w0) with
              | (stopped, w') =>
                count is_Terminate (trace w') = 1%nat /\
                List.last (trace w') ev_Run = ev_Terminate
              | (_, w') => count is_Terminate (trace w') = 0%nat
              end).
      assert (Hc0 : count is_Terminate (trace w0) = 0%nat).
      { subst w0. primitives. simpl. rewrite count_app, Hc. reflexivity. }
      assert (Ht0 : m_terminate w0 = false) by exact Ht.
      clearbody w0.
      destruct (terminal (branch_for (m_pending_request w0)
                                     (response_status, rdm_data))) eqn:Hb.
      * destruct (HandleResponse_terminal _ _ _ Hb) as (out & b & Hout & ->).
        rewrite Run_stopped by reflexivity.
        unfold set_cout_hex, set_m_terminate, emit_all. simpl trace.
        split.
        -- rewrite !count_app, Hc0, count_one. simpl.
           rewrite (count_forallb is_Terminate is_output); auto.
           intros [] ?; simpl in *; congruence.
        -- rewrite List.app_assoc. apply List.last_last.
      * rewrite (HandleResponse_nonterminal _ _ _ Hb).
        apply IH.
        -- destruct (ResponseClassifier response_status rdm_data);
             exact Ht0.
        -- destruct (ResponseClassifier response_status rdm_data);
             unfold FetchQueuedMessage; primitives; simpl trace;
             rewrite count_app, Hc0; reflexivity.
    + apply IH; [exact Ht|].
      unfold FetchQueuedMessage. primitives. simpl trace.
      rewrite !count_app, Hc. reflexivity.
Qed.

(** An authoritative ack, handled before anything has set [std::hex]: one
    line of report, the remaining-message lines, [Terminate]. *)
Lemma HandleResponse_authoritative (response_status : ResponseStatus.t)
    (rdm_data : string) (q : pending_request_t.t) (t : list event)
    (parameterValue : Z) :
  ResponseClassifier response_status rdm_data
    = ResponseOutcome.Ack parameterValue rdm_data ->
  branch_of (pid_value q) (ResponseOutcome.Ack parameterValue rdm_data)
    = authoritative_ack ->
  exists report, is_output report = true /\
    HandleResponse response_status rdm_data (delivered q t) =
    set_m_terminate true
      (delivered q
         (t ++ [report]
            ++ remaining_lines false (message_count response_status)
            ++ [ev_Terminate])) /\
    forall (pid_descriptor : PidDescriptor) (descriptor : Descriptor)
           (message : Message),
      GetDescriptor_value parameterValue (ManufacturerId (uid q))
        = Some pid_descriptor ->
      (if set_command response_status then SetResponse pid_descriptor
       else GetResponse pid_descriptor) = Some descriptor ->
      DeserializeMessage descriptor rdm_data = Some message ->
      report = ev_cout [text (PrettyPrintMessage
                                (ManufacturerId (uid q))
                                (set_command response_status)
                                parameterValue message)].
Proof.
  intros Hc Hb.
  rewrite HandleResponse_by_branch, Hc. cbv zeta.
  change (m_pending_request (delivered q t)) with q. rewrite Hb.
  destruct (HandleAckResponse_spec (ManufacturerId (uid q))
              (set_command response_status) parameterValue rdm_data
              (delivered q t)) as (e & He & Heq & Hdec).
  exists e. split; [exact He|]. split; [|exact Hdec].
  unfold seq at 1. rewrite Heq, finish_spec.
  unfold delivered, emit, emit_all, set_m_terminate. simpl.
  now rewrite <- List.app_assoc.
Qed.

(** The same, with the line of report told apart case by case. *)
Lemma HandleResponse_authoritative_report
    (response_status : ResponseStatus.t) (rdm_data : string)
    (q : pending_request_t.t) (t : list event) (parameterValue : Z) :
  ResponseClassifier response_status rdm_data
    = ResponseOutcome.Ack parameterValue rdm_data ->
  branch_of (pid_value q) (ResponseOutcome.Ack parameterValue rdm_data)
    = authoritative_ack ->
  let store_id := ManufacturerId (uid q) in
  let is_set := set_command response_status in
  exists report,
    HandleResponse response_status rdm_data (delivered q t) =
    set_m_terminate true
      (delivered q
         (t ++ [report]
            ++ remaining_lines false (message_count response_status)
            ++ [ev_Terminate])) /\
    is_output report = true /\
    (forall (pid_descriptor : PidDescriptor) (descriptor : Descriptor)
            (message : Message),
       GetDescriptor_value parameterValue store_id = Some pid_descriptor ->
       (if is_set then SetResponse pid_descriptor
        else GetResponse pid_descriptor) = Some descriptor ->
       DeserializeMessage descriptor rdm_data = Some message ->
       report = ev_cout [text (PrettyPrintMessage store_id is_set
                                                  parameterValue message)]) /\
    (decodable store_id is_set parameterValue rdm_data = false ->
     is_warn report = true) /\
    (GetDescriptor_value parameterValue store_id = None ->
     report = ev_warn [text "Unknown PID: "; number false parameterValue;
                       text "."]) /\
    (forall pid_descriptor : PidDescriptor,
       GetDescriptor_value parameterValue store_id = Some pid_descriptor ->
       (if is_set then SetResponse pid_descriptor
        else GetResponse pid_descriptor) = None ->
       report = ev_warn [text "Unknown response message: ";
                         text (if is_set then "SET" else "GET");
                         text " "; text (Name pid_descriptor)]) /\
    (forall (pid_descriptor : PidDescriptor) (descriptor : Descriptor),
       GetDescriptor_value parameterValue store_id = Some pid_descriptor ->
       (if is_set then SetResponse pid_descriptor
        else GetResponse pid_descriptor) = Some descriptor ->
       DeserializeMessage descriptor rdm_data = None ->
       report = ev_warn [text "Unable to inflate RDM response"]).
Proof.
  intros Hc Hb store_id is_set'. subst store_id is_set'.
  rewrite HandleResponse_by_branch, Hc. cbv zeta.
  change (m_pending_request (delivered q t)) with q. rewrite Hb.
  destruct (HandleAckResponse_report (ManufacturerId (uid q))
              (set_command response_status) parameterValue rdm_data
              (delivered q t)) as (e & Heq & Hrest).
  exists e. split; [|exact Hrest].
  unfold seq at 1. rewrite Heq, finish_spec.
  unfold delivered, emit, emit_all, set_m_terminate. simpl.
  now rewrite <- List.app_assoc.
Qed.

(** Replies that do not end the transaction leave nothing on the streams. *)
Lemma progress_silent (q : pending_request_t.t) (prefix : list reply) :
  count is_output (flat_map (progress q) prefix) = 0%nat.
Proof.
  induction prefix as [|r prefix IH]; [reflexivity|].
  simpl. rewrite count_app, IH. unfold progress, fetch_of.
  destruct (ResponseClassifier (fst r) (snd r)); reflexivity.
Qed.

(** ** Transactions

    [PerformRequestAndWait] from [boot], for a parameter name that resolves
    to [pid_descriptor], whose request schema is [descriptor], and for
    arguments that build [message]. *)

Section Transaction.

Variables (universe : Z) (uid : UID) (sub_device : Z) (pid_name : string)
          (is_set : bool) (inputs : list string).
Variables (pid_descriptor : PidDescriptor) (descriptor : Descriptor)
          (message : Message).
Variable garbage : pending_request_t.t.

Hypothesis resolved : lookup_descriptor uid pid_name = Some pid_descriptor.
Hypothesis supported :
  (if is_set then SetRequest pid_descriptor else GetRequest pid_descriptor)
  = Some descriptor.
Hypothesis built : BuildMessage descriptor inputs = Some message.

(** The pending request the transaction records, and the trace up to the
    moment the loop starts. *)
Local Abbreviation p :=
  {| pending_request_t.universe := universe;
     pending_request_t.uid := uid;
     pending_request_t.sub_device := sub_device;
     pending_request_t.pid_value := Value pid_descriptor |}.
Local Abbreviation start := (opening is_set p (SerializeMessage message)).

Lemma PerformRequestAndWait_submitted (fuel : nat) (replies : list reply)
    (w : world) :
  PerformRequestAndWait universe uid sub_device pid_name is_set inputs
                        fuel replies w =
  run_and_return fuel replies
    (submit universe uid sub_device pid_descriptor is_set message w).
Proof.
  unfold PerformRequestAndWait. now rewrite resolved, supported, built.
Qed.

Lemma submit_boot :
  emit ev_Run
    (submit universe uid sub_device pid_descriptor is_set message
            (boot garbage)) =
  {| m_pending_request := p;
     cout_hex := false;
     m_terminate := false;
     registered := [OnResponse];
     trace := start |}.
Proof.
  unfold submit, opening, request_of. destruct is_set; reflexivity.
Qed.

(** A transaction whose replies are [prefix], none of a terminal branch, and
    then a reply of a terminal branch, returns [EXIT_OK] in the world the
    handler leaves for that reply. *)
Lemma transaction (prefix : list reply) response_status rdm_data
    (rest : list reply) (fuel : nat) :
  Forall (fun r => terminal (branch_for p r) = false) prefix ->
  terminal (branch_for p (response_status, rdm_data)) = true ->
  (steps prefix < fuel)%nat ->
  PerformRequestAndWait universe uid sub_device pid_name is_set inputs
    fuel (prefix ++ (response_status, rdm_data) :: rest) (boot garbage) =
  (returns EXIT_OK,
   HandleResponse response_status rdm_data
     (delivered p (start ++ flat_map (progress p) prefix
                         ++ [ev_response response_status rdm_data]))).
Proof.
  intros Hprefix Hterm Hfuel.
  rewrite PerformRequestAndWait_submitted. unfold run_and_return.
  rewrite submit_boot.
  replace fuel with (steps prefix + S (fuel - S (steps prefix)))%nat by lia.
  rewrite Run_progress; [|split; reflexivity|exact Hprefix].
  rewrite Run_step_terminal; [|split; reflexivity|exact Hterm].
  reflexivity.
Qed.

(** Over a whole transaction [Terminate] is called once, as the last thing
    that happens, if the call returns, and not at all as long as it has
    not. *)
Lemma PerformRequestAndWait_Terminate (fuel : nat) (replies : list reply) :
  match PerformRequestAndWait universe uid sub_device pid_name is_set inputs
          fuel replies (boot garbage) with
  | (returns _, w') =>
    count is_Terminate (trace w') = 1%nat /\
    List.last (trace w') ev_Run = ev_Terminate
  | (_, w') => count is_Terminate (trace w') = 0%nat
  end.
Proof.
  rewrite PerformRequestAndWait_submitted. unfold run_and_return.
  rewrite submit_boot.
  match goal with |- context [Run fuel replies ?w] =>
    pose proof (Run_Terminate fuel replies w eq_refl) as H;
    destruct (Run fuel replies w) as [[| |] w']
  end; apply H; unfold opening, request_of; destruct is_set; reflexivity.
Qed.

(** C5.  When the first reply is an ack that carries the status-messages
    parameter and no payload, and the requested parameter is neither that
    parameter nor the queued-message parameter, the driver prints the
    empty-status-messages notice (and the remaining-message lines, if any),
    calls [Terminate], and returns: the only request of the transaction is
    the one that opened it, no queued message is fetched. *)
Theorem empty_status_messages_first (response_status : ResponseStatus.t)
    (rest : list reply) (fuel : nat) :
  ResponseClassifier response_status EmptyString
    = ResponseOutcome.Ack PID_STATUS_MESSAGES EmptyString ->
  Value pid_descriptor <> PID_STATUS_MESSAGES ->
  Value pid_descriptor <> PID_QUEUED_MESSAGE ->
  (0 < fuel)%nat ->
  let r := PerformRequestAndWait universe uid sub_device pid_name is_set
             inputs fuel ((response_status, EmptyString) :: rest)
             (boot garbage) in
  fst r = returns EXIT_OK /\
  trace (snd r) =
    start
    ++ [ev_response response_status EmptyString;
        ev_cout [text "Empty STATUS_MESSAGES returned."; newline]]
    ++ remaining_lines false (message_count response_status)
    ++ [ev_Terminate] /\
  m_terminate (snd r) = true /\
  count is_request (trace (snd r)) = 1%nat.
Proof.
  intros Hack Hsm Hqm Hfuel r.
  assert (Hb : branch_of (Value pid_descriptor)
                 (ResponseOutcome.Ack PID_STATUS_MESSAGES EmptyString)
               = empty_status_messages_ack).
  { unfold branch_of.
    apply not_eq_sym, Z.eqb_neq in Hsm. apply Z.eqb_neq in Hqm.
    now rewrite Hsm, Hqm, Z.eqb_refl. }
  assert (Hr : r = (returns EXIT_OK,
                    HandleResponse response_status EmptyString
                      (delivered p
                         (start ++ [ev_response response_status
                                                EmptyString])))).
  { subst r.
    apply (transaction [] response_status EmptyString rest fuel);
      [constructor| |exact Hfuel].
    unfold branch_for. simpl fst; simpl snd. simpl pid_value.
    now rewrite Hack, Hb. }
  rewrite Hr. simpl fst; simpl snd.
  rewrite HandleResponse_by_branch, Hack. cbv zeta. simpl pid_value.
  rewrite Hb. unfold seq. rewrite PrintRemainingMessages_spec.
  unfold remaining_lines, request_of.
  destruct (message_count response_status =? 0), is_set;
    repeat split; reflexivity.
Qed.

(** C6.  A reply classified as Broadcast makes the handler call [Terminate]
    and do nothing else: no line is written, the remaining-message count is
    not printed.  In a transaction whose earlier replies were not terminal,
    the loop then stops, [PerformRequestAndWait] returns [EXIT_OK], and the
    streams have been left untouched throughout. *)
Theorem broadcast_terminates_silently (prefix : list reply)
    (response_status : ResponseStatus.t) (rdm_data : string)
    (rest : list reply) (fuel : nat) (w : world) :
  ResponseClassifier response_status rdm_data = ResponseOutcome.Broadcast ->
  Forall (fun r => terminal (branch_for p r) = false) prefix ->
  (steps prefix < fuel)%nat ->
  HandleResponse response_status rdm_data w = Terminate w /\
  since w (HandleResponse response_status rdm_data w) = [ev_Terminate] /\
  let r := PerformRequestAndWait universe uid sub_device pid_name is_set
             inputs fuel (prefix ++ (response_status, rdm_data) :: rest)
             (boot garbage) in
  fst r = returns EXIT_OK /\
  trace (snd r) =
    start ++ flat_map (progress p) prefix
          ++ [ev_response response_status rdm_data; ev_Terminate] /\
  m_terminate (snd r) = true /\
  count is_output (trace (snd r)) = 0%nat.
Proof.
  intros Hb Hprefix Hfuel.
  assert (Hh : forall w0, HandleResponse response_status rdm_data w0
                          = Terminate w0).
  { intros w0. now rewrite HandleResponse_by_branch, Hb. }
  split; [apply Hh|]. split; [rewrite Hh; now apply since_app|].
  intros r.
  assert (Hr : r = (returns EXIT_OK,
                    HandleResponse response_status rdm_data
                      (delivered p (start ++ flat_map (progress p) prefix
                          ++ [ev_response response_status rdm_data])))).
  { subst r. apply transaction; [exact Hprefix| |exact Hfuel].
    unfold branch_for. simpl fst; simpl snd. now rewrite Hb. }
  rewrite Hr, Hh. simpl fst; simpl snd.
  assert (Htrace :
    trace (Terminate
             (delivered p (start ++ flat_map (progress p) prefix
                ++ [ev_response response_status rdm_data]))) =
    start ++ flat_map (progress p) prefix
          ++ [ev_response response_status rdm_data; ev_Terminate]).
  { unfold Terminate, seq, emit, set_m_terminate, delivered. simpl.
    now rewrite <- List.app_assoc. }
  split; [reflexivity|]. split; [exact Htrace|]. split; [reflexivity|].
  etransitivity; [exact (f_equal (count is_output) Htrace)|].
  rewrite !count_app, progress_silent.
  unfold opening, request_of. destruct is_set; reflexivity.
Qed.


(** C4.  For every reply the handler processes, [Terminate] is called once
    if the reply takes a terminal branch (transport error, broadcast,
    protocol error, authoritative ack, empty status-messages ack, nack,
    unknown response type) and not at all if it takes the ack-timer or the
    queue-signal branch.  Over a whole transaction [Terminate] is called
    exactly once, as the last event, when [PerformRequestAndWait] returns,
    and has not been called while it has not returned; and it does return
    once a reply of a terminal branch arrives. *)
Theorem Terminate_exactly_once :
  (forall (response_status : ResponseStatus.t) (rdm_data : string)
          (w : world),
     let w' := HandleResponse response_status rdm_data w in
     trace w' = trace w ++ since w w' /\
     count is_Terminate (since w w') =
       if terminal (branch_for (m_pending_request w)
                               (response_status, rdm_data))
       then 1%nat else 0%nat) /\
  (forall (fuel : nat) (replies : list reply),
     match PerformRequestAndWait universe uid sub_device pid_name is_set
             inputs fuel replies (boot garbage) with
     | (returns _, w') =>
       count is_Terminate (trace w') = 1%nat /\
       List.last (trace w') ev_Run = ev_Terminate
     | (_, w') => count is_Terminate (trace w') = 0%nat
     end) /\
  (forall (prefix : list reply) (response_status : ResponseStatus.t)
          (rdm_data : string) (rest : list reply) (fuel : nat),
     Forall (fun r => terminal (branch_for p r) = false) prefix ->
     terminal (branch_for p (response_status, rdm_data)) = true ->
     (steps prefix < fuel)%nat ->
     fst (PerformRequestAndWait universe uid sub_device pid_name is_set
            inputs fuel (prefix ++ (response_status, rdm_data) :: rest)
            (boot garbage))
     = returns EXIT_OK).
Proof.
  split; [|split].
  - intros response_status rdm_data w w'. subst w'.
    destruct (terminal (branch_for (m_pending_request w)
                                   (response_status, rdm_data))) eqn:Hb.
    + destruct (HandleResponse_terminal _ _ _ Hb) as (out & b & Hout & ->).
      assert (Ht : trace (set_cout_hex b (set_m_terminate true
                            (emit_all (out ++ [ev_Terminate]) w)))
                   = trace w ++ (out ++ [ev_Terminate])) by reflexivity.
      rewrite (since_app _ _ _ Ht). split; [exact Ht|].
      rewrite count_app, count_one. simpl.
      rewrite (count_forallb is_Terminate is_output); auto.
      intros [] ?; simpl in *; congruence.
    + rewrite (HandleResponse_nonterminal _ _ _ Hb).
      destruct (ResponseClassifier response_status rdm_data);
        match goal with |- trace ?w' = _ /\ _ =>
          assert (Ht : exists e, is_Terminate e = false /\
                                 trace w' = trace w ++ [e])
            by (eexists; split; [|reflexivity]; reflexivity);
          destruct Ht as (e & He & Ht);
          rewrite (since_app _ _ _ Ht); split; [exact Ht|];
          rewrite count_one, He; reflexivity
        end.
  - apply PerformRequestAndWait_Terminate.
  - intros prefix response_status rdm_data rest fuel Hprefix Hterm Hfuel.
    now rewrite (transaction prefix response_status rdm_data rest fuel).
Qed.

(** C10.  Once [PerformRequestAndWait] has written the pending request,
    nothing writes it again: handling a reply, printing, logging, and even
    the queued-message fetch leave its four fields as they are, and so it
    holds the universe, the UID, the sub-device and the parameter value of
    the original request at every point of the transaction. *)
Theorem pending_request_frame :
  (forall (response_status : ResponseStatus.t) (rdm_data : string)
          (w : world),
     m_pending_request (HandleResponse response_status rdm_data w)
     = m_pending_request w) /\
  (forall (w : world),
     m_pending_request (FetchQueuedMessage w) = m_pending_request w) /\
  (forall (l : list token) (w : world),
     m_pending_request (cout l w) = m_pending_request w /\
     m_pending_request (cerr l w) = m_pending_request w /\
     m_pending_request (OLA_WARN l w) = m_pending_request w) /\
  (forall (message_count : Z) (w : world),
     m_pending_request (PrintRemainingMessages message_count w)
     = m_pending_request w) /\
  (forall (fuel : nat) (replies : list reply) (w : world),
     m_pending_request (snd (Run fuel replies w)) = m_pending_request w) /\
  (forall (fuel : nat) (replies : list reply),
     m_pending_request
       (snd (PerformRequestAndWait universe uid sub_device pid_name is_set
               inputs fuel replies (boot garbage)))
     = p).
Proof.
  repeat split.
  - intros. apply HandleResponse_pending.
  - unfold cout. destruct (insert (cout_hex w) l). reflexivity.
  - intros. now rewrite PrintRemainingMessages_spec.
  - intros. apply Run_pending.
  - intros fuel replies.
    rewrite PerformRequestAndWait_submitted. unfold run_and_return.
    match goal with |- context [Run fuel replies ?w] =>
      pose proof (Run_pending fuel replies w) as H;
      destruct (Run fuel replies w) as [[| |] w']
    end; simpl in *; rewrite H; unfold submit; destruct is_set; reflexivity.
Qed.

(** C1, as the code has it.  When the requested parameter is itself the
    queued-message parameter and the replies are an ack-timer with delay
    [delay] followed by an ack that carries the queued-message parameter,
    the driver registers a one-shot timer for [delay], issues one
    queued-message fetch when the timer fires, and takes the second reply
    as the answer: it hands the payload to the ack handler, which writes one
    line (the pretty-printed message on [cout] when the descriptor and the
    response schema are found and the payload inflates; otherwise a warning
    in the log that names what failed: the parameter is unknown, it has no
    response schema for the command, or the payload does not inflate), then
    the remaining-message lines if the count is not zero, then calls
    [Terminate]; no further fetch is issued. *)
Theorem ack_timer_then_ack_of_queued_message_request
    (timer : ResponseStatus.t) (timer_data : string) (delay : Z)
    (response_status : ResponseStatus.t) (payload : string)
    (rest : list reply) (fuel : nat) :
  Value pid_descriptor = PID_QUEUED_MESSAGE ->
  ResponseClassifier timer timer_data = ResponseOutcome.AckTimer delay ->
  ResponseClassifier response_status payload
    = ResponseOutcome.Ack PID_QUEUED_MESSAGE payload ->
  (2 < fuel)%nat ->
  let r := PerformRequestAndWait universe uid sub_device pid_name is_set
             inputs fuel
             ((timer, timer_data) :: (response_status, payload) :: rest)
             (boot garbage) in
  exists report : event,
    fst r = returns EXIT_OK /\
    trace (snd r) =
      start
      ++ [ev_response timer timer_data;
          ev_RegisterSingleTimeout delay;
          ev_timeout delay;
          fetch_of p;
          ev_response response_status payload;
          report]
      ++ remaining_lines false (message_count response_status)
      ++ [ev_Terminate] /\
    is_output report = true /\
    (forall (rd : PidDescriptor) (schema : Descriptor) (m : Message),
       GetDescriptor_value PID_QUEUED_MESSAGE (ManufacturerId uid) = Some rd ->
       (if set_command response_status then SetResponse rd
        else GetResponse rd) = Some schema ->
       DeserializeMessage schema payload = Some m ->
       report = ev_cout [text (PrettyPrintMessage
                                 (ManufacturerId uid)
                                 (set_command response_status)
                                 PID_QUEUED_MESSAGE m)]) /\
    (decodable (ManufacturerId uid) (set_command response_status)
               PID_QUEUED_MESSAGE payload = false ->
     is_warn report = true) /\
    (GetDescriptor_value PID_QUEUED_MESSAGE (ManufacturerId uid) = None ->
     report = ev_warn [text "Unknown PID: "; number false PID_QUEUED_MESSAGE;
                       text "."]) /\
    (forall rd : PidDescriptor,
       GetDescriptor_value PID_QUEUED_MESSAGE (ManufacturerId uid) = Some rd ->
       (if set_command response_status then SetResponse rd
        else GetResponse rd) = None ->
       report = ev_warn [text "Unknown response message: ";
                         text (if set_command response_status
                               then "SET" else "GET");
                         text " "; text (Name rd)]) /\
    (forall (rd : PidDescriptor) (schema : Descriptor),
       GetDescriptor_value PID_QUEUED_MESSAGE (ManufacturerId uid) = Some rd ->
       (if set_command response_status then SetResponse rd
        else GetResponse rd) = Some schema ->
       DeserializeMessage schema payload = None ->
       report = ev_warn [text "Unable to inflate RDM response"]) /\
    count is_request (trace (snd r)) = 2%nat.
Proof.
  intros Hqm Htimer Hack Hfuel r.
  assert (Hb : branch_of (pid_value p)
                 (ResponseOutcome.Ack PID_QUEUED_MESSAGE payload)
               = authoritative_ack).
  { unfold branch_of. simpl pid_value.
    now rewrite Hqm, Z.eqb_refl. }
  assert (Hr : r = (returns EXIT_OK,
                    HandleResponse response_status payload
                      (delivered p (start
                         ++ flat_map (progress p) [(timer, timer_data)]
                         ++ [ev_response response_status payload])))).
  { subst r.
    apply (transaction [(timer, timer_data)] response_status payload rest fuel).
    - repeat constructor. unfold branch_for. simpl fst; simpl snd.
      now rewrite Htimer.
    - unfold branch_for. simpl fst; simpl snd. now rewrite Hack, Hb.
    - unfold steps, cost. simpl. now rewrite Htimer. }
  destruct (HandleResponse_authoritative_report response_status payload p
              (start ++ flat_map (progress p) [(timer, timer_data)]
                     ++ [ev_response response_status payload])
              PID_QUEUED_MESSAGE Hack Hb)
    as (report & Hw & Hout & Hdec & Hlog & Hunknown & Hschema & Hinflate).
  exists report. rewrite Hr, Hw. simpl fst; simpl snd.
  assert (Htrace :
    trace (set_m_terminate true
             (delivered p
                ((start ++ flat_map (progress p) [(timer, timer_data)]
                        ++ [ev_response response_status payload])
                 ++ [report]
                 ++ remaining_lines false (message_count response_status)
                 ++ [ev_Terminate]))) =
    start
    ++ [ev_response timer timer_data; ev_RegisterSingleTimeout delay;
        ev_timeout delay; fetch_of p;
        ev_response response_status payload; report]
    ++ remaining_lines false (message_count response_status)
    ++ [ev_Terminate]).
  { unfold progress. simpl. rewrite Htimer. reflexivity. }
  split; [reflexivity|]. split; [exact Htrace|]. split; [exact Hout|].
  split; [exact Hdec|]. split; [exact Hlog|]. split; [exact Hunknown|].
  split; [exact Hschema|]. split; [exact Hinflate|].
  etransitivity; [exact (f_equal (count is_request) Htrace)|].
  rewrite !count_app, remaining_lines_count by reflexivity.
  unfold opening, request_of, fetch_of.
  destruct report; try discriminate; destruct is_set; reflexivity.
Qed.

(** An ack that carries another parameter than the requested one, with a
    payload, is a queue signal unless the request was for the queued-message
    parameter. *)
Lemma other_parameter_is_queue_signal (s : reply) :
  Value pid_descriptor <> PID_QUEUED_MESSAGE ->
  (exists parameterValue payload,
     ResponseClassifier (fst s) (snd s)
       = ResponseOutcome.Ack parameterValue payload /\
     parameterValue <> Value pid_descriptor /\
     payload <> EmptyString) ->
  terminal (branch_for p s) = false /\
  progress p s = [ev_response (fst s) (snd s); fetch_of p] /\
  cost s = 1%nat.
Proof.
  intros Hqm (parameterValue & payload & Hc & Hne & Hpl).
  unfold branch_for, progress, cost. rewrite Hc.
  split; [|split; reflexivity].
  unfold branch_of. simpl pid_value.
  apply Z.eqb_neq in Hne, Hqm. rewrite Hne, Hqm. simpl.
  destruct payload; [congruence|].
  now rewrite andb_false_r.
Qed.

Lemma drain_signals (signals : list reply) :
  Value pid_descriptor <> PID_QUEUED_MESSAGE ->
  Forall (fun s => exists parameterValue payload,
            ResponseClassifier (fst s) (snd s)
              = ResponseOutcome.Ack parameterValue payload /\
            parameterValue <> Value pid_descriptor /\
            payload <> EmptyString) signals ->
  Forall (fun r => terminal (branch_for p r) = false) signals /\
  flat_map (progress p) signals
    = flat_map (fun s => [ev_response (fst s) (snd s); fetch_of p]) signals /\
  steps signals = List.length signals /\
  count is_request
    (flat_map (fun s => [ev_response (fst s) (snd s); fetch_of p]) signals)
    = List.length signals.
Proof.
  intros Hqm Hall. induction Hall as [|s signals Hs _ IH].
  - repeat split. constructor.
  - destruct IH as (IH1 & IH2 & IH3 & IH4).
    destruct (other_parameter_is_queue_signal s Hqm Hs) as (H1 & H2 & H3).
    repeat split.
    + now constructor.
    + simpl. now rewrite H2, IH2.
    + simpl. now rewrite H3, IH3.
    + change (flat_map _ (s :: signals))
        with ([ev_response (fst s) (snd s); fetch_of p]
              ++ flat_map (fun s => [ev_response (fst s) (snd s); fetch_of p])
                          signals).
      rewrite count_app, IH4. reflexivity.
Qed.

(** C2, as the code has it.  When the requested parameter is not the
    queued-message parameter, and the replies are [N] acks that each carry
    another parameter than the requested one, with a payload, followed by
    an ack that carries the requested parameter, the driver issues exactly
    [N] queued-message fetches, one after each of the [N] acks, before it
    handles the last ack as the answer, and calls [Terminate] exactly once,
    after it has handled that ack. *)
Theorem drain_then_authoritative_ack (N : nat) (signals : list reply)
    (response_status : ResponseStatus.t) (payload : string)
    (rest : list reply) (fuel : nat) :
  Value pid_descriptor <> PID_QUEUED_MESSAGE ->
  List.length signals = N ->
  Forall (fun s => exists parameterValue data,
            ResponseClassifier (fst s) (snd s)
              = ResponseOutcome.Ack parameterValue data /\
            parameterValue <> Value pid_descriptor /\
            data <> EmptyString) signals ->
  ResponseClassifier response_status payload
    = ResponseOutcome.Ack (Value pid_descriptor) payload ->
  (N < fuel)%nat ->
  let r := PerformRequestAndWait universe uid sub_device pid_name is_set
             inputs fuel (signals ++ (response_status, payload) :: rest)
             (boot garbage) in
  let fetches :=
    flat_map (fun s => [ev_response (fst s) (snd s); fetch_of p]) signals in
  exists report : event,
    fst r = returns EXIT_OK /\
    trace (snd r) =
      start ++ fetches
      ++ [ev_response response_status payload; report]
      ++ remaining_lines false (message_count response_status)
      ++ [ev_Terminate] /\
    is_output report = true /\
    count is_request fetches = N /\
    count is_Terminate (trace (snd r)) = 1%nat.
Proof.
  intros Hqm HN Hsignals Hack Hfuel r fetches.
  destruct (drain_signals signals Hqm Hsignals) as (H1 & H2 & H3 & H4).
  assert (Hb : branch_of (pid_value p)
                 (ResponseOutcome.Ack (Value pid_descriptor) payload)
               = authoritative_ack).
  { unfold branch_of. simpl pid_value. now rewrite Z.eqb_refl. }
  assert (Hr : r = (returns EXIT_OK,
                    HandleResponse response_status payload
                      (delivered p (start ++ flat_map (progress p) signals
                         ++ [ev_response response_status payload])))).
  { subst r. apply transaction; [exact H1| |lia].
    unfold branch_for. simpl fst; simpl snd. now rewrite Hack, Hb. }
  destruct (HandleResponse_authoritative response_status payload p
              (start ++ flat_map (progress p) signals
                     ++ [ev_response response_status payload])
              (Value pid_descriptor) Hack Hb)
    as (report & Hout & Hw & _).
  exists report.
  pose proof (PerformRequestAndWait_Terminate fuel
                (signals ++ (response_status, payload) :: rest)) as Hterm.
  fold r in Hterm. rewrite Hr in Hterm |- *. rewrite Hw in *.
  simpl fst; simpl snd.
  split; [reflexivity|]. split.
  - unfold set_m_terminate, delivered. simpl trace. rewrite H2.
    fold fetches. rewrite <- !List.app_assoc. reflexivity.
  - split; [exact Hout|]. split; [|apply Hterm].
    unfold fetches. now rewrite H4.
Qed.

End Transaction.

(** ** Requests that are never sent *)

(** C7.  When the arguments do not build a message against the request
    schema of the resolved parameter, [PerformRequestAndWait] prints the
    schema, returns [EXIT_USAGE], and puts nothing on the connection: no
    request event, nothing registered with the reactor, the pending request
    not even recorded. *)
Theorem build_failure_is_usage_error (universe : Z) (uid : UID)
    (sub_device : Z) (pid_name : string) (is_set : bool)
    (inputs : list string) (pid_descriptor : PidDescriptor)
    (descriptor : Descriptor) (fuel : nat) (replies : list reply)
    (w : world) :
  lookup_descriptor uid pid_name = Some pid_descriptor ->
  (if is_set then SetRequest pid_descriptor else GetRequest pid_descriptor)
    = Some descriptor ->
  BuildMessage descriptor inputs = None ->
  let r := PerformRequestAndWait universe uid sub_device pid_name is_set
             inputs fuel replies w in
  fst r = returns EXIT_USAGE /\
  trace (snd r) = trace w ++ [ev_cout [text (SchemaAsString descriptor)]] /\
  count is_request (since w (snd r)) = 0%nat /\
  registered (snd r) = registered w /\
  m_pending_request (snd r) = m_pending_request w.
Proof.
  intros Hlookup Hschema Hbuild r. subst r.
  unfold PerformRequestAndWait. rewrite Hlookup, Hschema, Hbuild.
  simpl fst; simpl snd.
  assert (Ht : trace (cout [str (SchemaAsString descriptor)] w)
               = trace w ++ [ev_cout [text (SchemaAsString descriptor)]])
    by reflexivity.
  rewrite (since_app _ _ _ Ht). repeat split.
Qed.


(** ** Nacks *)

(** C8.  For a reply classified as NackReason(code) the handler prints the
    textual rendering of the code and calls [Terminate]; in between it
    prints the remaining-message count of the reply, right before
    [Terminate], if and only if that count is not zero. *)
Theorem nack_reason_reported (response_status : ResponseStatus.t)
    (rdm_data : string) (code : Z) (w : world) :
  ResponseClassifier response_status rdm_data
    = ResponseOutcome.NackReason code ->
  let w' := HandleResponse response_status rdm_data w in
  let nack_line :=
    ev_cout [text "Request NACKed: "; text (NackReasonToString code);
             newline] in
  let count_line :=
    ev_cout [text "Messages remaining: ";
             number (cout_hex w) (message_count response_status);
             newline] in
  let rule :=
    ev_cout [text "-----------------------------------------------------";
             newline] in
  trace w' = trace w ++ since w w' /\
  since w w' =
    (if message_count response_status =? 0
     then [nack_line; ev_Terminate]
     else [nack_line; rule; count_line; ev_Terminate]) /\
  (In count_line (since w w') <-> message_count response_status <> 0) /\
  m_terminate w' = true /\
  registered w' = registered w.
Proof.
  intros Hc w' nack_line count_line rule. subst w'.
  assert (Hw : HandleResponse response_status rdm_data w =
               set_m_terminate true
                 (emit_all
                    (remaining_lines (cout_hex w)
                                     (message_count response_status)
                     ++ [ev_Terminate])
                    (cout [str "Request NACKed: ";
                           str (NackReasonToString code); endl] w))).
  { rewrite HandleResponse_by_branch, Hc. cbv zeta.
    unfold seq at 1. now rewrite finish_spec. }
  rewrite Hw.
  match goal with |- trace ?w' = _ /\ _ =>
    assert (Ht : trace w' =
                 trace w ++
                 (if message_count response_status =? 0
                  then [nack_line; ev_Terminate]
                  else [nack_line; rule; count_line; ev_Terminate]))
  end.
  { unfold remaining_lines.
    destruct (message_count response_status =? 0); same_world w. }
  rewrite (since_app _ _ _ Ht).
  split; [exact Ht|]. split; [reflexivity|]. split; [|split; reflexivity].
  destruct (message_count response_status =? 0) eqn:Hz.
  - apply Z.eqb_eq in Hz. split; [|congruence].
    intros [H|[H|[]]]; discriminate.
  - apply Z.eqb_neq in Hz. split; [intros _; exact Hz|].
    intros _. right; right; left; reflexivity.
Qed.

End Properties.

(** * The properties at work

    The theorems above, applied in the concrete setting of [Rig]:
    [ola_rdm_get] of DEVICE_INFO or QUEUED_MESSAGE on universe 1. *)

(** [ola_rdm_get DEVICE_INFO], answered by an empty STATUS_MESSAGES ack. *)
Lemma empty_status_messages_first_witness :
  (@lookup_descriptor Rig.strutil Rig.m_pid_helper Rig.device "DEVICE_INFO"
     = Some Rig.DEVICE_INFO /\
   @ResponseClassifier Rig.enums (fst (Rig.ack 48 EmptyString)) EmptyString
     = ResponseOutcome.Ack 48 EmptyString /\
   Rig.pid_id Rig.DEVICE_INFO <> 48 /\
   Rig.pid_id Rig.DEVICE_INFO <> 32) /\
  let r := Rig.get "DEVICE_INFO" [] 1 [Rig.ack 48 EmptyString] in
  fst r = returns 0 /\
  trace (snd r) =
    [ev_RDMGet 1 Rig.device 0 96 []; ev_Run;
     ev_response (fst (Rig.ack 48 EmptyString)) EmptyString;
     ev_cout [text "Empty STATUS_MESSAGES returned."; newline];
     ev_Terminate] /\
  m_terminate (snd r) = true /\
  count is_request (trace (snd r)) = 1%nat.
Proof.
  split.
  - repeat split; (reflexivity || (cbn; lia)).
  - apply (@empty_status_messages_first
             Rig.enums Rig.sysexits Rig.strutil Rig.rdmhelper Rig.m_pid_helper
             1 Rig.device 0 "DEVICE_INFO"%string false [] Rig.DEVICE_INFO
             0%nat [] Rig.garbage eq_refl eq_refl eq_refl
             (fst (Rig.ack 48 EmptyString)) [] 1%nat);
      [reflexivity | cbn; lia | cbn; lia | lia].
Defined.

(** [ola_rdm_get DEVICE_INFO] sent to a broadcast UID, after one deferred
    reply. *)
Lemma broadcast_terminates_silently_witness :
  (@ResponseClassifier Rig.enums (fst Rig.broadcast) (snd Rig.broadcast)
     = ResponseOutcome.Broadcast /\
   @branch_for Rig.enums (Rig.pending Rig.DEVICE_INFO)
               (Rig.ack_timer 100) = ack_timer) /\
  since (boot Rig.garbage)
        (@HandleResponse Rig.enums Rig.rdmhelper Rig.m_pid_helper
           (fst Rig.broadcast) (snd Rig.broadcast) (boot Rig.garbage))
    = [ev_Terminate] /\
  let r := Rig.get "DEVICE_INFO" [] 3 [Rig.ack_timer 100; Rig.broadcast] in
  fst r = returns 0 /\
  m_terminate (snd r) = true /\
  count is_output (trace (snd r)) = 0%nat.
Proof.
  split; [split; reflexivity|].
  pose proof (@broadcast_terminates_silently
                Rig.enums Rig.sysexits Rig.strutil Rig.rdmhelper
                Rig.m_pid_helper
                1 Rig.device 0 "DEVICE_INFO"%string false [] Rig.DEVICE_INFO
                0%nat [] Rig.garbage eq_refl eq_refl eq_refl
                [Rig.ack_timer 100] (fst Rig.broadcast) (snd Rig.broadcast)
                [] 3%nat (boot Rig.garbage) eq_refl
                ltac:(repeat constructor) ltac:(cbn; lia))
    as (_ & Hsince & Hexit & _ & Hterm & Hquiet).
  repeat split; assumption.
Defined.



(** [ola_rdm_get QUEUED_MESSAGE error], deferred once and then answered. *)
Lemma ack_timer_then_ack_of_queued_message_request_witness :
  (Rig.pid_id Rig.QUEUED_MESSAGE = @PID_QUEUED_MESSAGE Rig.enums /\
   @ResponseClassifier Rig.enums (fst (Rig.ack_timer 100))
                       (snd (Rig.ack_timer 100))
     = ResponseOutcome.AckTimer 100 /\
   @ResponseClassifier Rig.enums (fst (Rig.ack 32 "abc")) "abc"
     = ResponseOutcome.Ack 32 "abc") /\
  let r := Rig.get "QUEUED_MESSAGE" ["error"%string] 3
                   [Rig.ack_timer 100; Rig.ack 32 "abc"] in
  exists report : event,
    fst r = returns 0 /\
    trace (snd r) =
      [ev_RDMGet 1 Rig.device 0 32 []; ev_Run;
       ev_response (fst (Rig.ack_timer 100)) EmptyString;
       ev_RegisterSingleTimeout 100;
       ev_timeout 100;
       ev_RDMGet 1 Rig.device 0 32 [x04];
       ev_response (fst (Rig.ack 32 "abc")) "abc";
       report;
       ev_Terminate] /\
    report = ev_cout [text "abc"] /\
    count is_request (trace (snd r)) = 2%nat.
Proof.
  split; [repeat split|].
  destruct (@ack_timer_then_ack_of_queued_message_request
              Rig.enums Rig.sysexits Rig.strutil Rig.rdmhelper
              Rig.m_pid_helper
              1 Rig.device 0 "QUEUED_MESSAGE"%string false ["error"%string]
              Rig.QUEUED_MESSAGE 1%nat ["error"%string] Rig.garbage
              eq_refl eq_refl eq_refl
              (fst (Rig.ack_timer 100)) (snd (Rig.ack_timer 100)) 100
              (fst (Rig.ack 32 "abc")) "abc"%string [] 3%nat
              eq_refl eq_refl eq_refl ltac:(lia))
    as (report & Hexit & Htrace & _ & Hdecoded & _ & _ & _ & _ & Hcount).
  exists report. repeat split; try assumption.
  exact (Hdecoded Rig.QUEUED_MESSAGE 1%nat ["abc"%string]
                  eq_refl eq_refl eq_refl).
Defined.

(** C1, as stated, fails: [ola_rdm_get DEVICE_INFO], deferred once and then
    answered by an ack that carries the queued-message parameter.  The
    second reply is not taken as the answer: nothing is printed,
    [Terminate] is not called, and a second queued-message fetch goes
    out. *)
Lemma ack_timer_then_queued_message_ack_is_drained_again :
  @ResponseClassifier Rig.enums (fst (Rig.ack_timer 100))
                      (snd (Rig.ack_timer 100))
    = ResponseOutcome.AckTimer 100 /\
  @ResponseClassifier Rig.enums (fst (Rig.ack 32 "abc")) "abc"
    = ResponseOutcome.Ack (@PID_QUEUED_MESSAGE Rig.enums) "abc" /\
  let r := Rig.get "DEVICE_INFO" [] 10
                   [Rig.ack_timer 100; Rig.ack 32 "abc"] in
  trace (snd r) =
    [ev_RDMGet 1 Rig.device 0 96 []; ev_Run;
     ev_response (fst (Rig.ack_timer 100)) EmptyString;
     ev_RegisterSingleTimeout 100;
     ev_timeout 100;
     ev_RDMGet 1 Rig.device 0 32 [x04];
     ev_response (fst (Rig.ack 32 "abc")) "abc";
     ev_RDMGet 1 Rig.device 0 32 [x04]] /\
  count is_request (trace (snd r)) = 3%nat /\
  count is_output (trace (snd r)) = 0%nat /\
  count is_Terminate (trace (snd r)) = 0%nat /\
  fst r = hangs.
Proof. repeat split. Qed.

(** [ola_rdm_get DEVICE_INFO] on a device with two queued messages. *)
Lemma drain_then_authoritative_ack_witness :
  (Rig.pid_id Rig.DEVICE_INFO <> @PID_QUEUED_MESSAGE Rig.enums /\
   @branch_for Rig.enums (Rig.pending Rig.DEVICE_INFO) (Rig.ack 512 "a")
     = queue_signal_ack /\
   @branch_for Rig.enums (Rig.pending Rig.DEVICE_INFO) (Rig.ack 48 "b")
     = queue_signal_ack) /\
  let r := Rig.get "DEVICE_INFO" [] 3
                   [Rig.ack 512 "a"; Rig.ack 48 "b"; Rig.ack 96 "info"] in
  exists report : event,
    fst r = returns 0 /\
    trace (snd r) =
      [ev_RDMGet 1 Rig.device 0 96 []; ev_Run;
       ev_response (fst (Rig.ack 512 "a")) "a";
       ev_RDMGet 1 Rig.device 0 32 [x04];
       ev_response (fst (Rig.ack 48 "b")) "b";
       ev_RDMGet 1 Rig.device 0 32 [x04];
       ev_response (fst (Rig.ack 96 "info")) "info";
       report;
       ev_Terminate] /\
    is_output report = true /\
    count is_Terminate (trace (snd r)) = 1%nat.
Proof.
  split; [repeat split; cbn; lia|].
  destruct (@drain_then_authoritative_ack
              Rig.enums Rig.sysexits Rig.strutil Rig.rdmhelper
              Rig.m_pid_helper
              1 Rig.device 0 "DEVICE_INFO"%string false []
              Rig.DEVICE_INFO 0%nat [] Rig.garbage
              eq_refl eq_refl eq_refl
              2%nat [Rig.ack 512 "a"; Rig.ack 48 "b"]
              (fst (Rig.ack 96 "info")) "info"%string [] 3%nat
              ltac:(cbn; lia) eq_refl
              ltac:(repeat (apply Forall_cons;
                              [do 2 eexists;
                               split; [reflexivity|];
                               split; [cbn; lia|discriminate]|]);
                    apply Forall_nil)
              eq_refl ltac:(lia))
    as (report & Hexit & Htrace & Hout & _ & Hterm).
  exists report. repeat split; assumption.
Defined.

(** C2, as stated, fails: [ola_rdm_get QUEUED_MESSAGE error], answered by
    an ack that carries another parameter, with a payload (N = 1), and
    then by an ack that carries the requested parameter.  No queued-message
    fetch is issued: the first ack is taken as the answer, and [Terminate]
    is called before the second ack is handled at all. *)
Lemma queued_message_request_takes_first_ack :
  (@ResponseClassifier Rig.enums (fst (Rig.ack 96 "abc")) "abc"
     = ResponseOutcome.Ack 96 "abc" /\
   96 <> Rig.pid_id Rig.QUEUED_MESSAGE /\
   "abc"%string <> EmptyString /\
   @ResponseClassifier Rig.enums (fst (Rig.ack 32 "info")) "info"
     = ResponseOutcome.Ack (Rig.pid_id Rig.QUEUED_MESSAGE) "info") /\
  let r := Rig.get "QUEUED_MESSAGE" ["error"%string] 10
                   [Rig.ack 96 "abc"; Rig.ack 32 "info"] in
  fst r = returns 0 /\
  trace (snd r) =
    [ev_RDMGet 1 Rig.device 0 32 []; ev_Run;
     ev_response (fst (Rig.ack 96 "abc")) "abc";
     ev_cout [text "abc"];
     ev_Terminate] /\
  count is_request (since (snd (Rig.get "QUEUED_MESSAGE" ["error"%string] 0 []))
                          (snd r)) = 0%nat.
Proof. repeat split; (reflexivity || (cbn; lia) || discriminate). Qed.

(** [ola_rdm_get DEVICE_INFO]: a deferred reply, a queue signal, the answer. *)
Lemma Terminate_exactly_once_witness :
  (@lookup_descriptor Rig.strutil Rig.m_pid_helper Rig.device "DEVICE_INFO"
     = Some Rig.DEVICE_INFO /\
   @branch_for Rig.enums (Rig.pending Rig.DEVICE_INFO) (Rig.ack_timer 100)
     = ack_timer /\
   @branch_for Rig.enums (Rig.pending Rig.DEVICE_INFO) (Rig.ack 32 "abc")
     = queue_signal_ack /\
   @branch_for Rig.enums (Rig.pending Rig.DEVICE_INFO) (Rig.ack 96 "info")
     = authoritative_ack) /\
  let replies := [Rig.ack_timer 100; Rig.ack 32 "abc"; Rig.ack 96 "info"] in
  let w := delivered (Rig.pending Rig.DEVICE_INFO) [] in
  let handle := @HandleResponse Rig.enums Rig.rdmhelper Rig.m_pid_helper in
  let calls r := count is_Terminate (since w (handle (fst r) (snd r) w)) in
  calls (Rig.ack_timer 100) = 0%nat /\
  calls (Rig.ack 32 "abc") = 0%nat /\
  calls (Rig.ack 96 "info") = 1%nat /\
  count is_Terminate (trace (snd (Rig.get "DEVICE_INFO" [] 2 replies)))
    = 0%nat /\
  count is_Terminate (trace (snd (Rig.get "DEVICE_INFO" [] 4 replies)))
    = 1%nat /\
  List.last (trace (snd (Rig.get "DEVICE_INFO" [] 4 replies))) ev_Run
    = ev_Terminate /\
  fst (Rig.get "DEVICE_INFO" [] 4 replies) = returns 0.
Proof.
  split; [repeat split|].
  destruct (@Terminate_exactly_once
              Rig.enums Rig.sysexits Rig.strutil Rig.rdmhelper
              Rig.m_pid_helper
              1 Rig.device 0 "DEVICE_INFO"%string false []
              Rig.DEVICE_INFO 0%nat [] Rig.garbage
              eq_refl eq_refl eq_refl)
    as (Hone & Hwhole & Hreturns).
  intros replies w handle calls.
  split; [exact (proj2 (Hone (fst (Rig.ack_timer 100)) EmptyString w))|].
  split; [exact (proj2 (Hone (fst (Rig.ack 32 "abc")) "abc"%string w))|].
  split; [exact (proj2 (Hone (fst (Rig.ack 96 "info")) "info"%string w))|].
  pose proof (Hwhole 2%nat replies) as H2. vm_compute in H2.
  pose proof (Hwhole 4%nat replies) as H4. vm_compute in H4.
  split; [vm_compute; exact H2|].
  split; [vm_compute; exact (proj1 H4)|].
  split; [vm_compute; exact (proj2 H4)|].
  apply (Hreturns [Rig.ack_timer 100; Rig.ack 32 "abc"]
                  (fst (Rig.ack 96 "info")) "info"%string [] 4%nat).
  - repeat constructor.
  - reflexivity.
  - cbn; lia.
Defined.

(** [ola_rdm_get DEVICE_INFO]: the record written at the start is the one
    found at the end. *)
Lemma pending_request_frame_witness :
  @lookup_descriptor Rig.strutil Rig.m_pid_helper Rig.device "DEVICE_INFO"
    = Some Rig.DEVICE_INFO /\
  let replies := [Rig.ack_timer 100; Rig.ack 32 "abc"; Rig.ack 96 "info"] in
  m_pending_request (snd (Rig.get "DEVICE_INFO" [] 1 replies))
    = Rig.pending Rig.DEVICE_INFO /\
  m_pending_request (snd (Rig.get "DEVICE_INFO" [] 2 replies))
    = Rig.pending Rig.DEVICE_INFO /\
  m_pending_request (snd (Rig.get "DEVICE_INFO" [] 4 replies))
    = Rig.pending Rig.DEVICE_INFO /\
  m_pending_request
    (@FetchQueuedMessage Rig.enums (delivered (Rig.pending Rig.DEVICE_INFO) []))
    = Rig.pending Rig.DEVICE_INFO.
Proof.
  split; [reflexivity|].
  destruct (@pending_request_frame
              Rig.enums Rig.sysexits Rig.strutil Rig.rdmhelper
              Rig.m_pid_helper
              1 Rig.device 0 "DEVICE_INFO"%string false []
              Rig.DEVICE_INFO 0%nat [] Rig.garbage
              eq_refl eq_refl eq_refl)
    as (_ & Hfetch & _ & _ & _ & Hwhole).
  intros replies.
  split; [exact (Hwhole 1%nat replies)|].
  split; [exact (Hwhole 2%nat replies)|].
  split; [exact (Hwhole 4%nat replies)|].
  exact (Hfetch (delivered (Rig.pending Rig.DEVICE_INFO) [])).
Defined.

(** [ola_rdm_get DEVICE_INFO x]: DEVICE_INFO takes no argument. *)
Lemma build_failure_is_usage_error_witness :
  (@lookup_descriptor Rig.strutil Rig.m_pid_helper Rig.device "DEVICE_INFO"
     = Some Rig.DEVICE_INFO /\
   @GetRequest Rig.m_pid_helper Rig.DEVICE_INFO = Some 0%nat /\
   @BuildMessage Rig.m_pid_helper 0%nat ["x"%string] = None) /\
  let r := Rig.get "DEVICE_INFO" ["x"%string] 10 [Rig.ack 96 "info"] in
  fst r = returns 64 /\
  trace (snd r) = [ev_cout [text "<schema>"]] /\
  count is_request (since (boot Rig.garbage) (snd r)) = 0%nat /\
  registered (snd r) = [] /\
  m_pending_request (snd r) = Rig.garbage.
Proof.
  split; [repeat split|].
  apply (@build_failure_is_usage_error
           Rig.enums Rig.sysexits Rig.strutil Rig.rdmhelper Rig.m_pid_helper
           1 Rig.device 0 "DEVICE_INFO"%string false ["x"%string]
           Rig.DEVICE_INFO 0%nat 10%nat [Rig.ack 96 "info"]
           (boot Rig.garbage)); reflexivity.
Defined.

(** [ola_rdm_get DEVICE_INFO], rejected with two messages waiting. *)
Lemma nack_reason_reported_witness :
  @ResponseClassifier Rig.enums (fst (Rig.nack 3 2)) EmptyString
    = ResponseOutcome.NackReason 3 /\
  let w := delivered (Rig.pending Rig.DEVICE_INFO) [] in
  let w' := @HandleResponse Rig.enums Rig.rdmhelper Rig.m_pid_helper
              (fst (Rig.nack 3 2)) EmptyString w in
  since w w' =
    [ev_cout [text "Request NACKed: "; text "NACK reason"; newline];
     ev_cout [text "-----------------------------------------------------";
              newline];
     ev_cout [text "Messages remaining: "; number false 2; newline];
     ev_Terminate] /\
  m_terminate w' = true.
Proof.
  split; [reflexivity|].
  intros w w'.
  destruct (@nack_reason_reported
              Rig.enums Rig.rdmhelper Rig.m_pid_helper
              (fst (Rig.nack 3 2)) EmptyString 3 w eq_refl)
    as (_ & Hsince & _ & Hterm & _).
  split; [exact Hsince|exact Hterm].
Defined.


(** * Further properties of the driver *)

Section Handler.

Context {enums : RDMEnums} {sysexits : SysExits} {strutil : StringUtils}
        {rdmhelper : RDMHelper} {m_pid_helper : PidStoreHelper}.

(** X1.  For a reply of an unknown response type the handler prints the raw
    type in base 16 and leaves [cout] in base 16: the count of remaining
    messages that follows is printed in base 16 too, unlike after a nack. *)
Theorem unknown_type_leaves_cout_in_hex (response_status : ResponseStatus.t)
    (rdm_data : string) (tag : Z) (w : world) :
  ResponseClassifier response_status rdm_data
    = ResponseOutcome.UnknownType tag ->
  let w' := HandleResponse response_status rdm_data w in
  tag = response_type response_status /\
  since w w' =
    ev_cout [text "Unknown RDM response type "; number true tag; newline]
    :: remaining_lines true (message_count response_status)
    ++ [ev_Terminate] /\
  cout_hex w' = true /\
  (message_count response_status <> 0 ->
   In (ev_cout [text "Messages remaining: ";
                number true (message_count response_status); newline])
      (since w w')).
Proof.
  intros Hc w'. subst w'.
  assert (Htag : tag = response_type response_status).
  { unfold ResponseClassifier in Hc.
    repeat match type of Hc with
           | (if ?b then _ else _) = _ => destruct b; try discriminate
           end.
    now injection Hc. }
  assert (Hw : HandleResponse response_status rdm_data w =
               set_m_terminate true
                 (emit_all
                    (remaining_lines true (message_count response_status)
                     ++ [ev_Terminate])
                    (cout [str "Unknown RDM response type "; hex; num tag;
                           endl] w))).
  { rewrite HandleResponse_by_branch, Hc. cbv zeta.
    unfold seq at 1. now rewrite finish_spec. }
  rewrite Hw.
  match goal with |- _ /\ since w ?w' = ?l /\ _ =>
    assert (Ht : trace w' = trace w ++ l) by (same_world w)
  end.
  rewrite (since_app _ _ _ Ht).
  split; [exact Htag|]. split; [reflexivity|]. split; [reflexivity|].
  intros Hmc. apply Z.eqb_neq in Hmc. unfold remaining_lines. rewrite Hmc.
  right; right; left; reflexivity.
Qed.

(** The one line [HandleAckResponse] writes is the pretty-printed message
    when the ack is decodable, and a line of the log when it is not. *)
Lemma HandleAckResponse_cases manufacturer_id (is_set : bool) pid rdm_data
    (w : world) :
  let known :=
    decodable (ManufacturerId (uid (m_pending_request w))) is_set pid
              rdm_data in
  (known = true /\
   exists message : Message,
     HandleAckResponse manufacturer_id is_set pid rdm_data w =
     emit (ev_cout [text (PrettyPrintMessage manufacturer_id is_set pid
                                             message)]) w) \/
  (known = false /\
   exists g,
     HandleAckResponse manufacturer_id is_set pid rdm_data w =
     emit (ev_warn g) w /\
     (GetDescriptor_value pid (ManufacturerId (uid (m_pending_request w)))
        = None ->
      g = [text "Unknown PID: "; number false pid; text "."])).
Proof.
  unfold decodable, HandleAckResponse.
  destruct (GetDescriptor_value pid _) as [pd|].
  - destruct (if is_set then SetResponse pd else GetResponse pd) as [d|].
    + destruct (DeserializeMessage d rdm_data) as [m|].
      * left. split; [reflexivity|]. exists m. same_world w.
      * right. split; [reflexivity|]. eexists. split; [same_world w|].
        discriminate.
    + right. split; [reflexivity|]. eexists. split; [same_world w|].
      discriminate.
  - right. split; [reflexivity|]. eexists. split; [same_world w|].
    reflexivity.
Qed.

(** X2.  An ack that is the answer but cannot be decoded (unknown
    parameter, no response schema, or a payload that does not inflate) is
    not printed: the handler writes one line to the log, then reports the
    remaining messages and calls [Terminate] as for any other answer. *)
Theorem undecodable_ack_is_logged (response_status : ResponseStatus.t)
    (rdm_data : string) (parameterValue : Z) (w : world) :
  ResponseClassifier response_status rdm_data
    = ResponseOutcome.Ack parameterValue rdm_data ->
  branch_of (pid_value (m_pending_request w))
            (ResponseOutcome.Ack parameterValue rdm_data)
    = authoritative_ack ->
  decodable (ManufacturerId (uid (m_pending_request w)))
            (set_command response_status) parameterValue rdm_data = false ->
  let w' := HandleResponse response_status rdm_data w in
  exists g,
    since w w' =
      ev_warn g
      :: remaining_lines (cout_hex w) (message_count response_status)
      ++ [ev_Terminate] /\
    m_terminate w' = true /\
    cout_hex w' = cout_hex w /\
    (GetDescriptor_value parameterValue
       (ManufacturerId (uid (m_pending_request w))) = None ->
     g = [text "Unknown PID: "; number false parameterValue; text "."]).
Proof.
  intros Hc Hb Hdec w'. subst w'.
  destruct (HandleAckResponse_cases
              (ManufacturerId (uid (m_pending_request w)))
              (set_command response_status) parameterValue rdm_data w)
    as [[Hk _]|[_ (g & Hg & Hunknown)]]; [congruence|].
  assert (Hw : HandleResponse response_status rdm_data w =
               set_m_terminate true
                 (emit_all
                    (remaining_lines (cout_hex w)
                                     (message_count response_status)
                     ++ [ev_Terminate])
                    (emit (ev_warn g) w))).
  { rewrite HandleResponse_by_branch, Hc. cbv zeta. rewrite Hb.
    unfold seq at 1. now rewrite Hg, finish_spec. }
  rewrite Hw. exists g.
  match goal with |- since w ?w' = ?l /\ _ =>
    assert (Ht : trace w' = trace w ++ l) by (same_world w)
  end.
  rewrite (since_app _ _ _ Ht).
  repeat split. exact Hunknown.
Qed.

(** X3.  The remaining-message line is written exactly when the count is
    not zero and the reply takes one of the four branches that print it: an
    authoritative ack, the empty status-messages ack, a nack, an unknown
    type.  After a transport error, a protocol error or a broadcast, and
    while the transaction goes on, the count is never shown. *)
Theorem remaining_messages_shown_iff (response_status : ResponseStatus.t)
    (rdm_data : string) (w : world) :
  existsb is_count_line
          (since w (HandleResponse response_status rdm_data w)) =
  negb (message_count response_status =? 0)
  && reports_remaining
       (branch_for (m_pending_request w) (response_status, rdm_data)).
Proof.
  unfold branch_for. simpl fst; simpl snd.
  rewrite HandleResponse_by_branch. cbv zeta.
  destruct (ResponseClassifier response_status rdm_data) eqn:Hc;
    unfold branch_of;
    try (destruct (_ || _); [|destruct (_ && _)]);
    try (unfold seq at 1;
         destruct (HandleAckResponse_cases
                     (ManufacturerId (uid (m_pending_request w)))
                     (set_command response_status) parameterValue payload w)
           as [[_ (m & ->)]|[_ (g & -> & _)]]);
    try (unfold seq at 1; rewrite finish_spec);
    try rewrite finish_spec;
    unfold since, remaining_lines, FetchQueuedMessage;
    destruct (message_count response_status =? 0);
    destruct w; primitives; simpl;
    rewrite <- ?List.app_assoc; rewrite skipn_prefix; reflexivity.
Qed.

(** X4.  When the parameter resolves but has no request schema for the
    command asked for (GET or SET), [PerformRequestAndWait] says so and
    leaves through [exit(EXIT_USAGE)]: nothing is recorded, submitted or
    registered. *)
Theorem unsupported_command_exits (universe : Z) (uid : UID) (sub_device : Z)
    (pid_name : string) (is_set : bool) (inputs : list string)
    (pid_descriptor : PidDescriptor) (fuel : nat) (replies : list reply)
    (w : world) :
  lookup_descriptor uid pid_name = Some pid_descriptor ->
  (if is_set then SetRequest pid_descriptor else GetRequest pid_descriptor)
    = None ->
  let r := PerformRequestAndWait universe uid sub_device pid_name is_set
             inputs fuel replies w in
  fst r = exits EXIT_USAGE /\
  trace (snd r) =
    trace w
    ++ [ev_cout [text (if is_set then "SET" else "GET");
                 text " command not supported for "; text pid_name;
                 newline]] /\
  count is_request (since w (snd r)) = 0%nat /\
  registered (snd r) = registered w /\
  m_pending_request (snd r) = m_pending_request w.
Proof.
  intros Hlookup Hschema r. subst r.
  unfold PerformRequestAndWait. rewrite Hlookup, Hschema.
  simpl fst; simpl snd.
  match goal with |- _ /\ trace ?w' = ?t /\ _ =>
    assert (Ht : trace w' = t) by (same_world w)
  end.
  rewrite (since_app _ _ _ Ht). repeat split; try exact Ht.
Qed.

End Handler.

(** An unknown response type with 26 messages waiting: the count shows as
    base 16. *)
Lemma unknown_type_leaves_cout_in_hex_witness :
  @ResponseClassifier Rig.enums (fst (Rig.reply_of 7 0 0 26 EmptyString))
                      EmptyString
    = ResponseOutcome.UnknownType 7 /\
  let w := delivered (Rig.pending Rig.DEVICE_INFO) [] in
  let w' := @HandleResponse Rig.enums Rig.rdmhelper Rig.m_pid_helper
              (fst (Rig.reply_of 7 0 0 26 EmptyString)) EmptyString w in
  since w w' =
    [ev_cout [text "Unknown RDM response type "; number true 7; newline];
     ev_cout [text "-----------------------------------------------------";
              newline];
     ev_cout [text "Messages remaining: "; number true 26; newline];
     ev_Terminate] /\
  cout_hex w' = true.
Proof.
  split; [reflexivity|].
  intros w w'.
  destruct (@unknown_type_leaves_cout_in_hex
              Rig.enums Rig.rdmhelper Rig.m_pid_helper
              (fst (Rig.reply_of 7 0 0 26 EmptyString)) EmptyString 7 w
              eq_refl)
    as (_ & Hsince & Hhex & _).
  split; [exact Hsince|exact Hhex].
Defined.

(** [ola_rdm_get QUEUED_MESSAGE error], answered with a parameter the
    store does not know. *)
Lemma undecodable_ack_is_logged_witness :
  (@branch_of Rig.enums 32 (ResponseOutcome.Ack 512 "x") = authoritative_ack /\
   @decodable Rig.m_pid_helper 31344 false 512 "x" = false) /\
  let w := delivered (Rig.pending Rig.QUEUED_MESSAGE) [] in
  let w' := @HandleResponse Rig.enums Rig.rdmhelper Rig.m_pid_helper
              (fst (Rig.ack 512 "x")) "x" w in
  exists g,
    since w w' = [ev_warn g; ev_Terminate] /\
    g = [text "Unknown PID: "; number false 512; text "."].
Proof.
  split; [split; reflexivity|].
  intros w w'.
  destruct (@undecodable_ack_is_logged
              Rig.enums Rig.rdmhelper Rig.m_pid_helper
              (fst (Rig.ack 512 "x")) "x"%string 512 w
              eq_refl eq_refl eq_refl)
    as (g & Hsince & _ & _ & Hunknown).
  exists g. split; [exact Hsince|exact (Hunknown eq_refl)].
Defined.

(** [ola_rdm_set DEVICE_INFO]: the store has no SET request for it. *)
Lemma unsupported_command_exits_witness :
  (@lookup_descriptor Rig.strutil Rig.m_pid_helper Rig.device "DEVICE_INFO"
     = Some Rig.DEVICE_INFO /\
   @SetRequest Rig.m_pid_helper Rig.DEVICE_INFO = None) /\
  let r := @PerformRequestAndWait Rig.enums Rig.sysexits Rig.strutil
             Rig.rdmhelper Rig.m_pid_helper 1 Rig.device 0 "DEVICE_INFO"
             true [] 10 [Rig.ack 96 "info"] (boot Rig.garbage) in
  fst r = exits 64 /\
  trace (snd r) =
    [ev_cout [text "SET"; text " command not supported for ";
              text "DEVICE_INFO"; newline]] /\
  registered (snd r) = [].
Proof.
  split; [split; reflexivity|].
  destruct (@unsupported_command_exits
              Rig.enums Rig.sysexits Rig.strutil Rig.rdmhelper
              Rig.m_pid_helper 1 Rig.device 0 "DEVICE_INFO"%string true []
              Rig.DEVICE_INFO 10%nat [Rig.ack 96 "info"] (boot Rig.garbage)
              eq_refl eq_refl)
    as (Hexit & Htrace & _ & Hreg & _).
  repeat split; assumption.
Defined.

(** ** The loop, whatever the replies *)

Section Loop.

Context {enums : RDMEnums} {sysexits : SysExits} {strutil : StringUtils}
        {rdmhelper : RDMHelper} {m_pid_helper : PidStoreHelper}.

Lemma Run_idle (fuel : nat) (replies : list reply) (w : world) :
  m_terminate w = false -> registered w = [] ->
  Run fuel replies w = (match fuel with O => unfinished | S _ => stuck end, w).
Proof. intros Ht Hr. destruct fuel; simpl; now rewrite Ht, ?Hr. Qed.

Lemma Run_starved (fuel : nat) (rest : list registration) (w : world) :
  m_terminate w = false -> registered w = OnResponse :: rest ->
  Run fuel [] w = (match fuel with O => unfinished | S _ => stuck end, w).
Proof. intros Ht Hr. destruct fuel; simpl; now rewrite Ht, ?Hr. Qed.

Lemma Run_out_of_fuel (replies : list reply) (w : world) :
  m_terminate w = false -> Run 0 replies w = (unfinished, w).
Proof. intros Ht. simpl. now rewrite Ht. Qed.

(** The loop stops only after the handler has seen a reply of a terminal
    branch. *)
Lemma Run_stops_on_terminal (fuel : nat) :
  forall (replies : list reply) (w : world),
  m_terminate w = false ->
  fst (Run fuel replies w) = stopped ->
  Exists (fun r => terminal (branch_for (m_pending_request w) r) = true)
         replies.
Proof.
  induction fuel as [|fuel IH]; intros replies w Ht Hs.
  - rewrite Run_out_of_fuel in Hs by assumption. discriminate.
  - destruct (registered w) as [|[|delay] rest] eqn:Hr.
    + rewrite Run_idle in Hs by assumption. discriminate.
    + destruct replies as [|[response_status rdm_data] replies].
      * rewrite (Run_starved _ rest) in Hs by assumption. discriminate.
      * rewrite (Run_response _ _ _ _ rest w Ht Hr) in Hs.
        set (w0 := emit (ev_response response_status rdm_data)
                        (set_registered rest w)) in *.
        destruct (terminal (branch_for (m_pending_request w)
                                       (response_status, rdm_data))) eqn:Hb.
        -- now apply Exists_cons_hd.
        -- apply Exists_cons_tl.
           change (m_pending_request w) with (m_pending_request w0) in Hb.
           rewrite (HandleResponse_nonterminal _ _ _ Hb) in Hs.
           assert (Hp : m_pending_request
                     (match ResponseClassifier response_status rdm_data with
                      | ResponseOutcome.AckTimer delay =>
                        RegisterSingleTimeout delay w0
                      | _ => FetchQueuedMessage w0
                      end) = m_pending_request w)
             by (destruct (ResponseClassifier response_status rdm_data);
                 reflexivity).
           rewrite <- Hp. apply IH; [|exact Hs].
           destruct (ResponseClassifier response_status rdm_data); exact Ht.
    + rewrite (Run_timeout _ delay _ rest w Ht Hr) in Hs.
      exact (IH replies
                (FetchQueuedMessage
                   (emit (ev_timeout delay) (set_registered rest w)))
                Ht Hs).
Qed.

Lemma count_cons (f : event -> bool) (e : event) (l : list event) :
  count f (e :: l) = ((if f e then 1 else 0) + count f l)%nat.
Proof. unfold count. simpl. destruct (f e); reflexivity. Qed.

Lemma output_is_no_request (q : pending_request_t.t) (out : list event) :
  forallb is_output out = true ->
  Forall (fun e => is_request e = true -> e = fetch_of q) out.
Proof.
  induction out as [|e out IH]; simpl; intros H; constructor.
  - apply andb_true_iff in H as [He _].
    destruct e; simpl in *; congruence.
  - apply IH. now apply andb_true_iff in H as [_ H].
Qed.

(** What the loop keeps true from any world in which it has not been told
    to stop and at most one callback is registered: at most one callback
    stays registered, none once it has stopped; every request it adds is a
    queued-message fetch for the pending request; every such fetch is paid
    for by a reply or by a timer that was registered. *)
Lemma Run_invariant (fuel : nat) :
  forall (replies : list reply) (w : world),
  m_terminate w = false ->
  (List.length (registered w) <= 1)%nat ->
  exists added,
    trace (snd (Run fuel replies w)) = trace w ++ added /\
    (List.length (registered (snd (Run fuel replies w))) <= 1)%nat /\
    (fst (Run fuel replies w) = stopped ->
     registered (snd (Run fuel replies w)) = []) /\
    Forall (fun e => is_request e = true ->
                     e = fetch_of (m_pending_request w)) added /\
    (count is_request added
     + timers (registered (snd (Run fuel replies w)))
     <= count is_response added + timers (registered w))%nat /\
    (count is_response added <= List.length replies)%nat.
Proof.
  induction fuel as [|fuel IH]; intros replies w Ht Hlen.
  - rewrite Run_out_of_fuel by assumption. exists []. simpl.
    rewrite List.app_nil_r.
    repeat split; try discriminate; try solve [constructor];
      unfold count; simpl; lia.
  - destruct (registered w) as [|[|delay] rest] eqn:Hr.
    + rewrite Run_idle by assumption. exists []. simpl.
      rewrite List.app_nil_r, Hr.
      repeat split; try discriminate; try solve [constructor];
        unfold count; simpl; lia.
    + assert (rest = []) by (destruct rest; [reflexivity|simpl in Hlen; lia]).
      subst rest.
      destruct replies as [|[response_status rdm_data] replies].
      * rewrite (Run_starved _ []) by assumption. exists []. simpl.
        rewrite List.app_nil_r, Hr.
        repeat split; try discriminate; try solve [constructor];
          unfold count; simpl; lia.
      * rewrite (Run_response _ _ _ _ [] w Ht Hr).
        set (w0 := emit (ev_response response_status rdm_data)
                        (set_registered [] w)).
        destruct (terminal (branch_for (m_pending_request w0)
                                       (response_status, rdm_data))) eqn:Hb.
        -- destruct (HandleResponse_terminal _ _ _ Hb)
             as (out & b & Hout & ->).
           rewrite Run_stopped by reflexivity.
           exists (ev_response response_status rdm_data
                   :: out ++ [ev_Terminate]).
           simpl fst; simpl snd.
           split; [subst w0; same_world w|].
           split; [simpl; lia|]. split; [reflexivity|].
           split.
           { constructor; [discriminate|].
             apply Forall_app. split; [now apply output_is_no_request|].
             constructor; [discriminate|constructor]. }
           rewrite !count_cons, !count_app, !count_one. simpl.
           rewrite (count_forallb is_request is_output),
                   (count_forallb is_response is_output); auto;
             try (intros [] ?; simpl in *; congruence).
           unfold timers. simpl. lia.
        -- rewrite (HandleResponse_nonterminal _ _ _ Hb).
           destruct (ResponseClassifier response_status rdm_data) eqn:Hc.
           4: {
             destruct (IH replies (RegisterSingleTimeout delay w0) Ht)
               as (added & H1 & H2 & H3 & H4 & H5 & H6); [simpl; lia|].
             exists (ev_response response_status rdm_data
                     :: ev_RegisterSingleTimeout delay :: added).
             split; [rewrite H1; subst w0; same_world w|].
             split; [exact H2|]. split; [exact H3|].
             split; [repeat (constructor; [discriminate|]); exact H4|].
             rewrite !count_cons. simpl.
             unfold timers in *. simpl in H5. rewrite ?Hr. simpl. lia. }
           all: destruct (IH replies (FetchQueuedMessage w0) Ht)
               as (added & H1 & H2 & H3 & H4 & H5 & H6); [simpl; lia|];
             exists (ev_response response_status rdm_data
                     :: fetch_of (m_pending_request w) :: added);
             (split; [rewrite H1; subst w0; unfold FetchQueuedMessage,
                        fetch_of; same_world w|]);
             (split; [exact H2|]); (split; [exact H3|]);
             (split; [constructor; [discriminate|];
                      constructor; [reflexivity|exact H4]|]);
             rewrite !count_cons; simpl;
             unfold timers in *; simpl in H5; rewrite ?Hr; simpl; lia.
    + assert (rest = []) by (destruct rest; [reflexivity|simpl in Hlen; lia]).
      subst rest.
      rewrite (Run_timeout _ delay _ [] w Ht Hr).
      destruct (IH replies
                   (FetchQueuedMessage
                      (emit (ev_timeout delay) (set_registered [] w))) Ht)
        as (added & H1 & H2 & H3 & H4 & H5 & H6); [simpl; lia|].
      exists (ev_timeout delay :: fetch_of (m_pending_request w) :: added).
      split; [rewrite H1; unfold FetchQueuedMessage, fetch_of;
              same_world w|].
      split; [exact H2|]. split; [exact H3|].
      split; [constructor; [discriminate|];
              constructor; [reflexivity|exact H4]|].
      rewrite !count_cons. simpl.
      unfold timers in *. simpl in H5. rewrite ?Hr. simpl. lia.
Qed.

End Loop.

(** ** Transactions, whatever the replies *)

Section Anytime.

Context {enums : RDMEnums} {sysexits : SysExits} {strutil : StringUtils}
        {rdmhelper : RDMHelper} {m_pid_helper : PidStoreHelper}.

Variables (universe : Z) (uid : UID) (sub_device : Z) (pid_name : string)
          (is_set : bool) (inputs : list string).
Variables (pid_descriptor : PidDescriptor) (descriptor : Descriptor)
          (message : Message).
Variable garbage : pending_request_t.t.

Hypothesis resolved : lookup_descriptor uid pid_name = Some pid_descriptor.
Hypothesis supported :
  (if is_set then SetRequest pid_descriptor else GetRequest pid_descriptor)
  = Some descriptor.
Hypothesis built : BuildMessage descriptor inputs = Some message.

Local Abbreviation p :=
  {| pending_request_t.universe := universe;
     pending_request_t.uid := uid;
     pending_request_t.sub_device := sub_device;
     pending_request_t.pid_value := Value pid_descriptor |}.
Local Abbreviation start := (opening is_set p (SerializeMessage message)).

Lemma PerformRequestAndWait_invariant (fuel : nat) (replies : list reply) :
  let r := PerformRequestAndWait universe uid sub_device pid_name is_set
             inputs fuel replies (boot garbage) in
  exists added,
    trace (snd r) = start ++ added /\
    (List.length (registered (snd r)) <= 1)%nat /\
    (forall status, fst r = returns status -> registered (snd r) = []) /\
    Forall (fun e => is_request e = true -> e = fetch_of p) added /\
    (count is_request added <= count is_response added)%nat /\
    (count is_response added <= List.length replies)%nat.
Proof.
  intros r. subst r.
  rewrite (PerformRequestAndWait_submitted universe uid sub_device pid_name
             is_set inputs pid_descriptor descriptor message
             resolved supported built).
  unfold run_and_return. rewrite (submit_boot universe uid sub_device is_set pid_descriptor
             descriptor message garbage supported).
  match goal with |- context [Run fuel replies ?w] =>
    destruct (Run_invariant fuel replies w eq_refl)
      as (added & H1 & H2 & H3 & H4 & H5 & H6); [simpl; lia|];
    destruct (Run fuel replies w) as [[| |] w']
  end; exists added; simpl fst in *; simpl snd in *;
    (split; [exact H1|]); (split; [exact H2|]);
    (split; [intros status Hs; try discriminate; now apply H3|]);
    (split; [exact H4|]); (split; [|exact H6]);
    unfold timers in H5; simpl in H5; lia.
Qed.

(** X5.  At every point of a transaction at most one callback is registered
    with the reactor (one request or one timer is outstanding, never two),
    and none is left when [PerformRequestAndWait] returns. *)
Theorem one_callback_outstanding (fuel : nat) (replies : list reply) :
  let r := PerformRequestAndWait universe uid sub_device pid_name is_set
             inputs fuel replies (boot garbage) in
  (List.length (registered (snd r)) <= 1)%nat /\
  (forall status, fst r = returns status -> registered (snd r) = []).
Proof.
  intros r.
  destruct (PerformRequestAndWait_invariant fuel replies)
    as (added & _ & H2 & H3 & _).
  split; assumption.
Qed.

(** X6.  Whatever the replies, every request the driver sends after the one
    that opens the transaction is a GET of the queued-message parameter
    with the single byte 0x04 as data, addressed to the universe, UID and
    sub-device of the original request. *)
Theorem follow_up_requests_are_fetches (fuel : nat) (replies : list reply) :
  let r := PerformRequestAndWait universe uid sub_device pid_name is_set
             inputs fuel replies (boot garbage) in
  exists added,
    trace (snd r) =
      request_of is_set p (SerializeMessage message) :: ev_Run :: added /\
    Forall (fun e => is_request e = true ->
                     e = ev_RDMGet universe uid sub_device
                                   PID_QUEUED_MESSAGE [x04]) added.
Proof.
  intros r.
  destruct (PerformRequestAndWait_invariant fuel replies)
    as (added & H1 & _ & _ & H4 & _).
  exists added. split; assumption.
Qed.

(** X7.  The driver sends at most one request per reply it is given: the
    requests of a transaction number at most one more than the replies
    handled, which are at most the replies the daemon gave. *)
Theorem one_request_per_reply (fuel : nat) (replies : list reply) :
  let r := PerformRequestAndWait universe uid sub_device pid_name is_set
             inputs fuel replies (boot garbage) in
  (count is_request (trace (snd r))
   <= 1 + count is_response (trace (snd r)))%nat /\
  (count is_response (trace (snd r)) <= List.length replies)%nat.
Proof.
  intros r.
  destruct (PerformRequestAndWait_invariant fuel replies)
    as (added & H1 & _ & _ & _ & H5 & H6).
  fold r in H1. rewrite H1. unfold opening, request_of.
  rewrite !count_app.
  destruct is_set; unfold count at 1 3; simpl; lia.
Qed.

(** X8.  There is no timeout.  When none of the replies takes a terminal
    branch (the daemon stops answering, or the device keeps deferring and
    signalling queued messages), [PerformRequestAndWait] does not return,
    however long the loop runs: once the replies are used up it waits for
    ever, and [Terminate] has not been called. *)
Theorem no_terminal_reply_no_return (fuel : nat) (replies : list reply) :
  Forall (fun r => terminal (branch_for p r) = false) replies ->
  let r := PerformRequestAndWait universe uid sub_device pid_name is_set
             inputs fuel replies (boot garbage) in
  (forall status, fst r <> returns status) /\
  ((steps replies < fuel)%nat -> fst r = hangs) /\
  count is_Terminate (trace (snd r)) = 0%nat.
Proof.
  intros Hall r.
  assert (Hnot : forall status, fst r <> returns status).
  { intros status Hs. subst r.
    rewrite (PerformRequestAndWait_submitted universe uid sub_device pid_name
               is_set inputs pid_descriptor descriptor message
               resolved supported built) in Hs.
    unfold run_and_return in Hs. rewrite (submit_boot universe uid sub_device is_set pid_descriptor
               descriptor message garbage supported) in Hs.
    match type of Hs with context [Run fuel replies ?w] =>
      pose proof (Run_stops_on_terminal fuel replies w eq_refl) as Hstop;
      destruct (Run fuel replies w) as [[| |] w']
    end; try discriminate.
    specialize (Hstop eq_refl). simpl in Hstop.
    apply Exists_exists in Hstop as (x & Hin & Hx).
    rewrite Forall_forall in Hall. specialize (Hall x Hin). congruence. }
  split; [exact Hnot|]. split.
  - intros Hfuel. subst r.
    rewrite (PerformRequestAndWait_submitted universe uid sub_device pid_name
               is_set inputs pid_descriptor descriptor message
               resolved supported built).
    unfold run_and_return. rewrite (submit_boot universe uid sub_device is_set pid_descriptor
             descriptor message garbage supported).
    replace fuel with (steps replies + S (fuel - S (steps replies)))%nat
      by lia.
    match goal with |- context [Run ?n replies ?w] =>
      pose proof (Run_progress replies (S (fuel - S (steps replies))) [] w
                    (conj eq_refl eq_refl) Hall) as Hrun
    end.
    rewrite List.app_nil_r in Hrun. rewrite Hrun.
    rewrite (Run_starved _ []); reflexivity.
  - pose proof (PerformRequestAndWait_Terminate universe uid sub_device
                  pid_name is_set inputs pid_descriptor descriptor message
                  garbage resolved supported built fuel replies) as H.
    fold r in H. destruct r as [[status| | |] w']; simpl; try exact H.
    exfalso. exact (Hnot status eq_refl).
Qed.

End Anytime.

(** [ola_rdm_get DEVICE_INFO] on a device that defers, signals a queued
    message, and then goes silent. *)
Lemma one_callback_outstanding_witness :
  @lookup_descriptor Rig.strutil Rig.m_pid_helper Rig.device "DEVICE_INFO"
    = Some Rig.DEVICE_INFO /\
  let replies := [Rig.ack_timer 100; Rig.ack 32 "abc"; Rig.ack 96 "info"] in
  (List.length (registered (snd (Rig.get "DEVICE_INFO" [] 1 replies))) <= 1)%nat /\
  (List.length (registered (snd (Rig.get "DEVICE_INFO" [] 2 replies))) <= 1)%nat /\
  registered (snd (Rig.get "DEVICE_INFO" [] 4 replies)) = [].
Proof.
  split; [reflexivity|]. intros replies.
  pose proof (fun fuel =>
                @one_callback_outstanding
                  Rig.enums Rig.sysexits Rig.strutil Rig.rdmhelper
                  Rig.m_pid_helper
                  1 Rig.device 0 "DEVICE_INFO"%string false []
                  Rig.DEVICE_INFO 0%nat [] Rig.garbage
                  eq_refl eq_refl eq_refl fuel replies) as H.
  split; [exact (proj1 (H 1%nat))|].
  split; [exact (proj1 (H 2%nat))|].
  exact (proj2 (H 4%nat) 0 eq_refl).
Defined.

Lemma follow_up_requests_are_fetches_witness :
  @lookup_descriptor Rig.strutil Rig.m_pid_helper Rig.device "DEVICE_INFO"
    = Some Rig.DEVICE_INFO /\
  let r := Rig.get "DEVICE_INFO" [] 4
                   [Rig.ack_timer 100; Rig.ack 32 "abc"; Rig.ack 96 "info"] in
  exists added,
    trace (snd r) = ev_RDMGet 1 Rig.device 0 96 [] :: ev_Run :: added /\
    Forall (fun e => is_request e = true ->
                     e = ev_RDMGet 1 Rig.device 0 32 [x04]) added.
Proof.
  split; [reflexivity|].
  exact (@follow_up_requests_are_fetches
           Rig.enums Rig.sysexits Rig.strutil Rig.rdmhelper Rig.m_pid_helper
           1 Rig.device 0 "DEVICE_INFO"%string false []
           Rig.DEVICE_INFO 0%nat [] Rig.garbage
           eq_refl eq_refl eq_refl 4%nat
           [Rig.ack_timer 100; Rig.ack 32 "abc"; Rig.ack 96 "info"]).
Defined.

Lemma one_request_per_reply_witness :
  @lookup_descriptor Rig.strutil Rig.m_pid_helper Rig.device "DEVICE_INFO"
    = Some Rig.DEVICE_INFO /\
  let r := Rig.get "DEVICE_INFO" [] 4
                   [Rig.ack_timer 100; Rig.ack 32 "abc"; Rig.ack 96 "info"] in
  (count is_request (trace (snd r))
   <= 1 + count is_response (trace (snd r)))%nat /\
  (count is_response (trace (snd r)) <= 3)%nat.
Proof.
  split; [reflexivity|].
  exact (@one_request_per_reply
           Rig.enums Rig.sysexits Rig.strutil Rig.rdmhelper Rig.m_pid_helper
           1 Rig.device 0 "DEVICE_INFO"%string false []
           Rig.DEVICE_INFO 0%nat [] Rig.garbage
           eq_refl eq_refl eq_refl 4%nat
           [Rig.ack_timer 100; Rig.ack 32 "abc"; Rig.ack 96 "info"]).
Defined.

(** [ola_rdm_get DEVICE_INFO] on a device that defers once and then only
    signals queued messages. *)
Lemma no_terminal_reply_no_return_witness :
  (@branch_for Rig.enums (Rig.pending Rig.DEVICE_INFO) (Rig.ack_timer 100)
     = ack_timer /\
   @branch_for Rig.enums (Rig.pending Rig.DEVICE_INFO) (Rig.ack 32 "abc")
     = queue_signal_ack) /\
  let r := Rig.get "DEVICE_INFO" [] 100
                   [Rig.ack_timer 100; Rig.ack 32 "abc"] in
  fst r = hangs /\ count is_Terminate (trace (snd r)) = 0%nat.
Proof.
  split; [split; reflexivity|].
  destruct (@no_terminal_reply_no_return
              Rig.enums Rig.sysexits Rig.strutil Rig.rdmhelper
              Rig.m_pid_helper
              1 Rig.device 0 "DEVICE_INFO"%string false []
              Rig.DEVICE_INFO 0%nat [] Rig.garbage
              eq_refl eq_refl eq_refl 100%nat
              [Rig.ack_timer 100; Rig.ack 32 "abc"]
              ltac:(repeat constructor))
    as (_ & Hhangs & Hnone).
  split; [apply Hhangs; cbn; lia|exact Hnone].
Defined.

(** * The command line of ola-rdm *)

Section ParseOptionsOfRdm.

Context {libc : Libc} {cmdline : CommandLine}.

Lemma ParseOptions_loop_served (l : list getopt_long.ret) :
  forall state, ParseOptions_loop l state = ParseOptions_loop (served l) state.
Proof.
  induction l as [|r l IH]; intros state; simpl; [reflexivity|].
  destruct (c r =? -1) eqn:H; [reflexivity|]. simpl. now rewrite H.
Qed.

(** Tells the character constants of the switch apart. *)
Ltac which_case r :=
  unfold ParseOptions_switch, char; simpl;
  repeat match goal with
         | |- context [c r =? ?k] => destruct (Z.eqb_spec (c r) k)
         end;
  simpl; try reflexivity; try lia.

(** What the loop makes of the returns it acts on, field by field. *)
Lemma ParseOptions_loop_fields (l : list getopt_long.ret) :
  Forall (fun r => c r <> -1) l ->
  forall (opts : options.t) (uid_set : bool),
  let o := fst (ParseOptions_loop l (opts, uid_set)) in
  options.universe o =
    match last_optarg (char "u") l with
    | Some s => atoi s
    | None => options.universe opts
    end /\
  options.sub_device o =
    match last_optarg (char "d") l with
    | Some s => atoi s mod 65536
    | None => options.sub_device opts
    end /\
  options.pid_location o =
    match last_optarg (char "p") l with
    | Some s => s
    | None => options.pid_location opts
    end /\
  options.help o = options.help opts || given (char "h") l /\
  options.list_pids o = options.list_pids opts || given (char "l") l /\
  options.set_mode o = options.set_mode opts /\
  options.pid o = options.pid opts /\
  options.args o = options.args opts /\
  options.cmd o = options.cmd opts.
Proof.
  induction 1 as [|r l Hr _ IH]; intros opts uid_set.
  - simpl. rewrite !orb_false_r. repeat split.
  - apply Z.eqb_neq in Hr.
    cbn [ParseOptions_loop]. rewrite Hr.
    destruct (ParseOptions_switch (opts, uid_set) r) as [opts' uid_set']
      eqn:Hs.
    specialize (IH opts' uid_set').
    destruct IH as (Hu & Hd & Hp & Hh & Hl & Hm & Hpid & Ha & Hc).
    assert (Hopts : opts' = fst (ParseOptions_switch (opts, uid_set) r))
      by now rewrite Hs.
    cbn [last_optarg given existsb]. fold (given (char "h") l).
    fold (given (char "l") l).
    cbv zeta. rewrite Hu, Hd, Hp, Hh, Hl, Hm, Hpid, Ha, Hc, Hopts.
    clear.
    repeat split;
      try (destruct (last_optarg _ l); [reflexivity|]);
      which_case r;
      destruct (uid_set || flag_set r); reflexivity.
Qed.

Lemma served_no_end (l : list getopt_long.ret) :
  Forall (fun r => c r <> -1) (served l).
Proof.
  induction l as [|r l IH]; simpl; [constructor|].
  destruct (Z.eqb_spec (c r) (-1)); constructor; assumption.
Qed.

(** The loop sets the UID from every return with value 0, as long as each
    of them comes from an option that stores through its flag pointer. *)
Lemma ParseOptions_loop_uid (l : list getopt_long.ret) :
  Forall (fun r => c r <> -1) l ->
  Forall (fun r => c r = 0 -> flag_set r = true) l ->
  forall (opts : options.t) (uid_set : bool),
  options.uid (fst (ParseOptions_loop l (opts, uid_set))) =
    match last_optarg 0 l with
    | Some s => UID_FromString s
    | None => options.uid opts
    end.
Proof.
  induction 1 as [|r l Hr _ IH]; intros Hflag opts uid_set; [reflexivity|].
  inversion Hflag as [|? ? Hf Hrest]; subst.
  apply Z.eqb_neq in Hr.
  cbn [ParseOptions_loop]. rewrite Hr.
  destruct (ParseOptions_switch (opts, uid_set) r) as [opts' uid_set']
    eqn:Hs.
  rewrite (IH Hrest opts' uid_set').
  cbn [last_optarg]. destruct (last_optarg 0 l); [reflexivity|].
  assert (Hopts : opts' = fst (ParseOptions_switch (opts, uid_set) r))
    by now rewrite Hs.
  rewrite Hopts. clear - Hf.
  unfold ParseOptions_switch, char. simpl.
  destruct (Z.eqb_spec (c r) 0) as [E|E].
  - rewrite (Hf E), orb_true_r. reflexivity.
  - repeat match goal with
           | |- context [c r =? ?k] => destruct (Z.eqb_spec (c r) k)
           end; reflexivity.
Qed.

(** What [ParseOptions] leaves in each member of [opts], in terms of the
    options [getopt_long] served. *)
Lemma ParseOptions_fields (argv : list string) (g : getopt_long.run)
    (opts : options.t) :
  let o := ParseOptions argv g opts in
  let l := served (rets g) in
  options.universe o =
    match last_optarg (char "u") l with Some s => atoi s | None => 1 end /\
  options.sub_device o =
    match last_optarg (char "d") l with
    | Some s => atoi s mod 65536
    | None => 0
    end /\
  options.pid_location o =
    match last_optarg (char "p") l with
    | Some s => s
    | None => EmptyString
    end /\
  options.help o = given (char "h") l /\
  options.list_pids o = given (char "l") l /\
  options.set_mode o =
    String.eqb (FilenameFromPathOrPath (nth 0 argv EmptyString))
               "ola_rdm_set" /\
  options.cmd o = nth 0 argv EmptyString /\
  options.args o = options.args opts ++ skipn (optind g) argv /\
  options.pid o = options.pid opts.
Proof.
  intros o l. subst o. unfold ParseOptions.
  rewrite ParseOptions_loop_served. fold l.
  match goal with |- context [ParseOptions_loop l (?o0, ?b)] =>
    pose proof (ParseOptions_loop_fields l (served_no_end (rets g)) o0 b)
      as H;
    destruct (ParseOptions_loop l (o0, b)) as [o' b']
  end.
  cbv zeta in H. simpl fst in H.
  destruct H as (Hu & Hd & Hp & Hh & Hl & Hm & Hpid & Ha & Hc).
  assert (Hsub : options.sub_device o' =
                 match last_optarg (char "d") l with
                 | Some s => atoi s mod 65536
                 | None => 0
                 end).
  { rewrite Hd. destruct (last_optarg (char "d") l); [reflexivity|].
    destruct (String.eqb _ _); reflexivity. }
  cbn [options.universe options.sub_device options.pid_location
       options.help options.list_pids options.set_mode options.cmd
       options.args options.pid options.with_args].
  split.
  { rewrite Hu. destruct (last_optarg (char "u") l); [reflexivity|].
    destruct (String.eqb _ _); reflexivity. }
  split; [exact Hsub|]. split.
  { rewrite Hp. destruct (last_optarg (char "p") l); [reflexivity|].
    destruct (String.eqb _ _); reflexivity. }
  split; [rewrite Hh; destruct (String.eqb _ _); reflexivity|].
  split; [rewrite Hl; destruct (String.eqb _ _); reflexivity|].
  split; [rewrite Hm; destruct (String.eqb _ _); reflexivity|].
  split; [rewrite Hc; destruct (String.eqb _ _); reflexivity|].
  split; [rewrite Ha; destruct (String.eqb _ _); reflexivity|].
  rewrite Hpid; destruct (String.eqb _ _); reflexivity.
Qed.

(** X9.  [ParseOptions] lets the last occurrence of an option win and
    falls back on the defaults: the universe is what [atoi] makes of the
    last -u (1 if there is none), the sub-device what it makes of the last
    -d reduced modulo 65536 (0 if there is none), so always a 16-bit value;
    --help and --list-pids, once seen, stay set; the positional arguments
    are those from [optind] on, in order; set mode depends on the name of
    the program alone. *)
Theorem ParseOptions_last_option_wins (argv : list string)
    (g : getopt_long.run) (opts : options.t) :
  let o := ParseOptions argv g opts in
  let l := served (rets g) in
  options.universe o =
    match last_optarg (char "u") l with Some s => atoi s | None => 1 end /\
  options.sub_device o =
    match last_optarg (char "d") l with
    | Some s => atoi s mod 65536
    | None => 0
    end /\
  0 <= options.sub_device o < 65536 /\
  options.pid_location o =
    match last_optarg (char "p") l with
    | Some s => s
    | None => EmptyString
    end /\
  options.help o = given (char "h") l /\
  options.list_pids o = given (char "l") l /\
  options.set_mode o =
    String.eqb (FilenameFromPathOrPath (nth 0 argv EmptyString))
               "ola_rdm_set" /\
  options.cmd o = nth 0 argv EmptyString /\
  options.args o = options.args opts ++ skipn (optind g) argv /\
  options.pid o = options.pid opts.
Proof.
  intros o l.
  destruct (ParseOptions_fields argv g opts)
    as (Hu & Hd & Hp & Hh & Hl & Hm & Hc & Ha & Hpid).
  fold o l in Hu, Hd, Hp, Hh, Hl, Hm, Hc, Ha, Hpid.
  repeat split; try assumption; rewrite Hd;
    destruct (last_optarg (char "d") l);
    try apply Z.mod_pos_bound; lia.
Qed.

(** X10.  The UID is the one the last --uid parses to: a later --uid that
    does not parse discards an earlier one that did, and leaves the program
    without a UID.  (Returns with value 0 are taken to come from --uid, the
    only option that is given a flag pointer.) *)
Theorem ParseOptions_last_uid_wins (argv : list string)
    (g : getopt_long.run) (opts : options.t) :
  Forall (fun r => c r = 0 -> flag_set r = true) (served (rets g)) ->
  options.uid (ParseOptions argv g opts) =
    match last_optarg 0 (served (rets g)) with
    | Some s => UID_FromString s
    | None => None
    end.
Proof.
  intros Hflag. unfold ParseOptions.
  rewrite ParseOptions_loop_served.
  match goal with |- context [ParseOptions_loop ?l (?o0, ?b)] =>
    pose proof (ParseOptions_loop_uid l (served_no_end (rets g)) Hflag o0 b)
      as H;
    destruct (ParseOptions_loop l (o0, b)) as [o' b']
  end.
  simpl fst in H. cbn [options.uid options.with_args]. rewrite H.
  destruct (last_optarg 0 _); [reflexivity|].
  destruct (String.eqb _ _); reflexivity.
Qed.

(** [ParseOptions] reads none of the members of [opts] that [main] leaves
    uninitialised: its result depends on the incoming [opts] through [args]
    and [pid] only. *)
Lemma ParseOptions_reads_no_garbage (argv : list string)
    (g : getopt_long.run) (opts1 opts2 : options.t) :
  options.args opts1 = options.args opts2 ->
  options.pid opts1 = options.pid opts2 ->
  ParseOptions argv g opts1 = ParseOptions argv g opts2.
Proof.
  intros Ha Hp. unfold ParseOptions.
  destruct opts1, opts2. simpl in Ha, Hp. subst.
  reflexivity.
Qed.

End ParseOptionsOfRdm.

(** ** Listing the PIDs *)

Lemma compare_not_Gt_trans (a : string) :
  forall b d : string,
  String.compare a b <> Gt -> String.compare b d <> Gt ->
  String.compare a d <> Gt.
Proof.
  induction a as [|x a IH]; intros [|y b] [|z d]; simpl;
    try congruence.
  unfold Ascii.compare.
  destruct (N.compare_spec (N_of_ascii x) (N_of_ascii y)),
           (N.compare_spec (N_of_ascii y) (N_of_ascii z)),
           (N.compare_spec (N_of_ascii x) (N_of_ascii z));
    try congruence; try lia.
  apply IH.
Qed.

Lemma leb_trans (a b d : string) :
  String.leb a b = true -> String.leb b d = true -> String.leb a d = true.
Proof.
  unfold String.leb. intros Hab Hbd.
  pose proof (compare_not_Gt_trans a b d) as H.
  destruct (String.compare a b), (String.compare b d),
           (String.compare a d); try reflexivity; try discriminate;
    exfalso; apply H; congruence.
Qed.

Lemma insert_name_perm (s : string) (l : list string) :
  Permutation (s :: l) (insert_name s l).
Proof.
  induction l as [|x l IH]; simpl; [reflexivity|].
  destruct (String.leb s x); [reflexivity|].
  rewrite perm_swap. now apply perm_skip.
Qed.

Lemma insert_name_ascending (s : string) (l : list string) :
  ascending l -> ascending (insert_name s l).
Proof.
  unfold ascending. induction 1 as [|x l Hl IH Hx]; simpl.
  - repeat constructor.
  - destruct (String.leb s x) eqn:Hsx.
    + constructor; [now constructor|].
      constructor; [exact Hsx|].
      eapply Forall_impl; [|exact Hx].
      intros y Hy. now apply (leb_trans s x y).
    + constructor; [exact IH|].
      apply (Permutation_Forall (insert_name_perm s l)).
      constructor; [|exact Hx].
      destruct (String.leb_total s x); congruence.
Qed.

Lemma std_sort_perm (l : list string) : Permutation l (std_sort l).
Proof.
  induction l as [|s l IH]; simpl; [reflexivity|].
  rewrite <- insert_name_perm. now apply perm_skip.
Qed.

Lemma std_sort_ascending (l : list string) : ascending (std_sort l).
Proof.
  induction l as [|s l IH]; simpl; [constructor|].
  now apply insert_name_ascending.
Qed.

(** There is one ascending arrangement of a list of strings. *)
Lemma ascending_unique (l1 : list string) :
  forall l2, ascending l1 -> ascending l2 -> Permutation l1 l2 -> l1 = l2.
Proof.
  unfold ascending.
  induction l1 as [|a l1 IH]; intros l2 H1 H2 Hp.
  - apply Permutation_nil in Hp. now subst.
  - destruct l2 as [|b l2];
      [apply Permutation_sym, Permutation_nil in Hp; discriminate|].
    inversion H1 as [|? ? H1' Ha]; subst.
    inversion H2 as [|? ? H2' Hb]; subst.
    assert (Hab : a = b).
    { assert (Hina : In a (b :: l2))
        by (apply (Permutation_in _ Hp); now left).
      assert (Hinb : In b (a :: l1))
        by (apply (Permutation_in _ (Permutation_sym Hp)); now left).
      destruct Hina as [->|Hina]; [reflexivity|].
      destruct Hinb as [->|Hinb]; [reflexivity|].
      rewrite Forall_forall in Ha, Hb.
      apply String.leb_antisym; auto. }
    subst b. f_equal. apply IH; try assumption.
    now apply Permutation_cons_inv in Hp.
Qed.

Section Listing.

Context {enums : RDMEnums} {sysexits : SysExits} {strutil : StringUtils}
        {rdmhelper : RDMHelper} {m_pid_helper : PidStoreHelper}
        {libc : Libc} {cmdline : CommandLine} {moreexits : MoreSysExits}.

Lemma print_names (names : list string) :
  forall w : world,
  let w' := List.fold_left (fun w name => cout [str name; endl] w) names w in
  trace w' =
    trace w ++ List.map (fun name => ev_cout [text name; newline]) names /\
  registered w' = registered w /\
  m_terminate w' = m_terminate w /\
  cout_hex w' = cout_hex w.
Proof.
  induction names as [|name names IH]; intros w; simpl.
  - rewrite List.app_nil_r. repeat split.
  - destruct (IH (cout [str name; endl] w)) as (H1 & H2 & H3 & H4).
    rewrite H1, H2, H3, H4. destruct w. primitives. simpl.
    rewrite <- List.app_assoc. repeat split.
Qed.

(** [DisplayPIDsAndExit] prints the sorted names, one a line, and nothing
    else happens. *)
Lemma DisplayPIDsAndExit_output (manufacturer_id : Z) (w : world) :
  let r := DisplayPIDsAndExit manufacturer_id w in
  fst r = exits EXIT_OK /\
  trace (snd r) =
    trace w
    ++ List.map (fun name => ev_cout [text name; newline])
                (std_sort (SupportedPids manufacturer_id)) /\
  count is_request (since w (snd r)) = 0%nat /\
  registered (snd r) = registered w.
Proof.
  intros r. subst r. unfold DisplayPIDsAndExit.
  simpl fst; simpl snd.
  destruct (print_names (std_sort (SupportedPids manufacturer_id)) w)
    as (Ht & Hr & _ & _).
  split; [reflexivity|]. split; [exact Ht|].
  split; [|exact Hr].
  rewrite (since_app _ _ _ Ht).
  clear. induction (std_sort (SupportedPids manufacturer_id)) as [|n l IH];
    [reflexivity|].
  simpl. rewrite count_cons. exact IH.
Qed.

(** X11.  [DisplayPIDsAndExit] prints every supported PID name on a line
    of its own, duplicates included, in ascending byte order (the one
    ascending arrangement there is), sends nothing, and exits with
    [EXIT_OK]. *)
Theorem DisplayPIDsAndExit_lists_in_order (manufacturer_id : Z) (w : world) :
  let r := DisplayPIDsAndExit manufacturer_id w in
  let printed := std_sort (SupportedPids manufacturer_id) in
  fst r = exits EXIT_OK /\
  trace (snd r) =
    trace w ++ List.map (fun name => ev_cout [text name; newline]) printed /\
  Permutation (SupportedPids manufacturer_id) printed /\
  ascending printed /\
  (forall l, Permutation (SupportedPids manufacturer_id) l ->
             ascending l -> l = printed) /\
  count is_request (since w (snd r)) = 0%nat /\
  registered (snd r) = registered w.
Proof.
  intros r printed.
  destruct (DisplayPIDsAndExit_output manufacturer_id w)
    as (Hs & Ht & Hq & Hr).
  split; [exact Hs|]. split; [exact Ht|].
  split; [apply std_sort_perm|]. split; [apply std_sort_ascending|].
  split; [|split; [exact Hq|exact Hr]].
  intros l Hp Hl. apply ascending_unique; try assumption.
  - apply std_sort_ascending.
  - rewrite <- Hp. apply std_sort_perm.
Qed.

End Listing.

(** ** [main] *)

Section Main.

Context {enums : RDMEnums} {sysexits : SysExits} {strutil : StringUtils}
        {rdmhelper : RDMHelper} {m_pid_helper : PidStoreHelper}
        {libc : Libc} {cmdline : CommandLine} {moreexits : MoreSysExits}.

Lemma addressed_output (universe : Z) (uid : UID) (sub_device : Z)
    (l : list event) :
  count is_request l = 0%nat ->
  Forall (addressed_to universe uid sub_device) l.
Proof.
  induction l as [|e l IH]; intros H; constructor.
  - rewrite count_cons in H. destruct e; simpl in *; trivial; lia.
  - apply IH. rewrite count_cons in H. lia.
Qed.

Lemma DisplayHelpAndExit_boot (opts : options.t) (g : pending_request_t.t) :
  fst (DisplayHelpAndExit opts (boot g)) = exits EXIT_USAGE /\
  trace (snd (DisplayHelpAndExit opts (boot g))) =
    [ev_cout [text "Usage: "; text (options.cmd opts);
              text (usage_tail (if options.set_mode opts then "Set"
                                else "Get"));
              text (options.cmd opts); text switches; newline]].
Proof.
  unfold DisplayHelpAndExit. destruct (options.set_mode opts); split;
    reflexivity.
Qed.

Lemma DisplayPIDsAndExit_boot (manufacturer_id : Z)
    (g : pending_request_t.t) :
  count is_request (trace (snd (DisplayPIDsAndExit manufacturer_id (boot g))))
  = 0%nat.
Proof.
  destruct (DisplayPIDsAndExit_output manufacturer_id (boot g))
    as (_ & _ & H & _).
  exact H.
Qed.

(** Every request of a [PerformRequestAndWait] call goes where the call
    says. *)
Lemma PerformRequestAndWait_addressed (universe : Z) (uid : UID)
    (sub_device : Z) (pid_name : string) (is_set : bool)
    (inputs : list string) (fuel : nat) (replies : list reply)
    (g : pending_request_t.t) :
  Forall (addressed_to universe uid sub_device)
    (trace (snd (PerformRequestAndWait universe uid sub_device pid_name
                   is_set inputs fuel replies (boot g)))).
Proof.
  destruct (lookup_descriptor uid pid_name) as [pd|] eqn:Hl.
  - destruct (if is_set then SetRequest pd else GetRequest pd)
      as [d|] eqn:Hs.
    + destruct (BuildMessage d inputs) as [m|] eqn:Hb.
      * destruct (PerformRequestAndWait_invariant universe uid sub_device
                    pid_name is_set inputs pd d m g Hl Hs Hb fuel replies)
          as (added & -> & _ & _ & Hf & _).
        unfold opening, request_of. simpl.
        constructor; [destruct is_set; simpl; auto|].
        constructor; [exact I|].
        eapply Forall_impl; [|exact Hf].
        intros e He. destruct e; simpl; trivial.
        -- specialize (He eq_refl). unfold fetch_of in He. simpl in He.
           injection He as -> -> -> _ _. auto.
        -- specialize (He eq_refl). discriminate.
      * unfold PerformRequestAndWait. rewrite Hl, Hs, Hb.
        apply addressed_output. reflexivity.
    + unfold PerformRequestAndWait. rewrite Hl, Hs.
      apply addressed_output. reflexivity.
  - unfold PerformRequestAndWait. rewrite Hl.
    apply addressed_output. reflexivity.
Qed.

(** What [PerformRequestAndWait] does and how it ends do not depend on what
    the pending request held before the call. *)
Lemma PerformRequestAndWait_reads_no_garbage (universe : Z) (uid : UID)
    (sub_device : Z) (pid_name : string) (is_set : bool)
    (inputs : list string) (fuel : nat) (replies : list reply)
    (g1 g2 : pending_request_t.t) :
  let run g := PerformRequestAndWait universe uid sub_device pid_name is_set
                 inputs fuel replies (boot g) in
  fst (run g1) = fst (run g2) /\
  trace (snd (run g1)) = trace (snd (run g2)).
Proof.
  intros run. subst run. cbv beta.
  destruct (lookup_descriptor uid pid_name) as [pd|] eqn:Hl.
  - destruct (if is_set then SetRequest pd else GetRequest pd)
      as [d|] eqn:Hs.
    + destruct (BuildMessage d inputs) as [m|] eqn:Hb.
      * rewrite !(PerformRequestAndWait_submitted universe uid sub_device
                    pid_name is_set inputs pd d m Hl Hs Hb).
        unfold run_and_return.
        rewrite !(submit_boot universe uid sub_device is_set pd d m _ Hs).
        split; reflexivity.
      * unfold PerformRequestAndWait. rewrite Hl, Hs, Hb.
        split; reflexivity.
    + unfold PerformRequestAndWait. rewrite Hl, Hs. split; reflexivity.
  - unfold PerformRequestAndWait. rewrite Hl. split; reflexivity.
Qed.

(** X12.  [main] sends a request only if the network initialised, no help
    was asked for, the PID store loaded, a UID was given and parsed,
    --list-pids was not given, there is a positional argument, and the
    client connected; then it is [PerformRequestAndWait] for the first
    positional argument as the PID name and the others as its arguments.
    Every request of the run goes to the universe of the command line
    (as an unsigned int), to that UID, and to the sub-device given. *)
Theorem main_sends_only_what_was_asked (env : environment) (fuel : nat) :
  let opts := ParseOptions (argv env) (getopt env) (declared (junk env)) in
  let out := main env fuel in
  (count is_request (trace (final out)) <> 0%nat ->
   NetworkInit env = true /\
   options.help opts = false /\
   InitPidHelper env = true /\
   options.list_pids opts = false /\
   Setup env = true /\
   exists dest_uid pid_name inputs,
     options.uid opts = Some dest_uid /\
     options.args opts = pid_name :: inputs /\
     fatal out = [] /\
     (status out, final out) =
       PerformRequestAndWait (options.universe opts mod 4294967296)
         dest_uid (options.sub_device opts) pid_name (options.set_mode opts)
         inputs fuel (replies env) (boot (garbage env))) /\
  (forall dest_uid,
     options.uid opts = Some dest_uid ->
     Forall (addressed_to (options.universe opts mod 4294967296) dest_uid
                          (options.sub_device opts))
            (trace (final out))) /\
  (options.uid opts = None -> count is_request (trace (final out)) = 0%nat).
Proof.
  intros opts out. subst out. unfold main. fold opts.
  assert (Hquiet : forall o : outcome,
            count is_request (trace (final o)) = 0%nat ->
            (count is_request (trace (final o)) <> 0%nat ->
             NetworkInit env = true /\
             options.help opts = false /\
             InitPidHelper env = true /\
             options.list_pids opts = false /\
             Setup env = true /\
             exists dest_uid pid_name inputs,
               options.uid opts = Some dest_uid /\
               options.args opts = pid_name :: inputs /\
               fatal o = [] /\
               (status o, final o) =
                 PerformRequestAndWait (options.universe opts mod 4294967296)
                   dest_uid (options.sub_device opts) pid_name
                   (options.set_mode opts) inputs fuel (replies env)
                   (boot (garbage env))) /\
            (forall dest_uid,
               options.uid opts = Some dest_uid ->
               Forall (addressed_to (options.universe opts mod 4294967296)
                                    dest_uid (options.sub_device opts))
                      (trace (final o))) /\
            (options.uid opts = None ->
             count is_request (trace (final o)) = 0%nat)).
  { intros o Hq. split; [intros H; exfalso; now apply H|].
    split; [intros; now apply addressed_output|intros _; exact Hq]. }
  assert (Hhelp : count is_request
                    (trace (snd (DisplayHelpAndExit opts
                                   (boot (garbage env))))) = 0%nat).
  { destruct (DisplayHelpAndExit_boot opts (garbage env)) as [_ ->].
    reflexivity. }
  destruct (NetworkInit env); simpl negb; cbv iota;
    [|apply Hquiet; reflexivity].
  destruct (options.help opts) eqn:Hh; [apply Hquiet; exact Hhelp|].
  destruct (InitPidHelper env); simpl negb; cbv iota;
    [|apply Hquiet; reflexivity].
  destruct (options.uid opts) as [u|] eqn:Hu.
  - destruct (options.list_pids opts) eqn:Hlist;
      [apply Hquiet; apply DisplayPIDsAndExit_boot|].
    destruct (options.args opts) as [|pid_name inputs] eqn:Ha;
      [apply Hquiet; exact Hhelp|].
    destruct (Setup env); simpl negb; cbv iota;
      [|apply Hquiet; reflexivity].
    simpl status; simpl final; simpl fatal.
    split; [|split; [|congruence]].
    + intros _. repeat split.
      exists u, pid_name, inputs. repeat split.
      now destruct (PerformRequestAndWait _ _ _ _ _ _ _ _ _).
    + intros dest_uid [= <-].
      apply PerformRequestAndWait_addressed.
  - destruct (options.list_pids opts);
      [apply Hquiet; apply DisplayPIDsAndExit_boot
      |apply Hquiet; exact Hhelp].
Qed.

(** X13.  Help wins.  If -h or --help is among the options, the program
    prints the usage text of its mode (get or set) and exits with
    [EXIT_USAGE], not with success, whatever else is on the command line
    and whether or not the PID store loads or the daemon can be reached. *)
Theorem main_help_wins (env : environment) (fuel : nat) :
  NetworkInit env = true ->
  given (char "h") (served (rets (getopt env))) = true ->
  let out := main env fuel in
  let program := nth 0 (argv env) EmptyString in
  let verb :=
    if String.eqb (FilenameFromPathOrPath program) "ola_rdm_set"
    then "Set"%string else "Get"%string in
  status out = exits EXIT_USAGE /\
  trace (final out) =
    [ev_cout [text "Usage: "; text program; text (usage_tail verb);
              text program; text switches; newline]] /\
  fatal out = [].
Proof.
  intros Hn Hh out program verb. subst out. unfold main. rewrite Hn.
  simpl negb. cbv iota.
  destruct (ParseOptions_fields (argv env) (getopt env)
              (declared (junk env)))
    as (_ & _ & _ & Hhelp & _ & Hmode & Hcmd & _).
  rewrite Hhelp, Hh.
  destruct (DisplayHelpAndExit_boot
              (ParseOptions (argv env) (getopt env) (declared (junk env)))
              (garbage env)) as [Hs Ht].
  cbn [status final fatal].
  rewrite Hs, Ht, Hcmd, Hmode. fold program. subst verb.
  destruct (String.eqb _ _); repeat split.
Qed.

(** X14.  --list-pids needs no daemon and no PID argument: once the PID
    store has loaded, the program prints the names the store supports, in
    ascending order, for the manufacturer of the UID given, or for
    manufacturer 0 when no UID was given or the one given did not parse,
    and exits with [EXIT_OK] without connecting. *)
Theorem main_lists_pids (env : environment) (fuel : nat) :
  let opts := ParseOptions (argv env) (getopt env) (declared (junk env)) in
  let manufacturer_id :=
    match options.uid opts with
    | Some dest_uid => ManufacturerId dest_uid
    | None => 0
    end in
  NetworkInit env = true ->
  InitPidHelper env = true ->
  given (char "h") (served (rets (getopt env))) = false ->
  given (char "l") (served (rets (getopt env))) = true ->
  let out := main env fuel in
  status out = exits EXIT_OK /\
  trace (final out) =
    List.map (fun name => ev_cout [text name; newline])
             (std_sort (SupportedPids manufacturer_id)) /\
  registered (final out) = [] /\
  fatal out = [].
Proof.
  intros opts manufacturer_id Hn Hi Hh Hl out. subst out. unfold main.
  fold opts. rewrite Hn, Hi. simpl negb. cbv iota.
  destruct (ParseOptions_fields (argv env) (getopt env)
              (declared (junk env)))
    as (_ & _ & _ & Hhelp & Hlist & _).
  fold opts in Hhelp, Hlist. rewrite Hhelp, Hh, Hlist, Hl.
  subst manufacturer_id.
  destruct (options.uid opts) as [u|]; cbn [status final fatal];
    match goal with |- context [DisplayPIDsAndExit ?m ?w] =>
      destruct (DisplayPIDsAndExit_output m w) as (Hs & Ht & _ & Hr)
    end; rewrite Hs, Ht, Hr; repeat split.
Qed.

(** X15.  The program reads no uninitialised memory: how [main] ends, what
    it prints, logs and sends are the same whatever the uninitialised
    members of [opts] and the controller's pending request hold at the
    start. *)
Theorem main_reads_no_garbage (env : environment) (fuel : nat)
    (junk' : options.t) (garbage' : pending_request_t.t) :
  let env' :=
    {| NetworkInit := NetworkInit env;
       argv := argv env;
       getopt := getopt env;
       InitPidHelper := InitPidHelper env;
       Setup := Setup env;
       replies := replies env;
       junk := junk';
       garbage := garbage' |} in
  status (main env fuel) = status (main env' fuel) /\
  trace (final (main env fuel)) = trace (final (main env' fuel)) /\
  fatal (main env fuel) = fatal (main env' fuel).
Proof.
  intros env'. unfold main. subst env'. cbn [NetworkInit argv getopt
    InitPidHelper Setup replies junk garbage].
  rewrite (ParseOptions_reads_no_garbage (argv env) (getopt env)
             (declared junk') (declared (junk env)) eq_refl eq_refl).
  set (opts := ParseOptions (argv env) (getopt env) (declared (junk env))).
  destruct (NetworkInit env); simpl negb; cbv iota; [|repeat split].
  assert (Hhelp : forall g g',
            fst (DisplayHelpAndExit opts (boot g))
            = fst (DisplayHelpAndExit opts (boot g')) /\
            trace (snd (DisplayHelpAndExit opts (boot g)))
            = trace (snd (DisplayHelpAndExit opts (boot g')))).
  { intros g g'.
    destruct (DisplayHelpAndExit_boot opts g) as [-> ->].
    destruct (DisplayHelpAndExit_boot opts g') as [-> ->].
    split; reflexivity. }
  assert (Hpids : forall m g g',
            fst (DisplayPIDsAndExit m (boot g))
            = fst (DisplayPIDsAndExit m (boot g')) /\
            trace (snd (DisplayPIDsAndExit m (boot g)))
            = trace (snd (DisplayPIDsAndExit m (boot g')))).
  { intros m g g'.
    destruct (DisplayPIDsAndExit_output m (boot g)) as (-> & -> & _).
    destruct (DisplayPIDsAndExit_output m (boot g')) as (-> & -> & _).
    split; reflexivity. }
  destruct (options.help opts);
    [simpl; repeat split; apply Hhelp|].
  destruct (InitPidHelper env); simpl negb; cbv iota; [|repeat split].
  destruct (options.uid opts) as [u|].
  - destruct (options.list_pids opts);
      [simpl; repeat split; apply Hpids|].
    destruct (options.args opts) as [|pid_name inputs];
      [simpl; repeat split; apply Hhelp|].
    destruct (Setup env); simpl negb; cbv iota; [|repeat split].
    simpl. repeat split;
      apply PerformRequestAndWait_reads_no_garbage.
  - destruct (options.list_pids opts); simpl; repeat split;
      try apply Hpids; apply Hhelp.
Qed.

End Main.

(** * dmx-trigger *)

Section Trigger.

Context {libc : Libc} {exits_h : dmx_trigger.sysexits_h}.

Import dmx_trigger.

Lemma trigger_loop_served (l : list getopt_long.ret) :
  forall opts, ParseOptions_loop l opts = ParseOptions_loop (served l) opts.
Proof.
  induction l as [|r l IH]; intros opts; simpl; [reflexivity|].
  destruct (c r =? -1) eqn:H; [reflexivity|]. simpl. now rewrite H.
Qed.

Lemma trigger_loop_fields (l : list getopt_long.ret) :
  Forall (fun r => c r <> -1) l ->
  forall opts : options,
  let o := ParseOptions_loop l opts in
  log_level o =
    match last_level l with Some v => v | None => log_level opts end /\
  universe o =
    match last_optarg (char "u") l with
    | Some s => atoi s mod 4294967296
    | None => universe opts
    end /\
  help o = help opts || given (char "h") l /\
  args o = args opts.
Proof.
  induction 1 as [|r l Hr _ IH]; intros opts.
  - simpl. rewrite orb_false_r. repeat split.
  - apply Z.eqb_neq in Hr.
    cbn [ParseOptions_loop]. rewrite Hr.
    destruct (IH (ParseOptions_switch opts r)) as (Hl & Hu & Hh & Ha).
    cbn [last_level last_optarg given existsb]. fold (given (char "h") l).
    cbv zeta. rewrite Hl, Hu, Hh, Ha. clear.
    repeat split;
      try (destruct (last_level l); [reflexivity|]);
      try (destruct (last_optarg _ l); [reflexivity|]);
      unfold ParseOptions_switch, level_of, char; simpl;
      repeat match goal with
             | |- context [c r =? ?k] => destruct (Z.eqb_spec (c r) k)
             end;
      simpl; try reflexivity; try lia;
      repeat match goal with
             | |- context [atoi ?s =? ?k] => destruct (atoi s =? k)
             end; reflexivity.
Qed.

(** What [ParseOptions] leaves in each member of [opts]. *)
Lemma trigger_ParseOptions_fields (argv : list string)
    (g : getopt_long.run) (opts : options) :
  let o := ParseOptions argv g opts in
  let l := served (rets g) in
  log_level o =
    match last_level l with Some v => v | None => log_level opts end /\
  universe o =
    match last_optarg (char "u") l with
    | Some s => atoi s mod 4294967296
    | None => universe opts
    end /\
  help o = help opts || given (char "h") l /\
  args o = args opts ++ skipn (optind g) argv.
Proof.
  intros o l. subst o. unfold ParseOptions.
  rewrite trigger_loop_served. fold l.
  destruct (trigger_loop_fields l (served_no_end (rets g)) opts)
    as (Hl & Hu & Hh & Ha).
  cbn [log_level universe help args].
  split; [exact Hl|]. split; [exact Hu|].
  split; [exact Hh|now rewrite Ha].
Qed.

(** X16.  [ParseOptions] of dmx-trigger: the log level is that of the last
    -l whose argument is a number from 0 to 4 (none, fatal, warn, info,
    debug); any other -l is ignored and leaves the level as it was.  The
    universe is what [atoi] makes of the last -u, as an unsigned int.  Help,
    once asked for, stays asked for; the positional arguments are those
    from [optind] on. *)
Theorem trigger_ParseOptions_last_option_wins (argv : list string)
    (g : getopt_long.run) (opts : options) :
  let o := ParseOptions argv g opts in
  let l := served (rets g) in
  log_level o =
    match last_level l with Some v => v | None => log_level opts end /\
  universe o =
    match last_optarg (char "u") l with
    | Some s => atoi s mod 4294967296
    | None => universe opts
    end /\
  (0 <= universe opts < 4294967296 -> 0 <= universe o < 4294967296) /\
  help o = help opts || given (char "h") l /\
  args o = args opts ++ skipn (optind g) argv.
Proof.
  intros o l.
  destruct (trigger_ParseOptions_fields argv g opts) as (Hl & Hu & Hh & Ha).
  fold o l in Hl, Hu, Hh, Ha.
  split; [exact Hl|]. split; [exact Hu|].
  split; [|split; [exact Hh|exact Ha]].
  intros Hrange. rewrite Hu.
  destruct (last_optarg (char "u") l); [|exact Hrange].
  apply Z.mod_pos_bound. lia.
Qed.

(** X17.  [InstallSignals] succeeds exactly when the three calls of
    [sigaction] do, and then SIGCHLD has [CatchSIGCHLD] and both SIGINT and
    SIGTERM have [CatchSIGINT].  It stops at the first call that fails,
    logs one warning, and undoes nothing: the handlers installed before
    the failure stay.  Signal by signal: if the call for SIGCHLD fails,
    nothing is installed and the warning names SIGCHLD, whatever the
    other two calls would do; if the call for SIGINT is the first to fail,
    SIGCHLD keeps [CatchSIGCHLD] and the warning names SIGINT, whatever the
    call for SIGTERM would do; if only the call for SIGTERM fails, SIGCHLD
    and SIGINT keep their handlers and the warning names SIGTERM. *)
Theorem InstallSignals_stops_at_first_failure (fails : signal -> bool) :
  let r := InstallSignals fails in
  (fst r = true <->
   fails SIGCHLD = false /\ fails SIGINT = false /\ fails SIGTERM = false) /\
  (fst r = true -> snd r = intended) /\
  (exists n,
     List.filter is_sigaction (snd r) = firstn n intended /\
     (fst r = false -> (n < 3)%nat)) /\
  count_occ Bool.bool_dec (List.map is_warning (snd r)) true
    = (if fst r then 0 else 1)%nat /\
  (fails SIGCHLD = true ->
   r = (false,
        [ev_log OLA_LOG_WARN [text "Failed to install signal SIGCHLD"]])) /\
  (fails SIGCHLD = false -> fails SIGINT = true ->
   r = (false,
        [ev_sigaction SIGCHLD CatchSIGCHLD;
         ev_log OLA_LOG_WARN [text "Failed to install signal SIGINT"]])) /\
  (fails SIGCHLD = false -> fails SIGINT = false -> fails SIGTERM = true ->
   r = (false,
        [ev_sigaction SIGCHLD CatchSIGCHLD;
         ev_sigaction SIGINT CatchSIGINT;
         ev_log OLA_LOG_WARN [text "Failed to install signal SIGTERM"]])).
Proof.
  unfold InstallSignals, intended.
  destruct (fails SIGCHLD), (fails SIGINT), (fails SIGTERM); simpl;
    (split; [split; [intros; try discriminate; auto
                    |intros (? & ? & ?); congruence]|]);
    (split; [intros; try discriminate; reflexivity|]);
    (split;
     [|split; [reflexivity|];
       repeat split; intros; first [reflexivity|discriminate]]);
    first [ exists 0%nat; split; [reflexivity|intros; lia]
          | exists 1%nat; split; [reflexivity|intros; lia]
          | exists 2%nat; split; [reflexivity|intros; lia]
          | exists 3%nat; split; [reflexivity|intros; discriminate] ].
Qed.


(** X18.  dmx-trigger treats a wrong command line as a request for help:
    when -h is among the options, or the positional arguments are not
    exactly one, it prints the usage text and exits with status 0, before
    logging is set up, and without opening a file or contacting the
    daemon. *)
Theorem trigger_usage_exits_with_success (env : environment) :
  given (char "h") (served (rets (getopt env))) = true \/
  List.length (skipn (optind (getopt env)) (argv env)) <> 1%nat ->
  main env =
  (exits 0,
   [ev_cout [text "Usage: "; text (nth 0 (argv env) EmptyString);
             text help_text; newline]]).
Proof.
  intros H. unfold main.
  destruct (trigger_ParseOptions_fields (argv env) (getopt env)
              {| help := false; log_level := OLA_LOG_INFO; universe := 1;
                 args := [] |})
    as (_ & _ & Hh & Ha).
  rewrite Hh, Ha. cbn [help args orb app].
  destruct (given (char "h") (served (rets (getopt env)))); [reflexivity|].
  destruct H as [H|H]; [discriminate|].
  apply Nat.eqb_neq in H. now rewrite H.
Qed.


End Trigger.

(** * The command lines at work *)

(** [ola_rdm_get ... --uid 7a70:00000001 ... --uid bogus]: the second --uid
    does not parse. *)
Lemma ParseOptions_last_uid_wins_witness :
  Forall (fun r => c r = 0 -> flag_set r = true)
         (served (rets (getopt (Bench.rdm_get [Bench.long_uid "bogus"] [])))) /\
  options.uid
    (@ParseOptions Bench.libc Bench.cmdline
       (argv (Bench.rdm_get [Bench.long_uid "bogus"] []))
       (getopt (Bench.rdm_get [Bench.long_uid "bogus"] []))
       (declared Bench.leftover))
  = None.
Proof.
  assert (H : Forall (fun r => c r = 0 -> flag_set r = true)
                (served (rets (getopt
                   (Bench.rdm_get [Bench.long_uid "bogus"] [])))))
    by (simpl;
        repeat (apply Forall_cons;
                [vm_compute; intros E;
                 first [reflexivity|discriminate E]|]);
        apply Forall_nil).
  split; [exact H|].
  exact (@ParseOptions_last_uid_wins Bench.libc Bench.cmdline
           (argv (Bench.rdm_get [Bench.long_uid "bogus"] []))
           (getopt (Bench.rdm_get [Bench.long_uid "bogus"] []))
           (declared Bench.leftover) H).
Defined.

(** [ola_rdm_get -u 3 -d 65537 --uid 7a70:00000001 DEVICE_INFO]: the
    request goes to universe 3 and to sub-device 1. *)
Lemma main_sends_only_what_was_asked_witness :
  let out := Bench.rdm_main (Bench.rdm_get [] [Rig.nack 3 2]) 4 in
  count is_request (trace (final out)) = 1%nat /\
  Forall (addressed_to 3 Rig.device 1) (trace (final out)) /\
  status out = returns 0.
Proof.
  intros out.
  pose proof (@main_sends_only_what_was_asked
                Rig.enums Rig.sysexits Rig.strutil Rig.rdmhelper
                Rig.m_pid_helper Bench.libc Bench.cmdline Bench.moreexits
                (Bench.rdm_get [] [Rig.nack 3 2]) 4%nat) as (_ & H & _).
  split; [reflexivity|]. split; [|reflexivity].
  exact (H Rig.device eq_refl).
Defined.

(** [ola_rdm_get -u 3 -d 65537 --uid 7a70:00000001 -h DEVICE_INFO] *)
Lemma main_help_wins_witness :
  given (char "h")
        (served (rets (getopt (Bench.rdm_get [Bench.short "h" EmptyString]
                                             [])))) = true /\
  status (Bench.rdm_main (Bench.rdm_get [Bench.short "h" EmptyString] []) 4)
    = exits 64.
Proof.
  split; [reflexivity|].
  exact (proj1 (@main_help_wins
                  Rig.enums Rig.sysexits Rig.strutil Rig.rdmhelper
                  Rig.m_pid_helper Bench.libc Bench.cmdline Bench.moreexits
                  (Bench.rdm_get [Bench.short "h" EmptyString] []) 4%nat
                  eq_refl eq_refl)).
Defined.

(** [ola_rdm_get -u 3 -d 65537 --uid 7a70:00000001 -l DEVICE_INFO] *)
Lemma main_lists_pids_witness :
  given (char "l")
        (served (rets (getopt (Bench.rdm_get [Bench.short "l" EmptyString]
                                             [])))) = true /\
  let out :=
    Bench.rdm_main (Bench.rdm_get [Bench.short "l" EmptyString] []) 4 in
  status out = exits 0 /\
  trace (final out) =
    [ev_cout [text "DEVICE_INFO"; newline];
     ev_cout [text "DEVICE_INFO"; newline];
     ev_cout [text "QUEUED_MESSAGE"; newline];
     ev_cout [text "STATUS_MESSAGES"; newline]].
Proof.
  split; [reflexivity|].
  destruct (@main_lists_pids
              Rig.enums Rig.sysexits Rig.strutil Rig.rdmhelper
              Rig.m_pid_helper Bench.libc Bench.cmdline Bench.moreexits
              (Bench.rdm_get [Bench.short "l" EmptyString] []) 4%nat
              eq_refl eq_refl eq_refl eq_refl)
    as (Hs & Ht & _).
  split; [exact Hs|exact Ht].
Defined.

(** The calls for SIGINT and for SIGTERM would both fail: SIGCHLD keeps its
    handler, the warning is about SIGINT, and SIGTERM is never tried. *)
Lemma InstallSignals_stops_at_first_failure_witness :
  let fails :=
    fun s => match s with dmx_trigger.SIGCHLD => false | _ => true end in
  dmx_trigger.InstallSignals fails =
    (false,
     [dmx_trigger.ev_sigaction dmx_trigger.SIGCHLD dmx_trigger.CatchSIGCHLD;
      dmx_trigger.ev_log dmx_trigger.OLA_LOG_WARN
        [text "Failed to install signal SIGINT"]]).
Proof.
  intros fails.
  destruct (InstallSignals_stops_at_first_failure fails)
    as (_ & _ & _ & _ & _ & H & _).
  exact (H eq_refl eq_refl).
Defined.

(** [dmx-trigger conf extra]: two positional arguments. *)
Lemma trigger_usage_exits_with_success_witness :
  List.length (skipn 1 ["dmx-trigger"; "conf"; "extra"]%string) <> 1%nat /\
  fst (@dmx_trigger.main Bench.libc Bench.exits_h
         (Bench.trigger ["dmx-trigger"; "conf"; "extra"]%string 1))
    = exits 0.
Proof.
  assert (H : List.length (skipn 1 ["dmx-trigger"; "conf"; "extra"]%string)
              <> 1%nat) by (simpl; lia).
  split; [exact H|].
  rewrite (@trigger_usage_exits_with_success Bench.libc Bench.exits_h
             (Bench.trigger ["dmx-trigger"; "conf"; "extra"]%string 1)
             (or_intror H)).
  reflexivity.
Defined.

